(** * Havoc Demon transport layer: host pool, HTTP channel, SMB channel

    A shallow embedding of [src/payloads/Demon/src/core/TransportHttp.c]
    and [src/payloads/Demon/src/core/TransportSmb.c].

    - The [HOST_DATA] records live in a heap (a list indexed by address);
      [PHOST_DATA] is an optional address, [None] being [NULL].
    - The global [Instance] is an explicit record threaded through every
      function.
    - [DWORD] arithmetic is on [Z] with the wrap-around written out.
    - Loops over the linked list take a [fuel] budget: the C loops need
      not terminate on an arbitrary heap (for instance on a cycle).
    - Win32 calls are answered by an oracle record given as an argument.
    - The debug macros [PRINTF], [PUTS], [PRINTF_DONT_SEND] and
      [PUTS_DONT_SEND] are not modelled: they expand to nothing outside
      debug builds.  [VM_IF] / [VM_ELSE] are the plain conditionals.
    - [TransportHttp.c] carries two unmerged variants of [HttpSend]
      (conflict markers are left in the file); they differ by calls to
      [WinHttpSetOption] whose result is only logged.  The variant with
      these calls is followed.
    - The release of memory ([LocalFree] of a response, [GlobalFree] of
      the IE proxy strings) is not modelled, except where [SmbRecv]
      frees the buffer it allocated. *)

From Stdlib Require Import ZArith String Lia.
From stdpp Require Import base numbers list strings.

Local Open Scope Z_scope.

(** ** Machine integers *)

Definition DWORD_MODULUS : Z := 2 ^ 32.

(** Truncation of an integer to an unsigned 32-bit [DWORD]. *)
Definition DWORD (z : Z) : Z := z mod DWORD_MODULUS.

(** ** Results of running a piece of the program *)

Inductive result (A : Type) : Type :=
| Ok (a : A)      (* the function returned *)
| Fault           (* NULL or dangling dereference, division by zero *)
| OutOfFuel       (* the loop budget was used up *)
| ProcessExit.    (* [CommandExit] was called *)

Arguments Ok {A} a.
Arguments Fault {A}.
Arguments OutOfFuel {A}.
Arguments ProcessExit {A}.

Definition bind {A B} (m : result A) (k : A -> result B) : result B :=
  match m with
  | Ok a => k a
  | Fault => Fault
  | OutOfFuel => OutOfFuel
  | ProcessExit => ProcessExit
  end.

Notation "x <- m ;; k" := (bind m (fun x => k))
  (at level 100, m at next level, right associativity,
   format "'[v' x  <-  m  ;;  '/' k ']'").

(** ** Data model *)

(** A pointer to a host record; [None] is [NULL]. *)
Definition PHOST_DATA : Type := option nat.

Record HOST_DATA : Type := mkHost {
  Host     : string;
  Port     : Z;
  Dead     : bool;
  Failures : Z;
  Next     : PHOST_DATA
}.

Definition HANDLE : Type := Z.

Record PROXY_INFO : Type := mkProxy {
  dwAccessType    : Z;
  lpszProxy       : option string;
  lpszProxyBypass : option string
}.

Record BUFFER : Type := mkBuffer {
  Buffer : option (list Z);
  Length : Z
}.

(** The parts of the global [Instance] that the transport code reads or
    writes. *)
Record INSTANCE : Type := mkInstance {
  Heap                     : list HOST_DATA;   (* heap cells holding HOST_DATA *)
  Transport_Hosts          : PHOST_DATA;       (* Config.Transport.Hosts *)
  Transport_Host           : PHOST_DATA;       (* Config.Transport.Host *)
  Transport_NumHosts       : Z;                (* set by the configuration loader *)
  Transport_HostMaxRetries : Z;
  Transport_HostRotation   : Z;
  Transport_Secure         : bool;
  Transport_Uris           : list string;
  Transport_Headers        : list string;
  Proxy_Enabled            : bool;
  Proxy_Url                : string;
  Proxy_Username           : option string;
  Proxy_Password           : option string;
  hHttpSession             : option HANDLE;
  LookedForProxy           : bool;
  ProxyForUrl              : option PROXY_INFO;
  Transport_Handle         : option HANDLE;    (* the named pipe *)
  Session_Connected        : bool;
  Session_AgentID          : Z
}.

Definition set_Heap (h : list HOST_DATA) (i : INSTANCE) : INSTANCE :=
  mkInstance h (Transport_Hosts i) (Transport_Host i) (Transport_NumHosts i)
    (Transport_HostMaxRetries i) (Transport_HostRotation i) (Transport_Secure i)
    (Transport_Uris i) (Transport_Headers i) (Proxy_Enabled i) (Proxy_Url i)
    (Proxy_Username i) (Proxy_Password i) (hHttpSession i) (LookedForProxy i)
    (ProxyForUrl i) (Transport_Handle i) (Session_Connected i) (Session_AgentID i).

Definition set_Hosts (p : PHOST_DATA) (i : INSTANCE) : INSTANCE :=
  mkInstance (Heap i) p (Transport_Host i) (Transport_NumHosts i)
    (Transport_HostMaxRetries i) (Transport_HostRotation i) (Transport_Secure i)
    (Transport_Uris i) (Transport_Headers i) (Proxy_Enabled i) (Proxy_Url i)
    (Proxy_Username i) (Proxy_Password i) (hHttpSession i) (LookedForProxy i)
    (ProxyForUrl i) (Transport_Handle i) (Session_Connected i) (Session_AgentID i).

Definition set_Host (p : PHOST_DATA) (i : INSTANCE) : INSTANCE :=
  mkInstance (Heap i) (Transport_Hosts i) p (Transport_NumHosts i)
    (Transport_HostMaxRetries i) (Transport_HostRotation i) (Transport_Secure i)
    (Transport_Uris i) (Transport_Headers i) (Proxy_Enabled i) (Proxy_Url i)
    (Proxy_Username i) (Proxy_Password i) (hHttpSession i) (LookedForProxy i)
    (ProxyForUrl i) (Transport_Handle i) (Session_Connected i) (Session_AgentID i).

Definition set_hHttpSession (h : option HANDLE) (i : INSTANCE) : INSTANCE :=
  mkInstance (Heap i) (Transport_Hosts i) (Transport_Host i) (Transport_NumHosts i)
    (Transport_HostMaxRetries i) (Transport_HostRotation i) (Transport_Secure i)
    (Transport_Uris i) (Transport_Headers i) (Proxy_Enabled i) (Proxy_Url i)
    (Proxy_Username i) (Proxy_Password i) h (LookedForProxy i)
    (ProxyForUrl i) (Transport_Handle i) (Session_Connected i) (Session_AgentID i).

Definition set_LookedForProxy (b : bool) (i : INSTANCE) : INSTANCE :=
  mkInstance (Heap i) (Transport_Hosts i) (Transport_Host i) (Transport_NumHosts i)
    (Transport_HostMaxRetries i) (Transport_HostRotation i) (Transport_Secure i)
    (Transport_Uris i) (Transport_Headers i) (Proxy_Enabled i) (Proxy_Url i)
    (Proxy_Username i) (Proxy_Password i) (hHttpSession i) b
    (ProxyForUrl i) (Transport_Handle i) (Session_Connected i) (Session_AgentID i).

Definition set_ProxyForUrl (p : option PROXY_INFO) (i : INSTANCE) : INSTANCE :=
  mkInstance (Heap i) (Transport_Hosts i) (Transport_Host i) (Transport_NumHosts i)
    (Transport_HostMaxRetries i) (Transport_HostRotation i) (Transport_Secure i)
    (Transport_Uris i) (Transport_Headers i) (Proxy_Enabled i) (Proxy_Url i)
    (Proxy_Username i) (Proxy_Password i) (hHttpSession i) (LookedForProxy i)
    p (Transport_Handle i) (Session_Connected i) (Session_AgentID i).

Definition set_Handle (h : option HANDLE) (i : INSTANCE) : INSTANCE :=
  mkInstance (Heap i) (Transport_Hosts i) (Transport_Host i) (Transport_NumHosts i)
    (Transport_HostMaxRetries i) (Transport_HostRotation i) (Transport_Secure i)
    (Transport_Uris i) (Transport_Headers i) (Proxy_Enabled i) (Proxy_Url i)
    (Proxy_Username i) (Proxy_Password i) (hHttpSession i) (LookedForProxy i)
    (ProxyForUrl i) h (Session_Connected i) (Session_AgentID i).

Definition set_Connected (b : bool) (i : INSTANCE) : INSTANCE :=
  mkInstance (Heap i) (Transport_Hosts i) (Transport_Host i) (Transport_NumHosts i)
    (Transport_HostMaxRetries i) (Transport_HostRotation i) (Transport_Secure i)
    (Transport_Uris i) (Transport_Headers i) (Proxy_Enabled i) (Proxy_Url i)
    (Proxy_Username i) (Proxy_Password i) (hHttpSession i) (LookedForProxy i)
    (ProxyForUrl i) (Transport_Handle i) b (Session_AgentID i).

(** Field updates of one host record. *)
Definition set_Dead (b : bool) (r : HOST_DATA) : HOST_DATA :=
  mkHost (Host r) (Port r) b (Failures r) (Next r).

Definition set_Failures (n : Z) (r : HOST_DATA) : HOST_DATA :=
  mkHost (Host r) (Port r) (Dead r) n (Next r).

(** [*Host] : reading through a pointer.  [NULL] and addresses outside
    the heap fault. *)
Definition deref (heap : list HOST_DATA) (p : PHOST_DATA) : result HOST_DATA :=
  match p with
  | None => Fault
  | Some a => match heap !! a with
              | Some r => Ok r
              | None => Fault
              end
  end.

(** [! Host] on a pointer. *)
Definition is_NULL (p : PHOST_DATA) : bool :=
  match p with
  | None => true
  | Some _ => false
  end.

(** Modelled from the spec: the two strategy constants come from
    [TransportHttp.h], which is outside the transport files.  The spec
    has "RotationPolicy: enumerated {RoundRobin, Random}": two different
    values, taken as 0 and 1. *)
Definition TRANSPORT_HTTP_ROTATION_ROUND_ROBIN : Z := 0.
Definition TRANSPORT_HTTP_ROTATION_RANDOM : Z := 1.

(** ** Host pool (TransportHttp.c) *)

(** [HostAdd]: a cell is allocated, its [Host], [Port], [Dead] and [Next]
    fields are written, and it becomes the head of the list.

    Modelled from the spec: [MmHeapAlloc] is defined outside the
    transport files and [HostAdd] does not write [Failures]; the spec has
    "allocates a record with [failures=0, dead=false]", so the cell comes
    zeroed.  [NumHosts] is not touched by [HostAdd]. *)
Definition HostAdd (host : string) (port : Z) (st : INSTANCE)
  : PHOST_DATA * INSTANCE :=
  let a := length (Heap st) in
  let HostData := mkHost host port false 0 (Transport_Hosts st) in
  (Some a, set_Hosts (Some a) (set_Heap (Heap st ++ [HostData]) st)).

(** The [do { ... } while ( TRUE )] loop of [HostCount]. *)
Fixpoint HostCount_loop (fuel : nat) (heap : list HOST_DATA)
    (Head Host : PHOST_DATA) (Count : Z) : result Z :=
  match fuel with
  | O => OutOfFuel
  | S fuel' =>
      match Host with
      | None => Ok Count                               (* if ( ! Host ) break; *)
      | Some a =>
          match heap !! a with
          | None => Fault
          | Some r =>
              let Count := DWORD (Count + 1) in        (* Count++ *)
              let Host := Next r in                    (* Host = Host->Next *)
              if decide (Head = Host) then Ok Count    (* back at the head *)
              else HostCount_loop fuel' heap Head Host Count
          end
      end
  end.

Definition HostCount (fuel : nat) (st : INSTANCE) : result Z :=
  HostCount_loop fuel (Heap st) (Transport_Hosts st) (Transport_Hosts st) 0.

(** The loop of [HostCheckup]; [Count] is the number of dead hosts. *)
Fixpoint HostCheckup_loop (fuel : nat) (heap : list HOST_DATA)
    (Head Host : PHOST_DATA) (Count : Z) : result Z :=
  match fuel with
  | O => OutOfFuel
  | S fuel' =>
      match Host with
      | None => Ok Count
      | Some a =>
          match heap !! a with
          | None => Fault
          | Some r =>
              let Count := if Dead r then DWORD (Count + 1) else Count in
              let Host := Next r in
              if decide (Head = Host) then Ok Count
              else HostCheckup_loop fuel' heap Head Host Count
          end
      end
  end.

Definition HostCheckup (fuel : nat) (st : INSTANCE) : result bool :=
  Count <- HostCheckup_loop fuel (Heap st) (Transport_Hosts st) (Transport_Hosts st) 0 ;;
  Total <- HostCount fuel st ;;
  (* Alive = TRUE; if ( HostCount() == Count ) Alive = FALSE; *)
  Ok (if Total =? Count then false else true).

(** [a % b] on [DWORD]s; the divisor zero is a fault. *)
Definition DWORD_rem (a b : Z) : result Z :=
  if b =? 0 then Fault else Ok (a mod b).

(** The [for ( ;; )] walk of [HostRandom]. *)
Fixpoint HostRandom_loop (fuel : nat) (heap : list HOST_DATA)
    (Index : Z) (Host : PHOST_DATA) (Count : Z) : result PHOST_DATA :=
  match fuel with
  | O => OutOfFuel
  | S fuel' =>
      if Count =? Index then Ok Host                   (* if ( Count == Index ) break; *)
      else
        match Host with
        | None => Ok None                              (* if ( ! Host ) break; *)
        | Some a =>
            match heap !! a with
            | None => Fault
            | Some r =>
                match Next r with
                | None => Ok None                      (* Host = NULL; break; *)
                | Some b =>
                    HostRandom_loop fuel' heap Index (Some b) (DWORD (Count + 1))
                end
            end
        end
  end.

(** [HostRandom]; [rnd] is the value [RandomNumber32()] returns. *)
Definition HostRandom (fuel : nat) (rnd : Z) (st : INSTANCE) : result PHOST_DATA :=
  n <- HostCount fuel st ;;
  Index <- DWORD_rem (DWORD rnd) n ;;
  HostRandom_loop fuel (Heap st) Index (Transport_Hosts st) 0.

(** The reset loop of the exhaustion rule in [HostRotation]. *)
Fixpoint HostRotation_reset (fuel : nat) (heap : list HOST_DATA)
    (Host : PHOST_DATA) : result (list HOST_DATA) :=
  match fuel with
  | O => OutOfFuel
  | S fuel' =>
      match Host with
      | None => Ok heap                                (* if ( ! Host ) break; *)
      | Some a =>
          match heap !! a with
          | None => Fault
          | Some r =>
              (* Host->Failures = 0; Host->Dead = FALSE; Host = Host->Next; *)
              HostRotation_reset fuel'
                (<[a := set_Dead false (set_Failures 0 r)]> heap) (Next r)
          end
      end
  end.

(** The scan of the round-robin branch:
    [for ( Count = 0; Count < HostCount(); ) { ... }].
    [Count] is never incremented, so the condition is [0 < HostCount()]
    at every iteration. *)
Fixpoint HostRotation_scan (cfuel fuel : nat) (st : INSTANCE)
    (Host : PHOST_DATA) : result PHOST_DATA :=
  match fuel with
  | O => OutOfFuel
  | S fuel' =>
      n <- HostCount cfuel st ;;
      if 0 <? n then
        match Host with
        | None => Ok None                              (* if ( ! Host ) break; *)
        | Some a =>
            match Heap st !! a with
            | None => Fault
            | Some r =>
                if Dead r then HostRotation_scan cfuel fuel' st (Next r)
                else Ok (Some a)                       (* VM_ELSE break; *)
            end
        end
      else Ok Host
  end.

(** The tail of [HostRotation]: the infinite-retries rule and the final
    [return Host]. *)
Definition HostRotation_exhaust (fuel : nat) (Host : PHOST_DATA) (st : INSTANCE)
  : result (PHOST_DATA * INSTANCE) :=
  if (Transport_HostMaxRetries st =? 0) && is_NULL Host then
    heap <- HostRotation_reset fuel (Heap st) (Transport_Hosts st) ;;
    Ok (Transport_Hosts st, set_Heap heap st)
  else Ok (Host, st).

(** The first block of [HostRotation]: with more than one configured
    host the proxy is looked for again after rotating. *)
Definition HostRotation_proxy (st : INSTANCE) : INSTANCE :=
  if 1 <? Transport_NumHosts st then set_LookedForProxy false st else st.

(** [HostRotation].  The function calls itself once, with the
    round-robin strategy, from the random branch. *)
Fixpoint HostRotation (fuel : nat) (Strategy : Z) (rnd : Z) (st : INSTANCE)
  : result (PHOST_DATA * INSTANCE) :=
  match fuel with
  | O => OutOfFuel
  | S fuel' =>
      let st := HostRotation_proxy st in
      if Strategy =? TRANSPORT_HTTP_ROTATION_ROUND_ROBIN then
        match Transport_Host st with
        | None => Ok (Transport_Hosts st, st)          (* return Host; *)
        | Some _ =>
            Host <- HostRotation_scan fuel' fuel' st (Transport_Hosts st) ;;
            HostRotation_exhaust fuel' Host st
        end
      else if Strategy =? TRANSPORT_HTTP_ROTATION_RANDOM then
        Host <- HostRandom fuel' rnd st ;;
        r <- deref (Heap st) Host ;;                   (* Host->Dead *)
        if Dead r then
          res <- HostRotation fuel' TRANSPORT_HTTP_ROTATION_ROUND_ROBIN rnd st ;;
          HostRotation_exhaust fuel' (fst res) (snd res)
        else HostRotation_exhaust fuel' Host st
      else HostRotation_exhaust fuel' None st
  end.

(** [HostFailure]. *)
Definition HostFailure (fuel : nat) (rnd : Z) (Host : PHOST_DATA) (st : INSTANCE)
  : result (PHOST_DATA * INSTANCE) :=
  match Host with
  | None => Ok (None, st)                              (* return NULL; *)
  | Some a =>
      r <- deref (Heap st) Host ;;
      if Failures r =? Transport_HostMaxRetries st then
        (* Host->Dead = TRUE; return HostRotation( ... HostRotation ); *)
        let st := set_Heap (<[a := set_Dead true r]> (Heap st)) st in
        HostRotation fuel (Transport_HostRotation st) rnd st
      else
        (* Host->Failures++; return Host; *)
        Ok (Host,
            set_Heap (<[a := set_Failures (DWORD (Failures r + 1)) r]> (Heap st)) st)
  end.

(** ** Win32 calls: events and oracle answers *)

Inductive WINHTTP_OPTION : Type :=
| OPTION_SECURE_PROTOCOLS
| OPTION_SECURITY_FLAGS
| OPTION_ENABLE_FEATURE
| OPTION_PROXY
| OPTION_PROXY_USERNAME
| OPTION_PROXY_PASSWORD.

Inductive AUTOPROXY : Type :=
| AUTOPROXY_AUTO_DETECT
| AUTOPROXY_CONFIG_URL.

(** The calls the transport code makes to the outside, in order. *)
Inductive EVENT : Type :=
| EvTokenImpersonate (b : bool)
| EvWinHttpOpen (named_proxy : option string)
| EvWinHttpConnect (session : HANDLE) (host : string) (port : Z)
| EvWinHttpOpenRequest (connect : HANDLE) (endpoint : string) (secure : bool)
| EvWinHttpSetOption (h : HANDLE) (opt : WINHTTP_OPTION)
| EvWinHttpAddRequestHeaders (request : HANDLE) (header : string)
| EvWinHttpGetProxyForUrl (flags : AUTOPROXY)
| EvWinHttpGetIEProxyConfigForCurrentUser
| EvWinHttpSendRequest (request : HANDLE) (data : BUFFER)
| EvWinHttpReceiveResponse (request : HANDLE)
| EvWinHttpQueryHeaders (request : HANDLE)
| EvWinHttpReadData (request : HANDLE)
| EvWinHttpCloseHandle (h : HANDLE)
| EvCreateNamedPipeW
| EvConnectNamedPipe (pipe : HANDLE)
| EvSysNtClose (pipe : HANDLE)
| EvPipeWrite (pipe : HANDLE) (data : BUFFER)
| EvPeekNamedPipe (pipe : option HANDLE)
| EvReadFile (pipe : option HANDLE) (size : Z)
| EvLocalAlloc (size : Z)
| EvLocalFree
| EvPipeRead (pipe : option HANDLE) (size : Z).

Definition HTTP_STATUS_OK : Z := 200.
Definition ERROR_INTERNET_CANNOT_CONNECT : Z := 12029.
Definition ERROR_NO_DATA : Z := 232.
Definition ERROR_MORE_DATA : Z := 234.

(** [WINHTTP_CURRENT_USER_IE_PROXY_CONFIG]. *)
Record IE_PROXY_CONFIG : Type := mkIEProxy {
  ie_lpszProxy         : option string;
  ie_lpszProxyBypass   : option string;
  ie_lpszAutoConfigUrl : option string
}.

(** What the outside answers during one [HttpSend]. *)
Record HTTP_ORACLE : Type := mkHttpOracle {
  o_WinHttpOpen            : option HANDLE;
  o_WinHttpConnect         : option HANDLE;
  o_RandomNumber32_uri     : Z;
  o_WinHttpOpenRequest     : option HANDLE;
  o_GetProxyForUrl_detect  : option PROXY_INFO;
  o_GetIEProxyConfig       : option IE_PROXY_CONFIG;
  o_GetProxyForUrl_config  : option PROXY_INFO;
  o_WinHttpSendRequest     : bool;
  o_LastError              : Z;                 (* after a failed send *)
  o_WinHttpReceiveResponse : bool;
  o_WinHttpQueryHeaders    : option Z;
  o_WinHttpReadData        : list (option (list Z));
  o_RandomNumber32_host    : Z
}.

(** ** HTTP channel (TransportHttp.c) *)

(** [HttpQueryStatus]. *)
Definition HttpQueryStatus (o : HTTP_ORACLE) : Z :=
  match o_WinHttpQueryHeaders o with
  | Some StatusCode => DWORD StatusCode
  | None => 0
  end.

(** The read loop of [HttpSend]: chunks are appended until a read fails
    or returns no byte.  The answer list running out stands for a read
    of zero bytes.  Returns the response buffer and the number of
    [WinHttpReadData] calls.  [LocalAlloc] and [LocalReAlloc] are taken
    to succeed: the code does not test what they return, and copies
    through it. *)
Fixpoint HttpSend_read (reads : list (option (list Z)))
    (RespBuffer : option (list Z)) : option (list Z) * nat :=
  match reads with
  | [] => (RespBuffer, 1%nat)
  | None :: _ => (RespBuffer, 1%nat)                   (* ! Successful *)
  | Some [] :: _ => (RespBuffer, 1%nat)                (* BufRead == 0 *)
  | Some chunk :: reads' =>
      let RespBuffer :=
        match RespBuffer with
        | None => Some chunk                           (* LocalAlloc *)
        | Some b => Some (b ++ chunk)                  (* LocalReAlloc, MemCopy *)
        end in
      let res := HttpSend_read reads' RespBuffer in
      (fst res, S (snd res))
  end.

(** [p != NULL && StringLengthW( p ) != 0] *)
Definition nonempty (p : option string) : bool :=
  match p with
  | Some w => negb (String.length w =? 0)%nat
  | None => false
  end.

Definition non_NULL {A} (p : option A) : bool :=
  match p with
  | Some _ => true
  | None => false
  end.

Definition WINHTTP_ACCESS_TYPE_NAMED_PROXY : Z := 3.

(** Proxy auto-discovery (WPAD, then the IE settings as a fall-back).
    The descriptor found is cached in [Instance->ProxyForUrl]; the
    allocation of the cached copy is taken to succeed. *)
Definition HttpSend_discover (o : HTTP_ORACLE) (st : INSTANCE)
  : INSTANCE * list EVENT :=
  let detect := EvWinHttpGetProxyForUrl AUTOPROXY_AUTO_DETECT in
  let ie := EvWinHttpGetIEProxyConfigForCurrentUser in
  match o_GetProxyForUrl_detect o with
  | Some ProxyInfo => (set_ProxyForUrl (Some ProxyInfo) st, [detect])
  | None =>
      match o_GetIEProxyConfig o with
      | Some ProxyConfig =>
          if nonempty (ie_lpszProxy ProxyConfig) then
            (* IE is set to "use a proxy server" *)
            (set_ProxyForUrl
               (Some (mkProxy WINHTTP_ACCESS_TYPE_NAMED_PROXY
                              (ie_lpszProxy ProxyConfig)
                              (ie_lpszProxyBypass ProxyConfig))) st,
             [detect; ie])
          else if nonempty (ie_lpszAutoConfigUrl ProxyConfig) then
            (* IE is set to "Use automatic proxy configuration" *)
            match o_GetProxyForUrl_config o with
            | Some ProxyInfo =>
                (set_ProxyForUrl (Some ProxyInfo) st,
                 [detect; ie; EvWinHttpGetProxyForUrl AUTOPROXY_CONFIG_URL])
            | None =>
                (st, [detect; ie; EvWinHttpGetProxyForUrl AUTOPROXY_CONFIG_URL])
            end
          else (st, [detect; ie])
      | None => (st, [detect; ie])
      end
  end.

(** The proxy block of [HttpSend] (between the headers and the send). *)
Definition HttpSend_proxy (o : HTTP_ORACLE) (Request : HANDLE) (st : INSTANCE)
  : INSTANCE * list EVENT :=
  let res :=
    if Proxy_Enabled st then
      (* Use preconfigured proxy *)
      (st,
       [EvWinHttpSetOption Request OPTION_PROXY]
       ++ (if non_NULL (Proxy_Username st)
           then [EvWinHttpSetOption Request OPTION_PROXY_USERNAME] else [])
       ++ (if non_NULL (Proxy_Password st)
           then [EvWinHttpSetOption Request OPTION_PROXY_PASSWORD] else []))
    else if negb (LookedForProxy st) then
      let res := HttpSend_discover o st in
      (* Instance->LookedForProxy = TRUE; *)
      (set_LookedForProxy true (fst res), snd res)
    else (st, []) in
  (* VM_IF ( Instance->ProxyForUrl ) WinHttpSetOption( ... ) *)
  (fst res,
   snd res ++ (if non_NULL (ProxyForUrl (fst res))
               then [EvWinHttpSetOption Request OPTION_PROXY] else [])).

(** The [WinHttpOpen] block: the session handle is created once. *)
Definition HttpSend_session (o : HTTP_ORACLE) (st : INSTANCE)
  : INSTANCE * list EVENT :=
  match hHttpSession st with
  | Some _ => (st, [])
  | None =>
      let open :=
        EvWinHttpOpen (if Proxy_Enabled st then Some (Proxy_Url st) else None) in
      let st := set_hHttpSession (o_WinHttpOpen o) st in
      match hHttpSession st with
      | None => (st, [open])                           (* goto LEAVE *)
      | Some session =>
          (st, open :: (if Transport_Secure st
                        then [EvWinHttpSetOption session OPTION_SECURE_PROTOCOLS]
                        else []))
      end
  end.

(** The local variables of [HttpSend] that are live at [LEAVE]. *)
Record HTTP_LOCALS : Type := mkLocals {
  loc_Connect    : option HANDLE;
  loc_Request    : option HANDLE;
  loc_Successful : bool;
  loc_Resp       : option BUFFER     (* [None]: the caller passed [NULL] *)
}.

(** The send and receive block of [HttpSend]. *)
Definition HttpSend_exchange (o : HTTP_ORACLE) (Send : BUFFER)
    (Connect : HANDLE) (Request : HANDLE) (Resp : option BUFFER) (st : INSTANCE)
  : HTTP_LOCALS * INSTANCE * list EVENT :=
  let send := EvWinHttpSendRequest Request Send in
  if o_WinHttpSendRequest o then
    let recv := EvWinHttpReceiveResponse Request in
    if o_WinHttpReceiveResponse o then
      let query := EvWinHttpQueryHeaders Request in
      if negb (HttpQueryStatus o =? HTTP_STATUS_OK) then
        (* Successful = FALSE; goto LEAVE; *)
        (mkLocals (Some Connect) (Some Request) false Resp, st, [send; recv; query])
      else
        match Resp with
        | Some _ =>
            let res := HttpSend_read (o_WinHttpReadData o) None in
            let RespBuffer := fst res in
            let RespSize :=
              match RespBuffer with
              | Some b => Z.of_nat (length b)
              | None => 0
              end in
            (* Resp->Length = RespSize; Resp->Buffer = RespBuffer;
               Successful = TRUE; *)
            (mkLocals (Some Connect) (Some Request) true
                      (Some (mkBuffer RespBuffer RespSize)),
             st,
             [send; recv; query] ++ replicate (snd res) (EvWinHttpReadData Request))
        | None =>
            (mkLocals (Some Connect) (Some Request) false Resp, st,
             [send; recv; query])
        end
    else (mkLocals (Some Connect) (Some Request) false Resp, st, [send; recv])
  else
    let st := if o_LastError o =? ERROR_INTERNET_CANNOT_CONNECT
              then set_Connected false st else st in
    (mkLocals (Some Connect) (Some Request) false Resp, st, [send]).

(** [HttpSend] up to the label [LEAVE].

    Modelled from the spec: [CommandExit] is defined outside the
    transport files; having no host left "is a fatal condition (caller
    must terminate the process)", so the call does not return and the
    run ends as [ProcessExit]. *)
Definition HttpSend_body (o : HTTP_ORACLE) (Send : BUFFER) (Resp : option BUFFER)
    (st : INSTANCE) : result (HTTP_LOCALS * INSTANCE * list EVENT) :=
  match Transport_Host st with
  | None => ProcessExit                                (* CommandExit( NULL ); *)
  | Some _ =>
      let tr := [EvTokenImpersonate false] in
      let res := HttpSend_session o st in
      let st := fst res in
      let tr := tr ++ snd res in
      match hHttpSession st with
      | None => Ok (mkLocals None None false Resp, st, tr)
      | Some session =>
          HostData <- deref (Heap st) (Transport_Host st) ;;
          let tr := tr ++ [EvWinHttpConnect session (Host HostData) (Port HostData)] in
          match o_WinHttpConnect o with
          | None => Ok (mkLocals None None false Resp, st, tr)
          | Some Connect =>
              let Counter := DWORD (Z.of_nat (length (Transport_Uris st))) in
              Index <- DWORD_rem (DWORD (o_RandomNumber32_uri o)) Counter ;;
              match Transport_Uris st !! Z.to_nat Index with
              | None => Fault
              | Some HttpEndpoint =>
                  let tr := tr ++ [EvWinHttpOpenRequest Connect HttpEndpoint
                                     (Transport_Secure st)] in
                  match o_WinHttpOpenRequest o with
                  | None => Ok (mkLocals (Some Connect) None false Resp, st, tr)
                  | Some Request =>
                      let tr := tr ++
                        (if Transport_Secure st
                         then [EvWinHttpSetOption Request OPTION_SECURITY_FLAGS;
                               EvWinHttpSetOption Request OPTION_SECURE_PROTOCOLS;
                               EvWinHttpSetOption Request OPTION_ENABLE_FEATURE]
                         else []) in
                      let tr := tr ++
                        map (EvWinHttpAddRequestHeaders Request)
                            (Transport_Headers st) in
                      let res := HttpSend_proxy o Request st in
                      let st := fst res in
                      let tr := tr ++ snd res in
                      let res := HttpSend_exchange o Send Connect Request Resp st in
                      Ok (fst (fst res), snd (fst res), tr ++ snd res)
                  end
              end
          end
      end
  end.

(** The calls made at [LEAVE]: the handles are closed and the token is
    impersonated again. *)
Definition HttpSend_cleanup (loc : HTTP_LOCALS) : list EVENT :=
  match loc_Connect loc with
  | Some h => [EvWinHttpCloseHandle h]
  | None => []
  end
  ++ match loc_Request loc with
     | Some h => [EvWinHttpCloseHandle h]
     | None => []
     end
  ++ [EvTokenImpersonate true].

(** [HttpSend]: the body, then the code at [LEAVE].  The result is the
    returned [BOOL], the response buffer, the new [Instance] and the
    calls made. *)
Definition HttpSend (fuel : nat) (o : HTTP_ORACLE) (Send : BUFFER)
    (Resp : option BUFFER) (st : INSTANCE)
  : result (bool * option BUFFER * INSTANCE * list EVENT) :=
  res <- HttpSend_body o Send Resp st ;;
  let loc := fst (fst res) in
  let st := snd (fst res) in
  let tr := snd res ++ HttpSend_cleanup loc in
  if negb (loc_Successful loc) then
    (* Instance->Config.Transport.Host = HostFailure( ...Host ); *)
    fail <- HostFailure fuel (o_RandomNumber32_host o) (Transport_Host st) st ;;
    Ok (loc_Successful loc, loc_Resp loc, set_Host (fst fail) (snd fail), tr)
  else Ok (loc_Successful loc, loc_Resp loc, st, tr).

(** ** SMB channel (TransportSmb.c) *)

(** The answer to one [ReadFile] of a [UINT32]: the returned [BOOL],
    [NtGetLastError()] after it, and the value left in the variable. *)
Record READFILE : Type := mkReadFile {
  rf_ok    : bool;
  rf_error : Z;
  rf_value : Z
}.

(** What the outside answers during one [SmbSend] or [SmbRecv].
    [PipeWrite] and [PipeRead] are helpers defined outside the two
    transport files; only their outcome matters here: [PipeRead] either
    fails or has filled the [Length] bytes of the buffer. *)
Record SMB_ORACLE : Type := mkSmbOracle {
  o_CreateNamedPipeW     : option HANDLE;
  o_ConnectNamedPipe     : bool;
  o_PipeWrite            : bool;
  o_PipeWrite_LastError  : Z;
  o_PeekNamedPipe        : option Z;       (* [None]: the call failed *)
  o_ReadFile_DemonId     : READFILE;
  o_ReadFile_PackageSize : READFILE;
  o_LocalAlloc           : bool;
  o_PipeRead             : option (list Z) (* [None]: the call failed *)
}.

(** [SmbSend]. *)
Definition SmbSend (o : SMB_ORACLE) (Send : BUFFER) (st : INSTANCE)
  : bool * INSTANCE * list EVENT :=
  match Transport_Handle st with
  | None =>
      let st := set_Handle (o_CreateNamedPipeW o) st in
      match Transport_Handle st with
      | None => (false, st, [EvCreateNamedPipeW])
      | Some pipe =>
          if negb (o_ConnectNamedPipe o) then
            (false, st, [EvCreateNamedPipeW; EvConnectNamedPipe pipe; EvSysNtClose pipe])
          else
            (o_PipeWrite o, st,
             [EvCreateNamedPipeW; EvConnectNamedPipe pipe; EvPipeWrite pipe Send])
      end
  | Some pipe =>
      if negb (o_PipeWrite o) then
        (* Means that the client disconnected/the pipe is closing. *)
        if o_PipeWrite_LastError o =? ERROR_NO_DATA then
          match Transport_Handle st with
          | Some pipe' =>
              (false, set_Connected false (set_Handle None st),
               [EvPipeWrite pipe Send; EvSysNtClose pipe'])
          | None => (false, set_Connected false st, [EvPipeWrite pipe Send])
          end
        else (true, st, [EvPipeWrite pipe Send])
      else (true, st, [EvPipeWrite pipe Send])
  end.

(** The failure exits of [SmbRecv] before the body is read:
    [Resp->Buffer = NULL; Resp->Length = 0; Connected = FALSE;
     return FALSE;] *)
Definition SmbRecv_fail (st : INSTANCE) (tr : list EVENT)
  : bool * BUFFER * INSTANCE * list EVENT :=
  (false, mkBuffer None 0, set_Connected false st, tr).

(** [! ReadFile( ... ) && NtGetLastError() != ERROR_MORE_DATA] *)
Definition read_failed (rd : READFILE) : bool :=
  negb (rf_ok rd) && negb (rf_error rd =? ERROR_MORE_DATA).

(** [SmbRecv].  [Resp] is the caller's buffer descriptor. *)
Definition SmbRecv (o : SMB_ORACLE) (Resp : BUFFER) (st : INSTANCE)
  : bool * BUFFER * INSTANCE * list EVENT :=
  let pipe := Transport_Handle st in
  let peek := EvPeekNamedPipe pipe in
  match o_PeekNamedPipe o with
  | Some BytesSize =>
      (* BytesSize > sizeof( UINT32 ) + sizeof( UINT32 ) *)
      if 4 + 4 <? BytesSize then
        let rd := o_ReadFile_DemonId o in
        let tr := [peek; EvReadFile pipe 4] in
        if read_failed rd then SmbRecv_fail st tr
        else
          let DemonId := DWORD (rf_value rd) in
          if negb (Session_AgentID st =? DemonId) then SmbRecv_fail st tr
          else
            let rd := o_ReadFile_PackageSize o in
            let tr := tr ++ [EvReadFile pipe 4] in
            if read_failed rd then SmbRecv_fail st tr
            else
              let PackageSize := DWORD (rf_value rd) in
              let tr := tr ++ [EvLocalAlloc PackageSize; EvPipeRead pipe PackageSize] in
              match o_PipeRead o with
              | None =>
                  (false, mkBuffer None 0, set_Connected false st,
                   tr ++ (if o_LocalAlloc o then [EvLocalFree] else []))
              | Some body =>
                  (true,
                   mkBuffer (if o_LocalAlloc o then Some body else None) PackageSize,
                   st, tr)
              end
      else
        (* too small, or nothing to read *)
        (true, Resp, st, [peek])
  | None =>
      (* We disconnected *)
      (false, Resp, set_Connected false st, [peek])
  end.

(** ** Well-formed pools

    [chain heap p l]: following [Next] from [p] visits exactly the
    addresses [l] and then reaches [NULL].  This is the shape [HostAdd]
    builds. *)
Fixpoint chain (heap : list HOST_DATA) (p : PHOST_DATA) (l : list nat) : Prop :=
  match l with
  | [] => p = None
  | a :: l' => p = Some a /\ exists r, heap !! a = Some r /\ chain heap (Next r) l'
  end.

(** The pool of [st] is the null-terminated list of addresses [l], and
    its length fits a [DWORD]. *)
Definition wf_pool (st : INSTANCE) (l : list nat) : Prop :=
  chain (Heap st) (Transport_Hosts st) l /\ Z.of_nat (length l) < DWORD_MODULUS.

(** Liveness tests on an address. *)
Definition is_dead (heap : list HOST_DATA) (a : nat) : bool :=
  match heap !! a with
  | Some r => Dead r
  | None => false
  end.

Definition is_live (heap : list HOST_DATA) (a : nat) : bool :=
  match heap !! a with
  | Some r => negb (Dead r)
  | None => false
  end.

(** The first live address of a list of addresses. *)
Definition first_live (heap : list HOST_DATA) (l : list nat) : option nat :=
  find (is_live heap) l.

(** What the reset loop does to one record. *)
Definition reset_host (r : HOST_DATA) : HOST_DATA :=
  set_Dead false (set_Failures 0 r).

(** ** Vocabulary of the statements, and example states *)

(** Number of dead hosts among the addresses [l]. *)
Definition count_dead (heap : list HOST_DATA) (l : list nat) : nat :=
  length (filter (fun a => is_dead heap a = true) l).

(** The heap after the reset loop has run over the addresses [l]. *)
Definition reset_pool (heap : list HOST_DATA) (l : list nat) : list HOST_DATA :=
  foldl (fun h a => alter reset_host a h) heap l.

(** Every host of the pool [L] marked dead, as after enough failed
    sends on each of them. *)
Definition fail_all (L : list nat) (st : INSTANCE) : INSTANCE :=
  set_Heap (foldl (fun h a => alter (set_Dead true) a h) (Heap st) L) st.

(** [n + 1] rounds of: every host fails until it is dead, then the pool
    is rotated.  The result is that of the last rotation. *)
Fixpoint exhaust_rounds (n fuel : nat) (Strategy rnd : Z) (L : list nat)
    (st : INSTANCE) : result (PHOST_DATA * INSTANCE) :=
  match n with
  | O => HostRotation fuel Strategy rnd (fail_all L st)
  | S n' =>
      res <- HostRotation fuel Strategy rnd (fail_all L st) ;;
      exhaust_rounds n' fuel Strategy rnd L (snd res)
  end.

(** The result of a round-robin rotation with a current host, on the
    pool [L]. *)
Definition rotate_round_robin (st : INSTANCE) (L : list nat)
  : PHOST_DATA * INSTANCE :=
  let st1 := HostRotation_proxy st in
  match first_live (Heap st) L with
  | Some a => (Some a, st1)
  | None =>
      if Transport_HostMaxRetries st =? 0
      then (Transport_Hosts st, set_Heap (reset_pool (Heap st) L) st1)
      else (None, st1)
  end.

(** The two possible outcomes of a rotation on a well-formed pool:
    either the heap is untouched, or (unlimited retries only) the pool
    is reset and the head is returned. *)
Definition rotation_outcome (st : INSTANCE) (L : list nat)
    (res : result (PHOST_DATA * INSTANCE)) (h : PHOST_DATA) : Prop :=
  (res = Ok (h, HostRotation_proxy st)
   \/ (Transport_HostMaxRetries st = 0 /\ h = Transport_Hosts st /\
       res = Ok (Transport_Hosts st,
                 set_Heap (reset_pool (Heap st) L) (HostRotation_proxy st))))
  /\ (Transport_HostMaxRetries st = 0 -> L <> [] -> h <> None).

(** An [Instance] with the given pool and retry configuration, and
    everything else zeroed. *)
Definition example_instance (heap : list HOST_DATA) (hosts cur : PHOST_DATA)
    (num max strategy : Z) : INSTANCE :=
  mkInstance heap hosts cur num max strategy false ["/index"%string] []
             false ""%string None None None false None None false 0.

(** The pool after [HostAdd( hostA )] then [HostAdd( hostB )]: the head
    is hostB at address 1, followed by hostA at address 0. *)
Definition pool_two : INSTANCE :=
  snd (HostAdd "hostB" 80 (snd (HostAdd "hostA" 80
         (example_instance [] None None 2 2 TRANSPORT_HTTP_ROTATION_ROUND_ROBIN)))).

(** Two hosts where the flags and counters are chosen freely. *)
Definition two_hosts (deadB deadA : bool) (failB failA : Z) (cur : PHOST_DATA)
    (num max strategy : Z) : INSTANCE :=
  example_instance
    [mkHost "hostA" 80 deadA failA None; mkHost "hostB" 80 deadB failB (Some 0%nat)]
    (Some 1%nat) cur num max strategy.

(** Following the words of the specification: "RoundRobin: starting
    from the record after [current], walk forward skipping [dead]
    records; return first live one found, or null if none." *)
Fixpoint spec_skip_dead (fuel : nat) (heap : list HOST_DATA) (p : PHOST_DATA)
  : result PHOST_DATA :=
  match fuel with
  | O => OutOfFuel
  | S fuel' =>
      match p with
      | None => Ok None
      | Some a =>
          match heap !! a with
          | None => Fault
          | Some r => if Dead r then spec_skip_dead fuel' heap (Next r)
                      else Ok (Some a)
          end
      end
  end.

Definition spec_round_robin (fuel : nat) (st : INSTANCE) : result PHOST_DATA :=
  current <- deref (Heap st) (Transport_Host st) ;;
  spec_skip_dead fuel (Heap st) (Next current).

(** Rotation on an arbitrary heap: every record is either untouched or
    reset, and under bounded retries the heap is untouched. *)
Definition kept_or_reset (heap heap' : list HOST_DATA) : Prop :=
  forall b, heap' !! b = heap !! b \/ heap' !! b = reset_host <$> heap !! b.

(** The first auto-detection call of the proxy discovery. *)
Definition is_discovery (e : EVENT) : bool :=
  match e with
  | EvWinHttpGetProxyForUrl AUTOPROXY_AUTO_DETECT => true
  | _ => false
  end.

(** How many times a trace starts the proxy discovery. *)
Definition discoveries (tr : list EVENT) : nat :=
  length (filter (fun e => is_discovery e = true) tr).

(** The fields of [Instance] that the HTTP send leaves alone before the
    failure accounting. *)
Definition same_pool (st st' : INSTANCE) : Prop :=
  Heap st' = Heap st
  /\ Transport_Hosts st' = Transport_Hosts st
  /\ Transport_Host st' = Transport_Host st
  /\ Transport_NumHosts st' = Transport_NumHosts st
  /\ Transport_HostMaxRetries st' = Transport_HostMaxRetries st
  /\ Transport_HostRotation st' = Transport_HostRotation st
  /\ Proxy_Enabled st' = Proxy_Enabled st.

(** ** Callers of the channels (Transport.c) *)

(** An output parameter such as [PVOID* RecvData]: [None] when the
    caller passed [NULL], else the value the pointer refers to. *)
Definition OUT (A : Type) : Type := option A.

(** [if ( p ) *p = v;] *)
Definition store {A} (p : OUT A) (v : A) : OUT A :=
  match p with
  | Some _ => Some v
  | None => None
  end.

(** The two sides of the unresolved merge conflict of [Transport.c]
    (lines 64 to 73), in the block after a successful [HttpSend]. *)
Inductive MERGE_SIDE : Type :=
| UpdatedUpstream      (* if ( RecvData ) *RecvData = Resp.Buffer; *)
| StashedChanges.      (* ... else LocalFree( Resp.Buffer ); *)

(** What the block does with a response the caller gave no [RecvData]
    for: the "Stashed changes" side frees it, the "Updated upstream"
    side makes no call. *)
Definition TransportSend_unwanted (side : MERGE_SIDE)
    (RecvData : OUT (option (list Z))) : list EVENT :=
  match side with
  | UpdatedUpstream => []
  | StashedChanges => if non_NULL RecvData then [] else [EvLocalFree]
  end.

Definition is_LocalFree (e : EVENT) : bool :=
  match e with
  | EvLocalFree => true
  | _ => false
  end.

(** [TransportSend] when built for the HTTP channel, on either side of
    the merge conflict. *)
Definition TransportSend_HTTP (side : MERGE_SIDE) (fuel : nat) (o : HTTP_ORACLE)
    (Data : BUFFER) (RecvData : OUT (option (list Z))) (RecvSize : OUT Z)
    (st : INSTANCE)
  : result (bool * OUT (option (list Z)) * OUT Z * INSTANCE * list EVENT) :=
  (* BUFFER Resp = { 0 }; HttpSend( &Send, &Resp ) *)
  res <- HttpSend fuel o Data (Some (mkBuffer None 0)) st ;;
  let ok := fst (fst (fst res)) in
  let Resp := match snd (fst (fst res)) with
              | Some b => b
              | None => mkBuffer None 0
              end in
  let st := snd (fst res) in
  let tr := snd res in
  if ok then
    Ok (true, store RecvData (Buffer Resp), store RecvSize (Length Resp), st,
        tr ++ TransportSend_unwanted side RecvData)
  else Ok (false, RecvData, RecvSize, st, tr).

(** [TransportSend] when built for the SMB channel. *)
Definition TransportSend_SMB (o : SMB_ORACLE) (Data : BUFFER) (st : INSTANCE)
  : bool * INSTANCE * list EVENT :=
  let res := SmbSend o Data st in
  (if fst (fst res) then true else false, snd (fst res), snd res).

(** [SMBGetJob]. *)
Definition SMBGetJob (o : SMB_ORACLE) (RecvData : OUT (option (list Z)))
    (RecvSize : OUT Z) (st : INSTANCE)
  : bool * OUT (option (list Z)) * OUT Z * INSTANCE * list EVENT :=
  (* if ( RecvData ) *RecvData = NULL; if ( RecvSize ) *RecvSize = 0; *)
  let RecvData := store RecvData None in
  let RecvSize := store RecvSize 0 in
  let res := SmbRecv o (mkBuffer None 0) st in
  let Resp := snd (fst (fst res)) in
  if fst (fst (fst res)) then
    (true, store RecvData (Buffer Resp), store RecvSize (Length Resp),
     snd (fst res), snd res)
  else (false, RecvData, RecvSize, snd (fst res), snd res).

(** ** The security attributes of the pipe (TransportSmb.c) *)

(** [SMB_PIPE_SEC_ATTR]: four owned pointers. *)
Record SMB_PIPE_SEC_ATTR : Type := mkSecAttr {
  Sid    : option Z;
  SidLow : option Z;
  SAcl   : option Z;
  SecDec : option Z
}.

(** The releases [SmbSecurityAttrFree] can make. *)
Inductive RELEASE : Type :=
| RelFreeSid (p : Z)
| RelMmHeapFree (p : Z).

(** [SmbSecurityAttrFree]: every member that is set is released and
    cleared. *)
Definition SmbSecurityAttrFree (SmbSecAttr : SMB_PIPE_SEC_ATTR)
  : SMB_PIPE_SEC_ATTR * list RELEASE :=
  let r1 := match Sid SmbSecAttr with Some p => [RelFreeSid p] | None => [] end in
  let r2 := match SidLow SmbSecAttr with Some p => [RelFreeSid p] | None => [] end in
  let r3 := match SAcl SmbSecAttr with Some p => [RelMmHeapFree p] | None => [] end in
  let r4 := match SecDec SmbSecAttr with Some p => [RelMmHeapFree p] | None => [] end in
  (mkSecAttr None None None None, r1 ++ r2 ++ r3 ++ r4).

(** ** Vocabulary of the further properties *)

(** The configuration loop: [HostAdd] for each host in turn. *)
Definition add_hosts (hosts : list (string * Z)) (st : INSTANCE) : INSTANCE :=
  foldl (fun s hp => snd (HostAdd (fst hp) (snd hp) s)) st hosts.

(** [Host = HostFailure( Host )] repeated [k] times. *)
Fixpoint HostFailure_times (k fuel : nat) (rnd : Z) (Host : PHOST_DATA)
    (st : INSTANCE) : result (PHOST_DATA * INSTANCE) :=
  match k with
  | O => Ok (Host, st)
  | S k' =>
      res <- HostFailure fuel rnd Host st ;;
      HostFailure_times k' fuel rnd (fst res) (snd res)
  end.

(** [st'] differs from [st] at most in the heap of host records and in
    the [LookedForProxy] flag. *)
Definition pool_frame (st st' : INSTANCE) : Prop :=
  st' = set_Heap (Heap st') (set_LookedForProxy (LookedForProxy st') st).

(** The chunks a response is made of: the answers of [WinHttpReadData]
    up to the first failed or empty read. *)
Fixpoint leading_chunks (reads : list (option (list Z))) : list (list Z) :=
  match reads with
  | Some (b :: chunk) :: reads' => (b :: chunk) :: leading_chunks reads'
  | _ => []
  end.

(** The handles closed in a trace, in order. *)
Definition closed_handles (tr : list EVENT) : list HANDLE :=
  omap (fun e => match e with EvWinHttpCloseHandle h => Some h | _ => None end) tr.

(** The pointer held in the session is [NULL] or a live member of the
    pool [L]. *)
Definition live_or_NULL (L : list nat) (heap : list HOST_DATA) (h : PHOST_DATA)
  : Prop :=
  match h with
  | None => True
  | Some a => a ∈ L /\ is_live heap a = true
  end.

(** The two heaps hold records at the same addresses, with the same
    host, port and successor. *)
Definition same_hosts (heap heap' : list HOST_DATA) : Prop :=
  forall b,
    match heap !! b, heap' !! b with
    | Some r, Some r' => Host r' = Host r /\ Port r' = Port r /\ Next r' = Next r
    | None, None => True
    | _, _ => False
    end.


(** The exchange of [HttpSend] went through: request sent, response
    received, status 200. *)
Definition exchange_ok (o : HTTP_ORACLE) : bool :=
  o_WinHttpSendRequest o && o_WinHttpReceiveResponse o
  && (HttpQueryStatus o =? HTTP_STATUS_OK).

(** The response buffer made of the chunks the outside delivers. *)
Definition response_of (o : HTTP_ORACLE) : BUFFER :=
  match leading_chunks (o_WinHttpReadData o) with
  | [] => mkBuffer None 0
  | chunks => mkBuffer (Some (concat chunks)) (Z.of_nat (length (concat chunks)))
  end.

(** The calls that obtain or close a connection or request handle. *)
Definition is_handle_event (e : EVENT) : bool :=
  match e with
  | EvWinHttpConnect _ _ _ | EvWinHttpOpenRequest _ _ _ | EvWinHttpCloseHandle _ => true
  | _ => false
  end.

Definition handle_events (tr : list EVENT) : list EVENT :=
  filter (fun e => is_handle_event e = true) tr.

Definition is_open_event (e : EVENT) : bool :=
  match e with
  | EvWinHttpOpen _ => true
  | _ => false
  end.

Definition is_send_event (e : EVENT) : bool :=
  match e with
  | EvWinHttpSendRequest _ _ => true
  | _ => false
  end.

(** The calls of the session block, of the option, header and proxy
    blocks, and of the exchange block of [HttpSend]. *)
Definition is_session_event (e : EVENT) : bool :=
  match e with
  | EvWinHttpOpen _ | EvWinHttpSetOption _ _ => true
  | _ => false
  end.

Definition is_setup_event (e : EVENT) : bool :=
  match e with
  | EvWinHttpSetOption _ _ | EvWinHttpAddRequestHeaders _ _
  | EvWinHttpGetProxyForUrl _ | EvWinHttpGetIEProxyConfigForCurrentUser => true
  | _ => false
  end.

Definition is_exchange_event (e : EVENT) : bool :=
  match e with
  | EvWinHttpSendRequest _ _ | EvWinHttpReceiveResponse _
  | EvWinHttpQueryHeaders _ | EvWinHttpReadData _ => true
  | _ => false
  end.

Definition is_request_event (e : EVENT) : bool :=
  is_setup_event e || is_exchange_event e.

(** The handles [HttpSend] closes at [LEAVE], read off the answers of
    the outside: the connection handle when a session exists, the
    request handle when a connection was obtained as well. *)
Definition handles_to_close (o : HTTP_ORACLE) (session : option HANDLE)
  : list HANDLE :=
  if non_NULL session
  then option_list (o_WinHttpConnect o)
       ++ (if non_NULL (o_WinHttpConnect o)
           then option_list (o_WinHttpOpenRequest o) else [])
  else [].

(** The calls by which [HttpSend], run on [st] and ending with the
    session handle [session], obtained its handles. *)
Definition handles_opened (o : HTTP_ORACLE) (st : INSTANCE)
    (session : option HANDLE) (opened : list EVENT) : Prop :=
  match session with
  | None => opened = []
  | Some s =>
      exists a r,
        Transport_Host st = Some a /\ Heap st !! a = Some r
        /\ match o_WinHttpConnect o with
           | None => opened = [EvWinHttpConnect s (Host r) (Port r)]
           | Some Connect =>
               exists HttpEndpoint,
                 HttpEndpoint ∈ Transport_Uris st
                 /\ opened = [EvWinHttpConnect s (Host r) (Port r);
                              EvWinHttpOpenRequest Connect HttpEndpoint
                                (Transport_Secure st)]
           end
  end.

(** The [WinHttpSetOption] calls on a request of a secure transport. *)
Definition secure_options (secure : bool) (Request : HANDLE) : list EVENT :=
  if secure
  then [EvWinHttpSetOption Request OPTION_SECURITY_FLAGS;
        EvWinHttpSetOption Request OPTION_SECURE_PROTOCOLS;
        EvWinHttpSetOption Request OPTION_ENABLE_FEATURE]
  else [].

(** ** Lemmas on chains *)

Section Chains.

Variable heap : list HOST_DATA.

Lemma chain_functional p l1 : forall l2,
  chain heap p l1 -> chain heap p l2 -> l1 = l2.
Proof.
  revert p. induction l1 as [|a l1 IH]; intros p [|b l2]; simpl.
  - done.
  - intros -> [? _]. discriminate.
  - intros [-> _] ?. discriminate.
  - intros [-> (r & Hr & Hc)] [Hb (r' & Hr' & Hc')].
    injection Hb as <-. rewrite Hr in Hr'. injection Hr' as <-.
    f_equal. eauto.
Qed.

Lemma chain_lookup p l a :
  chain heap p l -> a ∈ l -> exists r, heap !! a = Some r.
Proof.
  revert p. induction l as [|b l IH]; intros p Hc Hin.
  - by apply elem_of_nil in Hin.
  - destruct Hc as [_ (r & Hr & Hc)].
    apply elem_of_cons in Hin as [->|Hin]; eauto.
Qed.

End Chains.

(** A heap update that keeps every [Next] field keeps every chain. *)
Lemma chain_frame heap heap' p l :
  (forall a, Next <$> heap' !! a = Next <$> heap !! a) ->
  chain heap p l -> chain heap' p l.
Proof.
  intros Hn. revert p. induction l as [|a l IH]; intros p; simpl; [done|].
  intros [-> (r & Hr & Hc)]. split; [done|].
  specialize (Hn a). rewrite Hr in Hn. simpl in Hn.
  destruct (heap' !! a) as [r'|] eqn:Hr'; [|discriminate].
  injection Hn as Hn. exists r'. split; [done|]. rewrite Hn. by apply IH.
Qed.

Lemma insert_keeps_Next (heap : list HOST_DATA) a r r' :
  heap !! a = Some r -> Next r' = Next r ->
  forall b, Next <$> <[a := r']> heap !! b = Next <$> heap !! b.
Proof.
  intros Hr Hn b. destruct (decide (a = b)) as [<-|Hne].
  - rewrite list_lookup_insert_eq; [|by eapply lookup_lt_Some].
    rewrite Hr. simpl. by rewrite Hn.
  - by rewrite list_lookup_insert_ne.
Qed.

(** ** [HostAdd] builds well-formed pools *)

Lemma chain_alloc heap r p l : chain heap p l -> chain (heap ++ [r]) p l.
Proof.
  revert p. induction l as [|a l IH]; intros p; simpl; [done|].
  intros [-> (r' & Hr & Hc)]. split; [done|]. exists r'. split; [|by apply IH].
  by apply lookup_app_l_Some.
Qed.

Lemma HostAdd_wf host port st L :
  wf_pool st L -> Z.of_nat (S (length L)) < DWORD_MODULUS ->
  fst (HostAdd host port st) = Some (length (Heap st))
  /\ wf_pool (snd (HostAdd host port st)) (length (Heap st) :: L).
Proof.
  intros [Hc Hlen] Hmax. split; [done|]. split; [|done]. simpl.
  split; [done|]. eexists. split.
  - rewrite lookup_app_r by done. by rewrite Nat.sub_diag.
  - simpl. by apply chain_alloc.
Qed.

(** ** The loops on a well-formed pool *)

Lemma DWORD_small z : 0 <= z < DWORD_MODULUS -> DWORD z = z.
Proof. intros. unfold DWORD. by apply Z.mod_small. Qed.

Lemma count_dead_cons heap a l :
  count_dead heap (a :: l) =
  ((if is_dead heap a then 1 else 0) + count_dead heap l)%nat.
Proof.
  unfold count_dead. rewrite filter_cons.
  destruct (is_dead heap a); case_decide; simpl; congruence.
Qed.

Lemma count_dead_le heap l : (count_dead heap l <= length l)%nat.
Proof. unfold count_dead. apply length_filter. Qed.

Lemma count_dead_all heap l :
  count_dead heap l = length l <-> forallb (is_dead heap) l = true.
Proof.
  induction l as [|a l IH]; [done|].
  rewrite count_dead_cons. simpl. pose proof (count_dead_le heap l).
  destruct (is_dead heap a); simpl.
  - rewrite <- IH. lia.
  - split; [lia | discriminate].
Qed.

Section Loops.

Variable heap : list HOST_DATA.
Variable Head : PHOST_DATA.
Variable L : list nat.
Hypothesis HL : chain heap Head L.

(** No record reached strictly after the head points back to the head. *)
Lemma chain_no_return p l :
  chain heap p l -> (length l < length L)%nat -> Head <> p.
Proof.
  intros Hc Hlen ->. pose proof (chain_functional _ _ _ _ HL Hc). subst. lia.
Qed.

Lemma HostCount_loop_chain l : forall p Count fuel,
  chain heap p l -> (length l <= length L)%nat -> (length l < fuel)%nat ->
  0 <= Count -> Count + Z.of_nat (length l) < DWORD_MODULUS ->
  HostCount_loop fuel heap Head p Count = Ok (Count + Z.of_nat (length l)).
Proof.
  induction l as [|a l IH]; intros p Count fuel Hc Hle Hfuel H0 Hmax;
    (destruct fuel as [|fuel]; [simpl in Hfuel; lia|]); simpl in *.
  - subst p. f_equal. lia.
  - destruct Hc as [-> (r & Hr & Hc)]. rewrite Hr.
    destruct (decide (Head = Next r)) as [Heq|_].
    + exfalso. eapply chain_no_return; [exact Hc | lia | exact Heq].
    + rewrite DWORD_small by lia.
      rewrite IH; try done; try lia. f_equal. lia.
Qed.

Lemma HostCheckup_loop_chain l : forall p Count fuel,
  chain heap p l -> (length l <= length L)%nat -> (length l < fuel)%nat ->
  0 <= Count -> Count + Z.of_nat (length l) < DWORD_MODULUS ->
  HostCheckup_loop fuel heap Head p Count
  = Ok (Count + Z.of_nat (count_dead heap l)).
Proof.
  induction l as [|a l IH]; intros p Count fuel Hc Hle Hfuel H0 Hmax;
    (destruct fuel as [|fuel]; [simpl in Hfuel; lia|]); simpl in *.
  - subst p. f_equal. unfold count_dead. simpl. lia.
  - destruct Hc as [-> (r & Hr & Hc)]. rewrite Hr.
    rewrite count_dead_cons. unfold is_dead at 1. rewrite Hr.
    pose proof (count_dead_le heap l).
    destruct (decide (Head = Next r)) as [Heq|_].
    + exfalso. eapply chain_no_return; [exact Hc | lia | exact Heq].
    + destruct (Dead r).
      * rewrite DWORD_small by lia.
        rewrite IH; try done; try lia. f_equal. lia.
      * rewrite IH; try done; lia.
Qed.

End Loops.

Lemma HostCount_wf st L fuel :
  wf_pool st L -> (length L < fuel)%nat ->
  HostCount fuel st = Ok (Z.of_nat (length L)).
Proof.
  intros [Hc Hlen] Hfuel. unfold HostCount.
  rewrite (HostCount_loop_chain _ _ L Hc L); try done; lia.
Qed.

Lemma insert_reset_alter (heap : list HOST_DATA) a r :
  heap !! a = Some r -> <[a := reset_host r]> heap = alter reset_host a heap.
Proof.
  intros Hr. apply list_eq. intros b. destruct (decide (a = b)) as [<-|Hne].
  - rewrite list_lookup_insert_eq by (by eapply lookup_lt_Some).
    by rewrite list_lookup_alter_eq, Hr.
  - by rewrite list_lookup_insert_ne, list_lookup_alter_ne.
Qed.

Lemma alter_reset_keeps_Next (heap : list HOST_DATA) a b :
  Next <$> alter reset_host a heap !! b = Next <$> heap !! b.
Proof.
  destruct (decide (a = b)) as [<-|Hne].
  - rewrite list_lookup_alter_eq. by destruct (heap !! a).
  - by rewrite list_lookup_alter_ne.
Qed.

Lemma foldl_alter_lookup (f : HOST_DATA -> HOST_DATA) (l : list nat) :
  (forall r, f (f r) = f r) ->
  forall (heap : list HOST_DATA) (a : nat),
  foldl (fun h b => alter f b h) heap l !! a
  = if decide (a ∈ l) then f <$> heap !! a else heap !! a.
Proof.
  intros Hf. induction l as [|b l IH]; intros heap a; simpl.
  - destruct (decide (a ∈ [])) as [Hin|_]; [by apply elem_of_nil in Hin | done].
  - rewrite IH. destruct (decide (b = a)) as [->|Hne].
    + rewrite list_lookup_alter_eq.
      destruct (decide (a ∈ a :: l)) as [_|Hn]; [|by destruct Hn; left].
      destruct (decide (a ∈ l)); [|done].
      destruct (heap !! a); simpl; [by rewrite Hf | done].
    + rewrite list_lookup_alter_ne by done.
      destruct (decide (a ∈ l)) as [Hin|Hin];
        destruct (decide (a ∈ b :: l)) as [Hin'|Hin']; try done.
      * destruct Hin'. by right.
      * apply elem_of_cons in Hin' as [?|?]; congruence.
Qed.

Lemma reset_pool_lookup l heap a :
  reset_pool heap l !! a
  = if decide (a ∈ l) then reset_host <$> heap !! a else heap !! a.
Proof. by apply foldl_alter_lookup. Qed.

Lemma reset_pool_keeps_Next l heap b :
  Next <$> reset_pool heap l !! b = Next <$> heap !! b.
Proof.
  rewrite reset_pool_lookup. case_decide; [|done]. by destruct (heap !! b).
Qed.

Lemma HostRotation_reset_chain l : forall heap p fuel,
  chain heap p l -> (length l < fuel)%nat ->
  HostRotation_reset fuel heap p = Ok (reset_pool heap l).
Proof.
  induction l as [|a l IH]; intros heap p fuel Hc Hfuel;
    (destruct fuel as [|fuel]; [simpl in Hfuel; lia|]); simpl in *.
  - by subst p.
  - destruct Hc as [-> (r & Hr & Hc)]. rewrite Hr.
    change (set_Dead false (set_Failures 0 r)) with (reset_host r).
    rewrite (insert_reset_alter _ _ _ Hr).
    apply IH; [|lia].
    eapply chain_frame; [|exact Hc]. intros b. apply alter_reset_keeps_Next.
Qed.

(** The walk of [HostRandom] on a chain: it stops on the record number
    [Index] when the chain is long enough. *)
Lemma HostRandom_loop_chain heap Index l : forall p Count fuel,
  chain heap p l -> 0 <= Count <= Index ->
  Index < Count + Z.of_nat (length l) -> Index < DWORD_MODULUS ->
  (Z.to_nat (Index - Count) < fuel)%nat ->
  HostRandom_loop fuel heap Index p Count = Ok (l !! Z.to_nat (Index - Count)).
Proof.
  induction l as [|a l IH]; intros p Count fuel Hc HC Hidx Hmax Hfuel;
    (destruct fuel as [|fuel]; [simpl in Hfuel; lia|]); simpl in *; [lia|].
  destruct Hc as [-> (r & Hr & Hc)].
  destruct (Z.eqb_spec Count Index) as [->|Hne].
  - by rewrite Z.sub_diag.
  - rewrite Hr. destruct l as [|b l]; simpl in Hc.
    + simpl in Hidx. lia.
    + destruct Hc as [Hn Hc]. rewrite Hn.
      rewrite DWORD_small by lia.
      rewrite (IH (Some b) (Count + 1) fuel);
        [| by split | lia | simpl in *; lia | done | lia].
      replace (Z.to_nat (Index - Count)) with (S (Z.to_nat (Index - (Count + 1))))
        by lia.
      done.
Qed.

(** The round-robin scan on a chain: the first live record from where
    the scan starts. *)
Lemma HostRotation_scan_chain st n cfuel l : forall p fuel,
  HostCount cfuel st = Ok n -> 0 < n ->
  chain (Heap st) p l -> (length l < fuel)%nat ->
  HostRotation_scan cfuel fuel st p = Ok (first_live (Heap st) l).
Proof.
  intros p fuel Hn Hpos. revert p fuel.
  induction l as [|a l IH]; intros p fuel Hc Hfuel;
    (destruct fuel as [|fuel]; [simpl in Hfuel; lia|]); simpl in *;
    rewrite Hn; simpl; destruct (Z.ltb_spec 0 n); try lia.
  - by subst p.
  - destruct Hc as [-> (r & Hr & Hc)]. rewrite Hr.
    unfold first_live. simpl. unfold is_live at 1. rewrite Hr.
    destruct (Dead r); simpl; [|done].
    apply IH; [done | lia].
Qed.

(** ** The host pool on well-formed states *)

Lemma HostRotation_proxy_fields st :
  Heap (HostRotation_proxy st) = Heap st
  /\ Transport_Hosts (HostRotation_proxy st) = Transport_Hosts st
  /\ Transport_Host (HostRotation_proxy st) = Transport_Host st
  /\ Transport_HostMaxRetries (HostRotation_proxy st) = Transport_HostMaxRetries st
  /\ Transport_NumHosts (HostRotation_proxy st) = Transport_NumHosts st
  /\ Transport_HostRotation (HostRotation_proxy st) = Transport_HostRotation st.
Proof. unfold HostRotation_proxy. by destruct (1 <? _). Qed.

Lemma HostRotation_proxy_idemp st :
  HostRotation_proxy (HostRotation_proxy st) = HostRotation_proxy st.
Proof. unfold HostRotation_proxy. by destruct (1 <? Transport_NumHosts st) eqn:E; simpl; rewrite ?E. Qed.


Lemma wf_pool_proxy st L : wf_pool st L -> wf_pool (HostRotation_proxy st) L.
Proof.
  unfold wf_pool. destruct (HostRotation_proxy_fields st) as (-> & -> & _). done.
Qed.

Lemma HostCount_proxy fuel st :
  HostCount fuel (HostRotation_proxy st) = HostCount fuel st.
Proof.
  unfold HostCount. by destruct (HostRotation_proxy_fields st) as (-> & -> & _).
Qed.

Lemma HostRotation_scan_wf st L fuel :
  wf_pool st L -> (length L < fuel)%nat ->
  HostRotation_scan fuel fuel st (Transport_Hosts st) = Ok (first_live (Heap st) L).
Proof.
  intros Hwf Hfuel. pose proof (HostCount_wf _ _ _ Hwf Hfuel) as Hn.
  destruct Hwf as [Hc Hlen]. destruct L as [|a L].
  - simpl in Hc. destruct fuel; [simpl in *; lia|]. simpl. rewrite Hn. simpl.
    by rewrite Hc.
  - eapply HostRotation_scan_chain; eauto. simpl. lia.
Qed.

Lemma HostRotation_exhaust_wf st L fuel Host :
  wf_pool st L -> (length L < fuel)%nat ->
  HostRotation_exhaust fuel Host st
  = Ok (if (Transport_HostMaxRetries st =? 0) && is_NULL Host
        then (Transport_Hosts st, set_Heap (reset_pool (Heap st) L) st)
        else (Host, st)).
Proof.
  intros [Hc _] Hfuel. unfold HostRotation_exhaust.
  destruct (_ && _); [|done].
  by rewrite (HostRotation_reset_chain L _ _ _ Hc Hfuel).
Qed.

(** The body of [HostRotation] for each strategy. *)
Lemma HostRotation_round_robin_eq fuel rnd st :
  HostRotation (S fuel) TRANSPORT_HTTP_ROTATION_ROUND_ROBIN rnd st
  = match Transport_Host (HostRotation_proxy st) with
    | None => Ok (Transport_Hosts (HostRotation_proxy st), HostRotation_proxy st)
    | Some _ =>
        Host <- HostRotation_scan fuel fuel (HostRotation_proxy st)
                  (Transport_Hosts (HostRotation_proxy st)) ;;
        HostRotation_exhaust fuel Host (HostRotation_proxy st)
    end.
Proof. reflexivity. Qed.

Lemma HostRotation_random_eq fuel rnd st :
  HostRotation (S fuel) TRANSPORT_HTTP_ROTATION_RANDOM rnd st
  = (Host <- HostRandom fuel rnd (HostRotation_proxy st) ;;
     r <- deref (Heap (HostRotation_proxy st)) Host ;;
     if Dead r then
       res <- HostRotation fuel TRANSPORT_HTTP_ROTATION_ROUND_ROBIN rnd
                (HostRotation_proxy st) ;;
       HostRotation_exhaust fuel (fst res) (snd res)
     else HostRotation_exhaust fuel Host (HostRotation_proxy st)).
Proof. reflexivity. Qed.

Lemma HostRotation_other_eq fuel Strategy rnd st :
  Strategy <> TRANSPORT_HTTP_ROTATION_ROUND_ROBIN ->
  Strategy <> TRANSPORT_HTTP_ROTATION_RANDOM ->
  HostRotation (S fuel) Strategy rnd st
  = HostRotation_exhaust fuel None (HostRotation_proxy st).
Proof.
  intros H1 H2. cbn [HostRotation].
  destruct (Z.eqb_spec Strategy TRANSPORT_HTTP_ROTATION_ROUND_ROBIN); [done|].
  destruct (Z.eqb_spec Strategy TRANSPORT_HTTP_ROTATION_RANDOM); done.
Qed.

Lemma HostRotation_round_robin_wf st L fuel rnd c :
  wf_pool st L -> Transport_Host st = Some c -> (length L + 1 < fuel)%nat ->
  HostRotation fuel TRANSPORT_HTTP_ROTATION_ROUND_ROBIN rnd st
  = Ok (rotate_round_robin st L).
Proof.
  intros Hwf Hcur Hfuel. destruct fuel as [|fuel]; [lia|].
  apply wf_pool_proxy in Hwf as Hwf1.
  rewrite HostRotation_round_robin_eq.
  destruct (HostRotation_proxy_fields st) as (Hh & Hhs & Hc & Hm & _).
  rewrite Hc, Hcur.
  rewrite (HostRotation_scan_wf _ L) by (done || lia). cbn [bind].
  rewrite (HostRotation_exhaust_wf _ L) by (done || lia).
  unfold rotate_round_robin. rewrite Hh, Hhs, Hm.
  destruct (first_live (Heap st) L); simpl.
  - by rewrite andb_false_r.
  - rewrite andb_true_r. by destruct (_ =? 0).
Qed.

Lemma HostRotation_round_robin_initial st fuel rnd :
  Transport_Host st = None ->
  HostRotation (S fuel) TRANSPORT_HTTP_ROTATION_ROUND_ROBIN rnd st
  = Ok (Transport_Hosts st, HostRotation_proxy st).
Proof.
  intros Hcur. rewrite HostRotation_round_robin_eq.
  destruct (HostRotation_proxy_fields st) as (_ & -> & -> & _). by rewrite Hcur.
Qed.

Lemma HostRandom_proxy fuel rnd st :
  HostRandom fuel rnd (HostRotation_proxy st) = HostRandom fuel rnd st.
Proof.
  unfold HostRandom. rewrite HostCount_proxy.
  by destruct (HostRotation_proxy_fields st) as (-> & -> & _).
Qed.

Lemma HostRotation_after_proxy fuel Strategy rnd st :
  HostRotation fuel Strategy rnd (HostRotation_proxy st)
  = HostRotation fuel Strategy rnd st.
Proof.
  destruct fuel as [|fuel]; [done|]. cbn [HostRotation].
  by rewrite HostRotation_proxy_idemp.
Qed.

Lemma HostRandom_Some_Hosts fuel rnd st a :
  HostRandom fuel rnd st = Ok (Some a) -> Transport_Hosts st <> None.
Proof.
  unfold HostRandom, HostCount. intros H Hnull. rewrite Hnull in H.
  destruct fuel; simpl in H; discriminate.
Qed.

(** The round-robin branch makes no use of the random number. *)
Lemma HostRotation_round_robin_rnd fuel rnd rnd' st :
  HostRotation fuel TRANSPORT_HTTP_ROTATION_ROUND_ROBIN rnd st
  = HostRotation fuel TRANSPORT_HTTP_ROTATION_ROUND_ROBIN rnd' st.
Proof. destruct fuel; [done|]. by rewrite !HostRotation_round_robin_eq. Qed.

Lemma HostRotation_exhaust_result fuel Host st h st' :
  HostRotation_exhaust fuel Host st = Ok (h, st') ->
  Transport_HostMaxRetries st' = Transport_HostMaxRetries st
  /\ Transport_Hosts st' = Transport_Hosts st
  /\ (Transport_HostMaxRetries st = 0 -> Transport_Hosts st <> None -> h <> None)
  /\ (Host <> None -> h = Host /\ st' = st).
Proof.
  unfold HostRotation_exhaust. intros H.
  destruct (Z.eqb_spec (Transport_HostMaxRetries st) 0) as [Hz|Hz];
    destruct Host as [b|]; simpl in H.
  - injection H as <- <-. by repeat split.
  - destruct (HostRotation_reset _ _ _); simpl in H; try discriminate.
    injection H as <- <-. by repeat split.
  - injection H as <- <-. by repeat split.
  - injection H as <- <-. by repeat split.
Qed.

Lemma HostRotation_round_robin_result fuel rnd st h st' :
  HostRotation fuel TRANSPORT_HTTP_ROTATION_ROUND_ROBIN rnd st = Ok (h, st') ->
  Transport_HostMaxRetries st' = Transport_HostMaxRetries st
  /\ Transport_Hosts st' = Transport_Hosts st
  /\ (Transport_HostMaxRetries st = 0 -> Transport_Hosts st <> None -> h <> None).
Proof.
  destruct fuel as [|fuel]; [discriminate|].
  rewrite HostRotation_round_robin_eq.
  destruct (HostRotation_proxy_fields st) as (Hh & Hhs & Hc & Hm & _).
  destruct (Transport_Host (HostRotation_proxy st)).
  - destruct (HostRotation_scan _ _ _ _) as [Host| | |]; simpl; try discriminate.
    intros H. apply HostRotation_exhaust_result in H as (H1 & H2 & H3 & _).
    rewrite Hm in *. rewrite Hhs in *. done.
  - intros H. injection H as <- <-. rewrite Hm, Hhs. by repeat split.
Qed.

(** When the random pick is dead, the random strategy returns what the
    round-robin strategy returns. *)
Lemma HostRotation_random_fallback fuel rnd st a r :
  HostRandom fuel rnd st = Ok (Some a) ->
  Heap st !! a = Some r -> Dead r = true ->
  HostRotation (S fuel) TRANSPORT_HTTP_ROTATION_RANDOM rnd st
  = HostRotation fuel TRANSPORT_HTTP_ROTATION_ROUND_ROBIN rnd st.
Proof.
  intros Hpick Hr Hdead. rewrite HostRotation_random_eq.
  rewrite HostRandom_proxy, Hpick. cbn [bind deref].
  destruct (HostRotation_proxy_fields st) as (Hh & _). rewrite Hh, Hr.
  cbn [bind]. rewrite Hdead, HostRotation_after_proxy.
  destruct (HostRotation fuel _ rnd st) as [[h st']| | |] eqn:Hrr; try done.
  cbn [bind fst snd].
  apply HostRotation_round_robin_result in Hrr as (Hm & Hhs & Hnn).
  unfold HostRotation_exhaust. rewrite Hm.
  destruct (Z.eqb_spec (Transport_HostMaxRetries st) 0) as [Hz|Hz]; [|done].
  destruct h as [b|]; [done|]. exfalso. apply Hnn; try done.
  by eapply HostRandom_Some_Hosts.
Qed.

(** The random pick on a non-empty well-formed pool. *)
Lemma HostRandom_wf st L fuel rnd :
  wf_pool st L -> L <> [] -> (length L < fuel)%nat ->
  exists a, L !! Z.to_nat (DWORD rnd mod Z.of_nat (length L)) = Some a
            /\ HostRandom fuel rnd st = Ok (Some a).
Proof.
  intros Hwf Hne Hfuel. unfold HostRandom.
  rewrite (HostCount_wf _ _ _ Hwf Hfuel). cbn [bind].
  destruct Hwf as [Hc Hlen].
  assert (0 < Z.of_nat (length L)) by (destruct L; [done | simpl; lia]).
  unfold DWORD_rem. destruct (Z.eqb_spec (Z.of_nat (length L)) 0); [lia|].
  cbn [bind].
  pose proof (Z.mod_pos_bound (DWORD rnd) (Z.of_nat (length L))) as Hb.
  set (Index := DWORD rnd mod Z.of_nat (length L)) in *.
  rewrite (HostRandom_loop_chain _ Index L); try done; try lia.
  rewrite Z.sub_0_r.
  destruct (L !! Z.to_nat Index) as [a|] eqn:Ha; [eauto|].
  apply lookup_ge_None in Ha. lia.
Qed.

Lemma chain_head heap p a l : chain heap p (a :: l) -> p = Some a.
Proof. by intros [-> _]. Qed.

Lemma wf_pool_reset st L :
  wf_pool st L -> wf_pool (set_Heap (reset_pool (Heap st) L) st) L.
Proof.
  intros [Hc Hlen]. split; [|done]. simpl.
  eapply chain_frame; [|exact Hc]. intros b. apply reset_pool_keeps_Next.
Qed.

Lemma HostRotation_round_robin_cases st L fuel rnd :
  wf_pool st L -> (length L + 1 < fuel)%nat ->
  exists h, rotation_outcome st L
              (HostRotation fuel TRANSPORT_HTTP_ROTATION_ROUND_ROBIN rnd st) h.
Proof.
  intros Hwf Hfuel.
  assert (Hhead : L <> [] -> Transport_Hosts st <> None).
  { destruct Hwf as [Hc _]. destruct L; [done|].
    apply chain_head in Hc. by rewrite Hc. }
  destruct (Transport_Host st) as [c|] eqn:Hcur.
  - rewrite (HostRotation_round_robin_wf _ L _ _ c) by done.
    unfold rotate_round_robin, rotation_outcome.
    destruct (first_live (Heap st) L) as [a|].
    + exists (Some a). split; [by left | done].
    + destruct (Z.eqb_spec (Transport_HostMaxRetries st) 0) as [Hz|Hz].
      * exists (Transport_Hosts st). split; [by right | auto].
      * exists None. split; [by left | done].
  - destruct fuel as [|fuel]; [lia|].
    rewrite HostRotation_round_robin_initial by done.
    exists (Transport_Hosts st). split; [by left | auto].
Qed.

Lemma HostRotation_cases st L fuel Strategy rnd :
  wf_pool st L -> (length L + 2 < fuel)%nat ->
  L <> [] \/ Strategy <> TRANSPORT_HTTP_ROTATION_RANDOM ->
  exists h, rotation_outcome st L (HostRotation fuel Strategy rnd st) h.
Proof.
  intros Hwf Hfuel Hcase.
  destruct (decide (Strategy = TRANSPORT_HTTP_ROTATION_ROUND_ROBIN)) as [->|Hrr].
  { apply HostRotation_round_robin_cases; [done | lia]. }
  destruct fuel as [|fuel]; [lia|].
  destruct (HostRotation_proxy_fields st) as (Hh & Hhs & Hc & Hm & _).
  destruct (decide (Strategy = TRANSPORT_HTTP_ROTATION_RANDOM)) as [->|Hrn].
  - destruct Hcase as [Hne|]; [|done].
    destruct (HostRandom_wf st L fuel rnd) as (a & Ha & Hpick); [done|done|lia|].
    destruct (chain_lookup (Heap st) (Transport_Hosts st) L a) as [r Hr];
      [apply Hwf | by eapply list_elem_of_lookup_2 |].
    destruct (Dead r) eqn:Hdead.
    + rewrite (HostRotation_random_fallback _ _ _ a r) by done.
      apply HostRotation_round_robin_cases; [done | lia].
    + rewrite HostRotation_random_eq, HostRandom_proxy, Hpick.
      cbn [bind deref]. rewrite Hh, Hr. cbn [bind]. rewrite Hdead.
      rewrite (HostRotation_exhaust_wf _ L) by (by apply wf_pool_proxy || lia).
      rewrite andb_false_r. exists (Some a). split; [by left | done].
  - rewrite HostRotation_other_eq by done.
    rewrite (HostRotation_exhaust_wf _ L) by (by apply wf_pool_proxy || lia).
    rewrite andb_true_r, Hm, Hh, Hhs.
    destruct (Z.eqb_spec (Transport_HostMaxRetries st) 0) as [Hz|Hz].
    + exists (Transport_Hosts st). split; [by right|].
      intros _ Hne. destruct Hwf as [Hchain _]. destruct L; [done|].
      apply chain_head in Hchain. by rewrite Hchain.
    + exists None. split; [by left | done].
Qed.

Lemma wf_pool_two_hosts dB dA fB fA cur num max strategy :
  wf_pool (two_hosts dB dA fB fA cur num max strategy) [1%nat; 0%nat].
Proof. split; [simpl; eauto 10 | done]. Qed.

Lemma first_live_None heap l :
  (forall a, a ∈ l -> is_dead heap a = true) -> first_live heap l = None.
Proof.
  induction l as [|b l IH]; intros Hall; [done|].
  unfold first_live in *. simpl.
  assert (Hb : is_dead heap b = true) by (apply Hall; left).
  unfold is_dead in Hb. unfold is_live at 1.
  destruct (heap !! b) as [r|]; [|discriminate]. rewrite Hb. simpl.
  apply IH. intros a Ha. apply Hall. by right.
Qed.

Lemma first_live_Some heap l a :
  first_live heap l = Some a ->
  exists pre post, l = pre ++ a :: post
    /\ is_live heap a = true
    /\ Forall (fun b => is_live heap b = false) pre.
Proof.
  unfold first_live. induction l as [|b l IH]; [discriminate|]. simpl.
  destruct (is_live heap b) eqn:Hb.
  - intros [= ->]. exists [], l. by repeat split.
  - intros (pre & post & -> & Ha & Hpre)%IH.
    exists (b :: pre), post. repeat split; [done|]. by constructor.
Qed.

Lemma first_live_exists heap l b :
  b ∈ l -> is_live heap b = true -> exists a, first_live heap l = Some a.
Proof.
  unfold first_live. induction l as [|c l IH]; intros Hin Hb.
  - by apply elem_of_nil in Hin.
  - simpl. destruct (is_live heap c) eqn:Hc; [eauto|].
    apply elem_of_cons in Hin as [->|Hin]; [congruence | eauto].
Qed.

Lemma HostRotation_all_dead st L fuel Strategy rnd c :
  wf_pool st L -> L <> [] -> Transport_Host st = Some c ->
  Transport_HostMaxRetries st = 0 ->
  (forall a, a ∈ L -> is_dead (Heap st) a = true) ->
  (length L + 2 < fuel)%nat ->
  HostRotation fuel Strategy rnd st
  = Ok (Transport_Hosts st,
        set_Heap (reset_pool (Heap st) L) (HostRotation_proxy st)).
Proof.
  intros Hwf Hne Hcur Hmax Hdead Hfuel.
  assert (Hrr : forall f, (length L + 1 < f)%nat ->
            HostRotation f TRANSPORT_HTTP_ROTATION_ROUND_ROBIN rnd st
            = Ok (Transport_Hosts st,
                  set_Heap (reset_pool (Heap st) L) (HostRotation_proxy st))).
  { intros f Hf. rewrite (HostRotation_round_robin_wf _ L _ _ c) by done.
    unfold rotate_round_robin. rewrite first_live_None by done.
    by rewrite Hmax. }
  destruct (decide (Strategy = TRANSPORT_HTTP_ROTATION_ROUND_ROBIN)) as [->|Hs1].
  { apply Hrr. lia. }
  destruct fuel as [|fuel]; [lia|].
  destruct (HostRotation_proxy_fields st) as (Hh & Hhs & Hc & Hm & _).
  destruct (decide (Strategy = TRANSPORT_HTTP_ROTATION_RANDOM)) as [->|Hs2].
  - destruct (HostRandom_wf st L fuel rnd) as (a & Ha & Hpick); [done|done|lia|].
    apply list_elem_of_lookup_2 in Ha.
    specialize (Hdead a Ha). unfold is_dead in Hdead.
    destruct (Heap st !! a) as [r|] eqn:Hr; [|discriminate].
    rewrite (HostRotation_random_fallback _ _ _ a r) by done.
    apply Hrr. lia.
  - rewrite HostRotation_other_eq by done.
    rewrite (HostRotation_exhaust_wf _ L) by (by apply wf_pool_proxy || lia).
    by rewrite Hm, Hmax, Hh, Hhs.
Qed.

Lemma reset_pool_idemp heap L :
  reset_pool (reset_pool heap L) L = reset_pool heap L.
Proof.
  apply list_eq. intros a. rewrite !reset_pool_lookup.
  destruct (decide (a ∈ L)); [|done]. by destruct (heap !! a).
Qed.

Lemma wf_pool_fail_all st L : wf_pool st L -> wf_pool (fail_all L st) L.
Proof.
  intros [Hc Hlen]. split; [|done]. simpl.
  eapply chain_frame; [|exact Hc]. intros b.
  rewrite foldl_alter_lookup by done.
  destruct (decide (b ∈ L)); [|done]. by destruct (Heap st !! b).
Qed.

Lemma fail_all_dead st L a :
  wf_pool st L -> a ∈ L -> is_dead (Heap (fail_all L st)) a = true.
Proof.
  intros [Hc _] Ha. destruct (chain_lookup _ _ _ _ Hc Ha) as [r Hr].
  unfold is_dead. simpl. rewrite foldl_alter_lookup by done.
  destruct (decide (a ∈ L)); [|done]. by rewrite Hr.
Qed.

(** One round: all hosts dead, then a rotation under unlimited retries. *)
Lemma HostRotation_round st L fuel Strategy rnd c :
  wf_pool st L -> L <> [] -> Transport_HostMaxRetries st = 0 ->
  Transport_Host st = Some c -> (length L + 2 < fuel)%nat ->
  exists st',
    HostRotation fuel Strategy rnd (fail_all L st) = Ok (Transport_Hosts st, st')
    /\ wf_pool st' L
    /\ Transport_HostMaxRetries st' = 0
    /\ Transport_Host st' = Some c
    /\ Transport_Hosts st' = Transport_Hosts st
    /\ (forall a, a ∈ L ->
          exists r, Heap st' !! a = Some r /\ Dead r = false /\ Failures r = 0).
Proof.
  intros Hwf Hne Hmax Hcur Hfuel.
  pose proof (wf_pool_fail_all _ _ Hwf) as Hwf1.
  rewrite (HostRotation_all_dead (fail_all L st) L fuel Strategy rnd c);
    try done; [|intros a Ha; by apply fail_all_dead].
  destruct (HostRotation_proxy_fields (fail_all L st)) as (Hh & Hhs & Hc & Hm & _).
  eexists. split; [done|]. simpl. rewrite Hhs, Hc, Hm.
  split; [|split; [done|split; [done|split; [done|]]]].
  - pose proof (wf_pool_reset _ L (wf_pool_proxy _ _ Hwf1)) as Hwf'.
    by rewrite Hh in Hwf'.
  - intros a Ha. rewrite reset_pool_lookup.
    destruct (decide (a ∈ L)); [|done].
    destruct Hwf1 as [Hchain _].
    destruct (chain_lookup _ _ _ _ Hchain Ha) as [r Hr].
    simpl in Hr. rewrite Hr. by eexists.
Qed.

Lemma exhaust_rounds_unlimited L fuel Strategy rnd c n : forall st,
  wf_pool st L -> L <> [] -> Transport_HostMaxRetries st = 0 ->
  Transport_Host st = Some c -> (length L + 2 < fuel)%nat ->
  exists st',
    exhaust_rounds n fuel Strategy rnd L st = Ok (Transport_Hosts st, st')
    /\ (forall a, a ∈ L ->
          exists r, Heap st' !! a = Some r /\ Dead r = false /\ Failures r = 0).
Proof.
  induction n as [|n IH]; intros st Hwf Hne Hmax Hcur Hfuel;
    destruct (HostRotation_round st L fuel Strategy rnd c Hwf Hne Hmax Hcur Hfuel)
      as (st1 & Hrot & Hwf1 & Hmax1 & Hcur1 & Hhs1 & Hlive); simpl.
  - eauto.
  - rewrite Hrot. cbn [bind snd].
    destruct (IH st1 Hwf1 Hne Hmax1 Hcur1 Hfuel) as (st' & Hr & Hl).
    rewrite Hhs1 in Hr. eauto.
Qed.

(** ** Failure accounting *)

Lemma kept_or_reset_refl heap : kept_or_reset heap heap.
Proof. intros b. by left. Qed.

Lemma kept_or_reset_trans h1 h2 h3 :
  kept_or_reset h1 h2 -> kept_or_reset h2 h3 -> kept_or_reset h1 h3.
Proof.
  intros H12 H23 b. destruct (H12 b) as [E1|E1], (H23 b) as [E2|E2];
    rewrite E2, E1; auto.
  right. by destruct (h1 !! b).
Qed.

Lemma HostRotation_reset_records fuel : forall heap p heap',
  HostRotation_reset fuel heap p = Ok heap' -> kept_or_reset heap heap'.
Proof.
  induction fuel as [|fuel IH]; intros heap p heap' H; [discriminate|].
  simpl in H. destruct p as [a|]; [|injection H as <-; apply kept_or_reset_refl].
  destruct (heap !! a) as [r|] eqn:Hr; [|discriminate].
  apply IH in H. eapply kept_or_reset_trans; [|exact H].
  intros b. destruct (decide (a = b)) as [<-|Hne].
  - right. rewrite list_lookup_insert_eq by (by eapply lookup_lt_Some).
    by rewrite Hr.
  - left. by rewrite list_lookup_insert_ne.
Qed.

Lemma HostRotation_exhaust_records fuel Host st h st' :
  HostRotation_exhaust fuel Host st = Ok (h, st') ->
  kept_or_reset (Heap st) (Heap st')
  /\ (Transport_HostMaxRetries st <> 0 -> st' = st)
  /\ Transport_HostMaxRetries st' = Transport_HostMaxRetries st.
Proof.
  unfold HostRotation_exhaust. intros H.
  destruct (Z.eqb_spec (Transport_HostMaxRetries st) 0) as [Hz|Hz];
    destruct Host as [b|]; simpl in H;
    try (injection H as <- <-; split; [apply kept_or_reset_refl | done]).
  destruct (HostRotation_reset _ _ _) as [heap'| | |] eqn:Hreset; try discriminate.
  injection H as <- <-. split; [|done]. simpl.
  by eapply HostRotation_reset_records.
Qed.

Lemma HostRotation_round_robin_records fuel rnd st h st' :
  HostRotation fuel TRANSPORT_HTTP_ROTATION_ROUND_ROBIN rnd st = Ok (h, st') ->
  kept_or_reset (Heap st) (Heap st')
  /\ (Transport_HostMaxRetries st <> 0 -> Heap st' = Heap st)
  /\ Transport_HostMaxRetries st' = Transport_HostMaxRetries st.
Proof.
  destruct fuel as [|fuel]; [discriminate|].
  rewrite HostRotation_round_robin_eq.
  destruct (HostRotation_proxy_fields st) as (Hh & _ & _ & Hm & _).
  destruct (Transport_Host (HostRotation_proxy st)).
  - destruct (HostRotation_scan _ _ _ _); try discriminate. cbn [bind].
    intros (H1 & H2 & H3)%HostRotation_exhaust_records.
    rewrite Hh, Hm in *. repeat split; try done.
    intros Hz. by rewrite (H2 Hz).
  - intros [= <- <-]. rewrite Hh, Hm. split; [apply kept_or_reset_refl | done].
Qed.

Lemma HostRotation_records fuel Strategy rnd st h st' :
  HostRotation fuel Strategy rnd st = Ok (h, st') ->
  kept_or_reset (Heap st) (Heap st')
  /\ (Transport_HostMaxRetries st <> 0 -> Heap st' = Heap st)
  /\ Transport_HostMaxRetries st' = Transport_HostMaxRetries st.
Proof.
  destruct (decide (Strategy = TRANSPORT_HTTP_ROTATION_ROUND_ROBIN)) as [->|Hs1].
  { apply HostRotation_round_robin_records. }
  destruct fuel as [|fuel]; [discriminate|].
  destruct (HostRotation_proxy_fields st) as (Hh & _ & _ & Hm & _).
  destruct (decide (Strategy = TRANSPORT_HTTP_ROTATION_RANDOM)) as [->|Hs2].
  - rewrite HostRotation_random_eq.
    destruct (HostRandom _ _ _) as [Host| | |]; try discriminate. cbn [bind].
    destruct (deref _ _) as [r| | |]; try discriminate. cbn [bind].
    destruct (Dead r).
    + destruct (HostRotation fuel _ rnd _) as [[h1 st1]| | |] eqn:Hrr;
        try discriminate. cbn [bind fst snd].
      apply HostRotation_round_robin_records in Hrr as (A1 & A2 & A3).
      intros (B1 & B2 & B3)%HostRotation_exhaust_records.
      rewrite Hh, Hm in *. split; [by eapply kept_or_reset_trans|].
      split; [|congruence]. intros Hz. rewrite B2 by congruence. auto.
    + intros (B1 & B2 & B3)%HostRotation_exhaust_records.
      rewrite Hh, Hm in *. repeat split; try done. intros Hz. by rewrite B2.
  - rewrite HostRotation_other_eq by done.
    intros (B1 & B2 & B3)%HostRotation_exhaust_records.
    rewrite Hh, Hm in *. repeat split; try done. intros Hz. by rewrite B2.
Qed.

Lemma wf_pool_insert st L a r r' :
  wf_pool st L -> Heap st !! a = Some r -> Next r' = Next r ->
  wf_pool (set_Heap (<[a := r']> (Heap st)) st) L.
Proof.
  intros [Hc Hlen] Hr Hn. split; [|done]. simpl.
  eapply chain_frame; [|exact Hc]. by apply (insert_keeps_Next _ a r).
Qed.

Lemma HostFailure_limit fuel rnd st a r :
  Heap st !! a = Some r -> Failures r = Transport_HostMaxRetries st ->
  HostFailure fuel rnd (Some a) st
  = HostRotation fuel (Transport_HostRotation st) rnd
      (set_Heap (<[a := set_Dead true r]> (Heap st)) st).
Proof.
  intros Hr Hf. unfold HostFailure, deref. rewrite Hr. cbn [bind].
  by rewrite Hf, Z.eqb_refl.
Qed.

Lemma HostFailure_below fuel rnd st a r :
  Heap st !! a = Some r -> Failures r <> Transport_HostMaxRetries st ->
  HostFailure fuel rnd (Some a) st
  = Ok (Some a,
        set_Heap (<[a := set_Failures (DWORD (Failures r + 1)) r]> (Heap st)) st).
Proof.
  intros Hr Hf. unfold HostFailure, deref. rewrite Hr. cbn [bind].
  by destruct (Z.eqb_spec (Failures r) (Transport_HostMaxRetries st)).
Qed.

Lemma lookup_set_Heap_insert st a (r r' : HOST_DATA) :
  Heap st !! a = Some r ->
  Heap (set_Heap (<[a := r']> (Heap st)) st) !! a = Some r'.
Proof.
  intros Hr. simpl. apply list_lookup_insert_eq. by eapply lookup_lt_Some.
Qed.

(** ** Rotation and the cached proxy lookup *)



(** ** The HTTP send *)

Lemma same_pool_refl st : same_pool st st.
Proof. by repeat split. Qed.

Lemma same_pool_trans st1 st2 st3 :
  same_pool st1 st2 -> same_pool st2 st3 -> same_pool st1 st3.
Proof.
  unfold same_pool. intros (?&?&?&?&?&?&?) (?&?&?&?&?&?&?).
  repeat split; congruence.
Qed.

Lemma discoveries_app tr1 tr2 :
  discoveries (tr1 ++ tr2) = (discoveries tr1 + discoveries tr2)%nat.
Proof. unfold discoveries. by rewrite filter_app, length_app. Qed.

Lemma discoveries_cons e tr :
  discoveries (e :: tr) = ((if is_discovery e then 1 else 0) + discoveries tr)%nat.
Proof. unfold discoveries. rewrite filter_cons. by destruct (is_discovery e). Qed.

Lemma discoveries_nil : discoveries [] = 0%nat.
Proof. done. Qed.

Ltac count_discoveries :=
  repeat first [ rewrite discoveries_cons | rewrite discoveries_app
               | rewrite discoveries_nil ];
  cbn [is_discovery].

Lemma discoveries_headers Request hs :
  discoveries (map (EvWinHttpAddRequestHeaders Request) hs) = 0%nat.
Proof. induction hs; [done|]. done. Qed.

Lemma discoveries_reads Request n :
  discoveries (replicate n (EvWinHttpReadData Request)) = 0%nat.
Proof. induction n; [done|]. done. Qed.

Lemma HttpSend_session_spec o st :
  same_pool st (fst (HttpSend_session o st))
  /\ LookedForProxy (fst (HttpSend_session o st)) = LookedForProxy st
  /\ discoveries (snd (HttpSend_session o st)) = 0%nat.
Proof.
  unfold HttpSend_session. destruct (hHttpSession st); [by repeat split|].
  simpl. destruct (o_WinHttpOpen o); [|by repeat split].
  destruct (Transport_Secure st); by repeat split.
Qed.

Lemma HttpSend_discover_spec o st :
  same_pool st (fst (HttpSend_discover o st))
  /\ LookedForProxy (fst (HttpSend_discover o st)) = LookedForProxy st
  /\ discoveries (snd (HttpSend_discover o st)) = 1%nat.
Proof.
  unfold HttpSend_discover.
  destruct (o_GetProxyForUrl_detect o); [by repeat split|].
  destruct (o_GetIEProxyConfig o) as [cfg|]; [|by repeat split].
  destruct (nonempty (ie_lpszProxy cfg)); [by repeat split|].
  destruct (nonempty (ie_lpszAutoConfigUrl cfg)); [|by repeat split].
  destruct (o_GetProxyForUrl_config o); by repeat split.
Qed.

(** The proxy block: discovery runs exactly when no proxy is configured
    and the lookup has not been done; afterwards the lookup is marked
    as done. *)
Lemma HttpSend_proxy_spec o Request st :
  same_pool st (fst (HttpSend_proxy o Request st))
  /\ discoveries (snd (HttpSend_proxy o Request st))
     = (if Proxy_Enabled st then 0 else if LookedForProxy st then 0 else 1)%nat
  /\ LookedForProxy (fst (HttpSend_proxy o Request st))
     = (if Proxy_Enabled st then LookedForProxy st else true).
Proof.
  unfold HttpSend_proxy. destruct (Proxy_Enabled st) eqn:Hpe.
  - cbn [fst snd]. split; [apply same_pool_refl|]. split; [|done].
    rewrite !discoveries_app.
    by destruct (non_NULL (Proxy_Username st)), (non_NULL (Proxy_Password st)),
                (non_NULL (ProxyForUrl st)).
  - destruct (LookedForProxy st) eqn:Hl; cbn [negb fst snd].
    + split; [apply same_pool_refl|]. split; [|done].
      by destruct (non_NULL (ProxyForUrl st)).
    + destruct (HttpSend_discover_spec o st) as (Hsp & Hfl & Hd).
      split; [|split; [|done]].
      * eapply same_pool_trans; [exact Hsp|]. by repeat split.
      * rewrite discoveries_app, Hd.
        by destruct (non_NULL (ProxyForUrl _)).
Qed.

Lemma HttpSend_exchange_spec o Send Connect Request Resp st :
  let res := HttpSend_exchange o Send Connect Request Resp st in
  same_pool st (snd (fst res))
  /\ LookedForProxy (snd (fst res)) = LookedForProxy st
  /\ discoveries (snd res) = 0%nat
  /\ loc_Connect (fst (fst res)) = Some Connect
  /\ loc_Request (fst (fst res)) = Some Request
  /\ (Resp = None ->
      loc_Successful (fst (fst res)) = false /\ loc_Resp (fst (fst res)) = None).
Proof.
  unfold HttpSend_exchange.
  destruct (o_WinHttpSendRequest o).
  - destruct (o_WinHttpReceiveResponse o); [|by repeat split].
    destruct (negb _); [by repeat split|].
    destruct Resp as [b|]; [|by repeat split].
    cbn [fst snd]. repeat split; try done.
    by rewrite discoveries_app, discoveries_reads.
  - cbn [fst snd]. destruct (_ =? ERROR_INTERNET_CANNOT_CONNECT); by repeat split.
Qed.

Lemma HttpSend_body_spec o Send Resp st loc st' tr :
  HttpSend_body o Send Resp st = Ok (loc, st', tr) ->
  same_pool st st'
  /\ (Resp = None -> loc_Successful loc = false /\ loc_Resp loc = None)
  /\ match loc_Request loc with
     | None => discoveries tr = 0%nat /\ LookedForProxy st' = LookedForProxy st
     | Some _ =>
         discoveries tr
         = (if Proxy_Enabled st then 0 else if LookedForProxy st then 0 else 1)%nat
         /\ LookedForProxy st'
            = (if Proxy_Enabled st then LookedForProxy st else true)
     end.
Proof.
  unfold HttpSend_body. destruct (Transport_Host st) as [cur|] eqn:Hcur; [|done].
  destruct (HttpSend_session_spec o st) as (Hsp & Hfl & Hd).
  set (stS := fst (HttpSend_session o st)) in *.
  set (trS := snd (HttpSend_session o st)) in *.
  cbn zeta.
  destruct (hHttpSession stS) as [session|].
  2: { intros H; injection H as Hloc Hst Htr; subst loc st' tr.
       split; [done|]. split; [by intros ->|]. cbn [loc_Request].
       split; [|done]. count_discoveries. by rewrite Hd. }
  destruct (deref _ _) as [HostData| | |]; try discriminate. cbn [bind].
  destruct (o_WinHttpConnect o) as [Connect|].
  2: { intros H; injection H as Hloc Hst Htr; subst loc st' tr.
       split; [done|]. split; [by intros ->|]. cbn [loc_Request].
       split; [|done]. count_discoveries. by rewrite Hd. }
  destruct (DWORD_rem _ _) as [Index| | |]; try discriminate. cbn [bind].
  destruct (Transport_Uris stS !! Z.to_nat Index) as [HttpEndpoint|]; [|discriminate].
  destruct (o_WinHttpOpenRequest o) as [Request|].
  2: { intros H; injection H as Hloc Hst Htr; subst loc st' tr.
       split; [done|]. split; [by intros ->|]. cbn [loc_Request].
       split; [|done]. count_discoveries. by rewrite Hd. }
  destruct (HttpSend_proxy_spec o Request stS) as (Hpp & Hpd & Hpf).
  set (stP := fst (HttpSend_proxy o Request stS)) in *.
  set (trP := snd (HttpSend_proxy o Request stS)) in *.
  pose proof (HttpSend_exchange_spec o Send Connect Request Resp stP) as Hex.
  cbn zeta in Hex. destruct Hex as (Hep & Hef & Hed & _ & Her & Hen).
  intros H; injection H as Hloc Hst Htr; subst loc st' tr.
  split; [by eapply same_pool_trans; [|eapply same_pool_trans]|].
  split; [done|]. rewrite Her.
  destruct Hsp as (_ & _ & _ & _ & _ & _ & Hpe). rewrite Hpe, Hfl in *.
  split; [|congruence].
  count_discoveries. rewrite Hd, discoveries_headers, Hpd, Hed.
  destruct (Transport_Secure stS); count_discoveries; lia.
Qed.

(** The body reaches [LEAVE] whenever the current host is a valid
    record and at least one URI is configured. *)
Lemma HttpSend_body_returns o Send Resp st a r :
  Transport_Host st = Some a -> Heap st !! a = Some r ->
  (0 < length (Transport_Uris st))%nat ->
  Z.of_nat (length (Transport_Uris st)) < DWORD_MODULUS ->
  exists loc st' tr, HttpSend_body o Send Resp st = Ok (loc, st', tr).
Proof.
  intros Hcur Hr Hu Hmax. unfold HttpSend_body. rewrite Hcur. cbn zeta.
  destruct (HttpSend_session_spec o st) as ((Hh & _ & Hc & _) & _).
  assert (Huris : Transport_Uris (fst (HttpSend_session o st)) = Transport_Uris st).
  { unfold HttpSend_session. destruct (hHttpSession st); [done|]. simpl.
    by destruct (o_WinHttpOpen o). }
  destruct (hHttpSession _); [|eauto].
  unfold deref. rewrite Hc, Hcur, Hh, Hr. cbn [bind].
  destruct (o_WinHttpConnect o); [|eauto].
  rewrite Huris. rewrite (DWORD_small (Z.of_nat _)) by lia.
  unfold DWORD_rem. destruct (Z.eqb_spec (Z.of_nat (length (Transport_Uris st))) 0);
    [lia|]. cbn [bind].
  pose proof (Z.mod_pos_bound (DWORD (o_RandomNumber32_uri o))
                (Z.of_nat (length (Transport_Uris st))) ltac:(lia)) as Hb.
  destruct (Transport_Uris st !! _) eqn:Hlk.
  - destruct (o_WinHttpOpenRequest o); eauto.
  - apply lookup_ge_None in Hlk. lia.
Qed.

(** [HttpSend] is its body followed by the code at [LEAVE]. *)
Lemma HttpSend_inv fuel o Send Resp st ok resp st' tr :
  HttpSend fuel o Send Resp st = Ok (ok, resp, st', tr) ->
  exists loc st1 tr1,
    HttpSend_body o Send Resp st = Ok (loc, st1, tr1)
    /\ ok = loc_Successful loc /\ resp = loc_Resp loc
    /\ tr = tr1 ++ HttpSend_cleanup loc
    /\ (if ok then st' = st1
        else exists h st2,
               HostFailure fuel (o_RandomNumber32_host o) (Transport_Host st1) st1
               = Ok (h, st2)
               /\ st' = set_Host h st2).
Proof.
  unfold HttpSend.
  destruct (HttpSend_body o Send Resp st) as [[[loc st1] tr1]| | |]; try discriminate.
  cbn [bind fst snd]. destruct (loc_Successful loc) eqn:Hs; cbn [negb].
  - intros [= <- <- <- <-]. exists loc, st1, tr1. by rewrite Hs.
  - destruct (HostFailure _ _ _ _) as [[h st2]| | |] eqn:Hf; try discriminate.
    cbn [bind fst snd]. intros [= <- <- <- <-]. exists loc, st1, tr1.
    repeat split; try done. by exists h, st2.
Qed.




(** ** Two runs of [HttpSend]

    The same answers from the outside (request sent, response received,
    status 200, three bytes of body): with [Resp == NULL] the call
    returns [FALSE] and the failure counter of the current host goes
    up; with a response buffer it returns [TRUE] with the body. *)

Example HttpSend_null_Resp_run :
  exists st' tr,
    HttpSend 5
      (mkHttpOracle (Some 10) (Some 11) 5 (Some 12) None None None true 0 true
                    (Some 200) [Some [1; 2]; Some [3]; Some []] 0)
      (mkBuffer (Some [9; 9]) 2) None (set_Host (Some 1%nat) pool_two)
    = Ok (false, None, st', tr)
    /\ Heap st' !! 1%nat = Some (mkHost "hostB" 80 false 1 (Some 0%nat))
    /\ discoveries tr = 1%nat.
Proof. eexists _, _. by repeat split. Qed.

Example HttpSend_with_Resp_run :
  exists st' tr,
    HttpSend 5
      (mkHttpOracle (Some 10) (Some 11) 5 (Some 12) None None None true 0 true
                    (Some 200) [Some [1; 2]; Some [3]; Some []] 0)
      (mkBuffer (Some [9; 9]) 2) (Some (mkBuffer None 0))
      (set_Host (Some 1%nat) pool_two)
    = Ok (true, Some (mkBuffer (Some [1; 2; 3]) 3), st', tr)
    /\ Heap st' !! 1%nat = Some (mkHost "hostB" 80 false 0 (Some 0%nat)).
Proof. eexists _, _. by repeat split. Qed.

(** ** A run of [SmbRecv]

    Eleven bytes in the pipe: the tag of this agent, the length 3 and
    three bytes of body. *)

Example SmbRecv_frame_run :
  SmbRecv (mkSmbOracle None false false 0 (Some 11)
             (mkReadFile false ERROR_MORE_DATA 0) (mkReadFile false ERROR_MORE_DATA 3)
             true (Some [7; 8; 9]))
          (mkBuffer None 0) (set_Handle (Some 7) pool_two)
  = (true, mkBuffer (Some [7; 8; 9]) 3, set_Handle (Some 7) pool_two,
     [EvPeekNamedPipe (Some 7); EvReadFile (Some 7) 4; EvReadFile (Some 7) 4;
      EvLocalAlloc 3; EvPipeRead (Some 7) 3]).
Proof. reflexivity. Qed.

(** ** The claims *)

(** C1.  With [HostMaxRetries == 0], on a non-empty null-terminated
    pool: whenever the strategy step ends with no host, [HostRotation]
    resets every record of the pool ([Failures = 0], [Dead = FALSE],
    the other fields kept) and returns the head; this is what happens
    when a current host is set and every record is dead, under any
    strategy.  Rotation never returns [NULL], and it leaves a state on
    which the same holds again: the reset is idempotent, and any number
    of rounds "all hosts die, then rotate" ends with the head returned
    and every host live with a zero counter. *)
Theorem HostRotation_unlimited_retries st L fuel Strategy rnd :
  wf_pool st L -> L <> [] -> Transport_HostMaxRetries st = 0 ->
  (length L + 2 < fuel)%nat ->
  (* the exhaustion rule *)
  HostRotation_exhaust fuel None st
  = Ok (Transport_Hosts st, set_Heap (reset_pool (Heap st) L) st)
  (* every host dead: reset, and return the head *)
  /\ (Transport_Host st <> None ->
      (forall a, a ∈ L -> is_dead (Heap st) a = true) ->
      HostRotation fuel Strategy rnd st
      = Ok (Transport_Hosts st,
            set_Heap (reset_pool (Heap st) L) (HostRotation_proxy st)))
  (* what the reset does to the heap *)
  /\ (forall a r, a ∈ L -> Heap st !! a = Some r ->
      reset_pool (Heap st) L !! a
      = Some (mkHost (Host r) (Port r) false 0 (Next r)))
  /\ (forall a, a ∉ L -> reset_pool (Heap st) L !! a = Heap st !! a)
  /\ reset_pool (reset_pool (Heap st) L) L = reset_pool (Heap st) L
  (* any number of rounds of exhaustion end with the head and a live pool *)
  /\ (Transport_Host st <> None ->
      forall n, exists st',
        exhaust_rounds n fuel Strategy rnd L st = Ok (Transport_Hosts st, st')
        /\ (forall a, a ∈ L ->
              exists r, Heap st' !! a = Some r /\ Dead r = false /\ Failures r = 0))
  (* never NULL, and repeatable *)
  /\ (exists a st',
        HostRotation fuel Strategy rnd st = Ok (Some a, st')
        /\ Transport_Hosts st' = Transport_Hosts st
        /\ Transport_Host st' = Transport_Host st
        /\ Transport_HostMaxRetries st' = 0
        /\ wf_pool st' L).
Proof.
  intros Hwf Hne Hmax Hfuel.
  destruct (HostRotation_proxy_fields st) as (Hh & Hhs & Hc & Hm & _).
  split; [|split; [|split; [|split; [|split; [|split]]]]].
  - rewrite (HostRotation_exhaust_wf _ L) by (done || lia). by rewrite Hmax.
  - intros Hcur Hdead. destruct (Transport_Host st) as [c|] eqn:Hcur'; [|done].
    by apply (HostRotation_all_dead st L fuel Strategy rnd c).
  - intros a r Ha Hr. rewrite reset_pool_lookup.
    destruct (decide (a ∈ L)); [|done]. by rewrite Hr.
  - intros a Ha. rewrite reset_pool_lookup. by destruct (decide (a ∈ L)).
  - apply reset_pool_idemp.
  - intros Hcur n. destruct (Transport_Host st) as [c|] eqn:Hcur'; [|done].
    by apply (exhaust_rounds_unlimited L fuel Strategy rnd c n).
  - destruct (HostRotation_cases st L fuel Strategy rnd) as (h & Hres & Hnn);
      [done | done | by left |].
    destruct h as [a|]; [|by destruct (Hnn Hmax Hne)].
    exists a. destruct Hres as [Hres|(_ & Ha & Hres)].
    + exists (HostRotation_proxy st). rewrite Hres, Hhs, Hc, Hm.
      split; [done|]. split; [done|]. split; [done|]. split; [done|].
      by apply wf_pool_proxy.
    + eexists. rewrite Hres, <- Ha. split; [done|]. simpl.
      rewrite Hhs, Hc, Hm.
      split; [done|]. split; [done|]. split; [done|].
      pose proof (wf_pool_reset _ L (wf_pool_proxy _ _ Hwf)) as Hwf'.
      by rewrite Hh in Hwf'.
Qed.

(** C1 on two dead hosts, random strategy: the pool is reset and the
    head (address 1) is returned. *)
Lemma HostRotation_unlimited_retries_witness :
  wf_pool (two_hosts true true 0 0 (Some 1%nat) 2 0 TRANSPORT_HTTP_ROTATION_RANDOM)
          [1%nat; 0%nat]
  /\ Transport_HostMaxRetries
       (two_hosts true true 0 0 (Some 1%nat) 2 0 TRANSPORT_HTTP_ROTATION_RANDOM) = 0
  /\ exists st',
       HostRotation 5 TRANSPORT_HTTP_ROTATION_RANDOM 7
         (two_hosts true true 0 0 (Some 1%nat) 2 0 TRANSPORT_HTTP_ROTATION_RANDOM)
       = Ok (Some 1%nat, st')
       /\ Heap st' = [mkHost "hostA" 80 false 0 None;
                      mkHost "hostB" 80 false 0 (Some 0%nat)].
Proof.
  split; [apply wf_pool_two_hosts|]. split; [reflexivity|].
  destruct (HostRotation_unlimited_retries
              (two_hosts true true 0 0 (Some 1%nat) 2 0 TRANSPORT_HTTP_ROTATION_RANDOM)
              [1%nat; 0%nat] 5%nat TRANSPORT_HTTP_ROTATION_RANDOM 7
              (wf_pool_two_hosts _ _ _ _ _ _ _ _)
              ltac:(discriminate) eq_refl ltac:(simpl; lia))
    as (_ & Hreset & _).
  eexists. split.
  - apply Hreset; [discriminate|].
    intros a Ha. apply elem_of_cons in Ha as [->|Ha]; [reflexivity|].
    apply elem_of_cons in Ha as [->|Ha]; [reflexivity|].
    by apply elem_of_nil in Ha.
  - reflexivity.
Defined.

(** C2.  For a host record [r] at a valid address [a]: when
    [r.Failures] equals [HostMaxRetries], [HostFailure] sets
    [r.Dead = TRUE] and returns what [HostRotation] returns under the
    configured strategy; otherwise it increments [r.Failures] (a [DWORD])
    by one and returns the same host, nothing else being changed.  With
    [HostMaxRetries = 2], three calls on a fresh live host leave it live
    with counters 1 and 2 and mark it dead on the third.  A counter that
    is within the limit stays within the limit. *)
Theorem HostFailure_accounting st a r fuel rnd :
  Heap st !! a = Some r ->
  (Failures r = Transport_HostMaxRetries st ->
   HostFailure fuel rnd (Some a) st
   = HostRotation fuel (Transport_HostRotation st) rnd
       (set_Heap (<[a := set_Dead true r]> (Heap st)) st))
  /\ (Failures r <> Transport_HostMaxRetries st ->
      HostFailure fuel rnd (Some a) st
      = Ok (Some a,
            set_Heap (<[a := set_Failures (DWORD (Failures r + 1)) r]> (Heap st)) st)
      /\ (0 <= Failures r < Transport_HostMaxRetries st ->
          Transport_HostMaxRetries st < DWORD_MODULUS ->
          DWORD (Failures r + 1) = Failures r + 1
          /\ Failures r + 1 <= Transport_HostMaxRetries st))
  /\ (Transport_HostMaxRetries st = 2 -> Failures r = 0 -> Dead r = false ->
      exists st1 st2,
        HostFailure fuel rnd (Some a) st = Ok (Some a, st1)
        /\ Heap st1 !! a = Some (mkHost (Host r) (Port r) false 1 (Next r))
        /\ HostFailure fuel rnd (Some a) st1 = Ok (Some a, st2)
        /\ Heap st2 !! a = Some (mkHost (Host r) (Port r) false 2 (Next r))
        /\ HostFailure fuel rnd (Some a) st2
           = HostRotation fuel (Transport_HostRotation st) rnd
               (set_Heap (<[a := mkHost (Host r) (Port r) true 2 (Next r)]> (Heap st2))
                         st2)
        /\ (forall h st3,
              HostFailure fuel rnd (Some a) st2 = Ok (h, st3) ->
              Heap st3 !! a = Some (mkHost (Host r) (Port r) true 2 (Next r)))
        /\ (forall L, wf_pool st L -> a ∈ L -> (length L + 2 < fuel)%nat ->
              exists h st3, HostFailure fuel rnd (Some a) st2 = Ok (h, st3)))
  /\ ((forall b rb, Heap st !! b = Some rb ->
                    0 <= Failures rb <= Transport_HostMaxRetries st) ->
      Transport_HostMaxRetries st < DWORD_MODULUS ->
      forall h st', HostFailure fuel rnd (Some a) st = Ok (h, st') ->
      forall b rb, Heap st' !! b = Some rb ->
                   0 <= Failures rb <= Transport_HostMaxRetries st').
Proof.
  intros Hr. split; [by apply HostFailure_limit|]. split; [|split].
  - intros Hne. split; [by apply HostFailure_below|].
    intros Hb Hmax. rewrite DWORD_small by lia. lia.
  - intros Hmax Hf Hd. destruct r as [hn hp hd hf hnx]. simpl in Hf, Hd. subst hd hf.
    cbn [Host Port Next].
    set (r0 := mkHost hn hp false 0 hnx) in *.
    set (r1 := mkHost hn hp false 1 hnx).
    set (r2 := mkHost hn hp false 2 hnx).
    set (st1 := set_Heap (<[a := r1]> (Heap st)) st).
    set (st2 := set_Heap (<[a := r2]> (Heap st1)) st1).
    assert (H1 : Heap st1 !! a = Some r1) by by apply (lookup_set_Heap_insert st a r0).
    assert (H2 : Heap st2 !! a = Some r2) by by apply (lookup_set_Heap_insert st1 a r1).
    assert (E3 : HostFailure fuel rnd (Some a) st2
                 = HostRotation fuel (Transport_HostRotation st) rnd
                     (set_Heap (<[a := mkHost hn hp true 2 hnx]> (Heap st2)) st2)).
    { by rewrite (HostFailure_limit fuel rnd st2 a r2). }
    exists st1, st2. split; [|split; [done|split; [|split; [done|split; [done|split]]]]].
    + rewrite (HostFailure_below fuel rnd st a r0); try done. simpl. lia.
    + rewrite (HostFailure_below fuel rnd st1 a r1); try done. simpl. lia.
    + intros h st3. rewrite E3. intros (_ & Hk & _)%HostRotation_records.
      rewrite Hk by (simpl; lia).
      by apply (lookup_set_Heap_insert st2 a r2).
    + intros L Hwf Ha Hfuel. rewrite E3.
      assert (Hwf3 : wf_pool (set_Heap (<[a := mkHost hn hp true 2 hnx]> (Heap st2)) st2) L).
      { apply (wf_pool_insert st2 L a r2); [|done|done].
        apply (wf_pool_insert st1 L a r1); [|done|done].
        by apply (wf_pool_insert st L a r0). }
      destruct (HostRotation_cases _ L fuel (Transport_HostRotation st) rnd Hwf3 Hfuel)
        as (h & [Hres|(_ & _ & Hres)] & _).
      * left. intros ->. by apply elem_of_nil in Ha.
      * rewrite Hres. eauto.
      * rewrite Hres. eauto.
  - intros Hinv Hmax h st' Hcall b rb Hb.
    pose proof (Hinv a r Hr) as Hra.
    destruct (decide (Failures r = Transport_HostMaxRetries st)) as [He|Hne].
    + rewrite (HostFailure_limit fuel rnd st a r) in Hcall by done.
      apply HostRotation_records in Hcall as (Hk & _ & Hm).
      rewrite Hm. simpl. destruct (Hk b) as [E|E]; rewrite E in Hb; simpl in Hb.
      * destruct (decide (a = b)) as [<-|Hab].
        -- rewrite list_lookup_insert_eq in Hb by (by eapply lookup_lt_Some).
           injection Hb as <-. simpl. lia.
        -- rewrite list_lookup_insert_ne in Hb by done. by apply (Hinv b).
      * destruct (<[a := set_Dead true r]> (Heap st) !! b); [|discriminate].
        injection Hb as <-. simpl. lia.
    + rewrite (HostFailure_below fuel rnd st a r) in Hcall by done.
      injection Hcall as <- <-. simpl in *.
      destruct (decide (a = b)) as [<-|Hab].
      * rewrite list_lookup_insert_eq in Hb by (by eapply lookup_lt_Some).
        injection Hb as <-. simpl. rewrite DWORD_small by lia. lia.
      * rewrite list_lookup_insert_ne in Hb by done. by apply (Hinv b).
Qed.

(** C2 on two live hosts with limit 2: a first failure of the head,
    and the failure that reaches the limit. *)
Lemma HostFailure_accounting_witness :
  Heap (two_hosts false false 0 0 (Some 1%nat) 2 2 0) !! 1%nat
  = Some (mkHost "hostB" 80 false 0 (Some 0%nat))
  /\ HostFailure 5 0 (Some 1%nat) (two_hosts false false 0 0 (Some 1%nat) 2 2 0)
     = Ok (Some 1%nat, two_hosts false false 1 0 (Some 1%nat) 2 2 0)
  /\ HostFailure 5 0 (Some 1%nat) (two_hosts false false 2 0 (Some 1%nat) 2 2 0)
     = Ok (Some 0%nat,
           set_LookedForProxy false (two_hosts true false 2 0 (Some 1%nat) 2 2 0)).
Proof.
  split; [reflexivity|]. split.
  - exact (proj1 (proj1 (proj2 (HostFailure_accounting
                    (two_hosts false false 0 0 (Some 1%nat) 2 2 0) 1%nat
                    (mkHost "hostB" 80 false 0 (Some 0%nat)) 5%nat 0 eq_refl))
                  ltac:(discriminate))).
  - reflexivity.
Defined.

(** C3, as stated, fails.  With two live hosts and the head current, a
    scan from the record after the current host would select the second
    host; [HostRotation] selects the head, that is the current host
    again.  And with no current host the head is returned even when it
    is dead and another host is live. *)
Lemma HostRotation_round_robin_counterexample :
  (res <- HostRotation 5 TRANSPORT_HTTP_ROTATION_ROUND_ROBIN 0
            (two_hosts false false 0 0 (Some 1%nat) 2 2 0) ;;
   Ok (fst res))
  <> spec_round_robin 5 (two_hosts false false 0 0 (Some 1%nat) 2 2 0)
  /\ (HostRotation 5 TRANSPORT_HTTP_ROTATION_ROUND_ROBIN 0
        (two_hosts true false 2 0 None 2 2 0)
      = Ok (Some 1%nat,
            set_LookedForProxy false (two_hosts true false 2 0 None 2 2 0))
      /\ is_dead (Heap (two_hosts true false 2 0 None 2 2 0)) 1 = true
      /\ is_live (Heap (two_hosts true false 2 0 None 2 2 0)) 0 = true).
Proof. split; [discriminate | by repeat split]. Qed.

(** C3 (amended).  On a null-terminated pool with a current host set,
    [HostRotation] under the round-robin strategy scans from the head
    of the pool, skips the dead records and returns the first live one:
    it never returns a dead record while a live one exists.  When no
    record is live it returns [NULL] under bounded retries.  With no
    current host set it returns the head of the pool as it is. *)
Theorem HostRotation_round_robin_first_live st L fuel rnd :
  wf_pool st L -> (length L + 1 < fuel)%nat ->
  (Transport_Host st <> None ->
   ((exists b, b ∈ L /\ is_live (Heap st) b = true) ->
    exists a pre post,
      L = pre ++ a :: post
      /\ Forall (fun b => is_live (Heap st) b = false) pre
      /\ is_live (Heap st) a = true
      /\ HostRotation fuel TRANSPORT_HTTP_ROTATION_ROUND_ROBIN rnd st
         = Ok (Some a, HostRotation_proxy st))
   /\ ((forall b, b ∈ L -> is_dead (Heap st) b = true) ->
       Transport_HostMaxRetries st <> 0 ->
       HostRotation fuel TRANSPORT_HTTP_ROTATION_ROUND_ROBIN rnd st
       = Ok (None, HostRotation_proxy st)))
  /\ (Transport_Host st = None ->
      HostRotation fuel TRANSPORT_HTTP_ROTATION_ROUND_ROBIN rnd st
      = Ok (Transport_Hosts st, HostRotation_proxy st)).
Proof.
  intros Hwf Hfuel. split.
  - intros Hcur. destruct (Transport_Host st) as [c|] eqn:Hc; [|done].
    rewrite (HostRotation_round_robin_wf st L fuel rnd c) by done.
    unfold rotate_round_robin. split.
    + intros (b & Hb & Hlive).
      destruct (first_live_exists _ _ _ Hb Hlive) as [a Ha]. rewrite Ha.
      destruct (first_live_Some _ _ _ Ha) as (pre & post & HL & Hla & Hpre).
      by exists a, pre, post.
    + intros Hdead Hmax. rewrite first_live_None by done.
      by destruct (Z.eqb_spec (Transport_HostMaxRetries st) 0).
  - intros Hcur. destruct fuel as [|fuel]; [lia|].
    by apply HostRotation_round_robin_initial.
Qed.

(** C3 (amended) on a dead head followed by a live host. *)
Lemma HostRotation_round_robin_first_live_witness :
  wf_pool (two_hosts true false 2 0 (Some 1%nat) 2 2 0) [1%nat; 0%nat]
  /\ exists a pre post,
       [1%nat; 0%nat] = pre ++ a :: post
       /\ Forall (fun b => is_live (Heap (two_hosts true false 2 0 (Some 1%nat) 2 2 0)) b
                           = false) pre
       /\ is_live (Heap (two_hosts true false 2 0 (Some 1%nat) 2 2 0)) a = true
       /\ HostRotation 4 TRANSPORT_HTTP_ROTATION_ROUND_ROBIN 0
            (two_hosts true false 2 0 (Some 1%nat) 2 2 0)
          = Ok (Some a, HostRotation_proxy (two_hosts true false 2 0 (Some 1%nat) 2 2 0)).
Proof.
  split; [apply wf_pool_two_hosts|].
  apply (proj1 (HostRotation_round_robin_first_live
           (two_hosts true false 2 0 (Some 1%nat) 2 2 0) [1%nat; 0%nat] 4%nat 0
           (wf_pool_two_hosts _ _ _ _ _ _ _ _) ltac:(simpl; lia))).
  - discriminate.
  - exists 0%nat. split; [|reflexivity].
    apply elem_of_cons. right. apply elem_of_cons. by left.
Defined.

(** C4, as stated, fails: with exactly 8 bytes in the pipe (a frame
    with an empty body) nothing is read, although at least 8 bytes are
    available. *)
Lemma SmbRecv_eight_bytes_counterexample :
  8 <= 8
  /\ SmbRecv (mkSmbOracle None false false 0 (Some 8)
                (mkReadFile true 0 0) (mkReadFile true 0 0) true (Some []))
             (mkBuffer None 0) (set_Handle (Some 7) pool_two)
     = (true, mkBuffer None 0, set_Handle (Some 7) pool_two,
        [EvPeekNamedPipe (Some 7)])
  /\ EvReadFile (Some 7) 4
     ∉ snd (SmbRecv (mkSmbOracle None false false 0 (Some 8)
                       (mkReadFile true 0 0) (mkReadFile true 0 0) true (Some []))
                    (mkBuffer None 0) (set_Handle (Some 7) pool_two)).
Proof.
  split; [lia|]. split; [reflexivity|].
  intros [?|?%elem_of_nil]%elem_of_cons; done.
Qed.

(** C4 (amended).  When the peek reports at most 8 bytes, [SmbRecv]
    returns [TRUE] with the buffer and the state untouched and reads
    nothing.  When it reports more than 8 bytes, a 4-byte identity tag
    is read first; a failed read (one that fails for another reason
    than [ERROR_MORE_DATA]) of the tag or of the length, a tag that is
    not [AgentID], or a failed [PipeRead], make the call return [FALSE]
    with an empty buffer and [Connected = FALSE]; otherwise a 4-byte
    length is read, a buffer of exactly that length is allocated,
    [PipeRead] is asked for exactly that many bytes, and the call
    returns [TRUE] with them. *)
Theorem SmbRecv_framing o Resp st :
  (forall n, o_PeekNamedPipe o = Some n -> n <= 8 ->
     SmbRecv o Resp st = (true, Resp, st, [EvPeekNamedPipe (Transport_Handle st)]))
  /\ (forall n, o_PeekNamedPipe o = Some n -> 8 < n ->
       (exists tr, snd (SmbRecv o Resp st)
                   = EvPeekNamedPipe (Transport_Handle st)
                     :: EvReadFile (Transport_Handle st) 4 :: tr)
       /\ (read_failed (o_ReadFile_DemonId o) = true
           \/ Session_AgentID st <> DWORD (rf_value (o_ReadFile_DemonId o))
           \/ read_failed (o_ReadFile_PackageSize o) = true
           \/ o_PipeRead o = None ->
           fst (fst (fst (SmbRecv o Resp st))) = false
           /\ snd (fst (fst (SmbRecv o Resp st))) = mkBuffer None 0
           /\ snd (fst (SmbRecv o Resp st)) = set_Connected false st)
       /\ (forall body,
             read_failed (o_ReadFile_DemonId o) = false ->
             Session_AgentID st = DWORD (rf_value (o_ReadFile_DemonId o)) ->
             read_failed (o_ReadFile_PackageSize o) = false ->
             o_PipeRead o = Some body ->
             let PackageSize := DWORD (rf_value (o_ReadFile_PackageSize o)) in
             SmbRecv o Resp st
             = (true,
                mkBuffer (if o_LocalAlloc o then Some body else None) PackageSize,
                st,
                [EvPeekNamedPipe (Transport_Handle st);
                 EvReadFile (Transport_Handle st) 4;
                 EvReadFile (Transport_Handle st) 4;
                 EvLocalAlloc PackageSize;
                 EvPipeRead (Transport_Handle st) PackageSize]))).
Proof.
  split.
  - intros n Hp Hn. unfold SmbRecv. rewrite Hp.
    by destruct (Z.ltb_spec (4 + 4) n); [lia|].
  - intros n Hp Hn. unfold SmbRecv, SmbRecv_fail. rewrite Hp.
    destruct (Z.ltb_spec (4 + 4) n); [|lia].
    destruct (read_failed (o_ReadFile_DemonId o)) eqn:Hid.
    { split; [by eexists|]. split; [done|]. intros; discriminate. }
    destruct (Z.eqb_spec (Session_AgentID st) (DWORD (rf_value (o_ReadFile_DemonId o))))
      as [Heq|Hne]; cbn [negb].
    2: { split; [by eexists|]. split; [done|]. intros; done. }
    destruct (read_failed (o_ReadFile_PackageSize o)) eqn:Hsz.
    { split; [by eexists|]. split; [done|]. intros; discriminate. }
    destruct (o_PipeRead o) as [body|] eqn:Hrd.
    + split; [by eexists|]. split.
      * intros [?|[?|[?|?]]]; done.
      * intros body' _ _ _ [= <-]. done.
    + split; [by eexists|]. split; [done|]. intros; discriminate.
Qed.

(** C5.  Whenever the pick of [HostRandom] is a dead record,
    [HostRotation] under the random strategy returns exactly what it
    returns under the round-robin strategy from the same state (result
    and new state), through one fallback call; the round-robin call
    draws no random number and does not call back. *)
Theorem HostRotation_random_dead_pick fuel rnd st a r :
  HostRandom fuel rnd st = Ok (Some a) ->
  Heap st !! a = Some r -> Dead r = true ->
  HostRotation (S fuel) TRANSPORT_HTTP_ROTATION_RANDOM rnd st
  = HostRotation fuel TRANSPORT_HTTP_ROTATION_ROUND_ROBIN rnd st
  /\ (forall rnd', HostRotation fuel TRANSPORT_HTTP_ROTATION_ROUND_ROBIN rnd' st
                   = HostRotation fuel TRANSPORT_HTTP_ROTATION_ROUND_ROBIN rnd st)
  /\ (forall L c, wf_pool st L -> Transport_Host st = Some c ->
                  (length L + 1 < fuel)%nat ->
                  HostRotation (S fuel) TRANSPORT_HTTP_ROTATION_RANDOM rnd st
                  = Ok (rotate_round_robin st L)).
Proof.
  intros Hpick Hr Hdead.
  pose proof (HostRotation_random_fallback fuel rnd st a r Hpick Hr Hdead) as Heq.
  split; [done|]. split.
  - intros rnd'. apply HostRotation_round_robin_rnd.
  - intros L c Hwf Hcur Hfuel. rewrite Heq.
    by apply (HostRotation_round_robin_wf st L fuel rnd c).
Qed.

(** C5 on a dead head, which the random number 6 picks, followed by a
    live host. *)
Lemma HostRotation_random_dead_pick_witness :
  HostRandom 4 6 (two_hosts true false 2 0 (Some 1%nat) 2 2 1) = Ok (Some 1%nat)
  /\ HostRotation 5 TRANSPORT_HTTP_ROTATION_RANDOM 6
       (two_hosts true false 2 0 (Some 1%nat) 2 2 1)
     = HostRotation 4 TRANSPORT_HTTP_ROTATION_ROUND_ROBIN 6
         (two_hosts true false 2 0 (Some 1%nat) 2 2 1)
  /\ HostRotation 4 TRANSPORT_HTTP_ROTATION_ROUND_ROBIN 6
       (two_hosts true false 2 0 (Some 1%nat) 2 2 1)
     = Ok (Some 0%nat, set_LookedForProxy false
                         (two_hosts true false 2 0 (Some 1%nat) 2 2 1)).
Proof.
  split; [reflexivity|]. split; [|reflexivity].
  exact (proj1 (HostRotation_random_dead_pick 4 6
                  (two_hosts true false 2 0 (Some 1%nat) 2 2 1) 1%nat
                  (mkHost "hostB" 80 true 2 (Some 0%nat))
                  eq_refl eq_refl eq_refl)).
Defined.

(** C6 (the code departs from the claim).  On the empty pool
    [HostCount()] is zero and [HostRandom] computes
    [RandomNumber32() % 0]: the modulo is not guarded, the call faults
    and no [NULL] is returned. *)
Theorem HostRandom_empty_pool_faults fuel rnd st :
  HostCount (S fuel) (set_Hosts None st) = Ok 0
  /\ HostRandom (S fuel) rnd (set_Hosts None st) = Fault.
Proof. done. Qed.

(** C7.  On every null-terminated pool, [HostCheckup] returns [FALSE]
    if and only if every record of the pool has its [Dead] flag set, and
    [TRUE] otherwise; on the empty pool it returns the fixed value
    [FALSE]. *)
Theorem HostCheckup_false_iff_all_dead st L fuel :
  wf_pool st L -> (length L < fuel)%nat ->
  HostCheckup fuel st = Ok (negb (forallb (is_dead (Heap st)) L))
  /\ (HostCheckup fuel st = Ok false <->
      forall a, a ∈ L -> exists r, Heap st !! a = Some r /\ Dead r = true)
  /\ (L = [] -> HostCheckup fuel st = Ok false).
Proof.
  intros Hwf Hfuel.
  assert (Heq : HostCheckup fuel st = Ok (negb (forallb (is_dead (Heap st)) L))).
  { unfold HostCheckup. destruct Hwf as [Hc Hlen].
    rewrite (HostCheckup_loop_chain _ _ L Hc L); try done; try lia.
    cbn [bind]. rewrite (HostCount_wf st L) by done. cbn [bind]. f_equal.
    rewrite Z.add_0_l. pose proof (count_dead_all (Heap st) L) as Hall.
    destruct (Z.eqb_spec (Z.of_nat (length L)) (Z.of_nat (count_dead (Heap st) L)))
      as [He|He]; destruct (forallb (is_dead (Heap st)) L); try done.
    - assert (count_dead (Heap st) L = length L) as ?%Hall by lia. done.
    - destruct He. f_equal. symmetry. by apply Hall. }
  split; [done|]. split.
  - rewrite Heq. split.
    + intros [= Hall%negb_false_iff] a Ha.
      rewrite forallb_forall in Hall. apply list_elem_of_In, Hall in Ha.
      unfold is_dead in Ha. destruct (Heap st !! a) as [r|]; [eauto | done].
    + intros Hall. f_equal. apply negb_false_iff, forallb_forall.
      intros a Ha%list_elem_of_In. destruct (Hall a Ha) as (r & Hr & Hd).
      unfold is_dead. by rewrite Hr.
  - intros ->. by rewrite Heq.
Qed.

(** C7 on a dead head followed by a live host. *)
Lemma HostCheckup_false_iff_all_dead_witness :
  wf_pool (two_hosts true false 2 0 (Some 0%nat) 2 2 0) [1%nat; 0%nat]
  /\ (2 < 3)%nat
  /\ HostCheckup 3 (two_hosts true false 2 0 (Some 0%nat) 2 2 0) = Ok true.
Proof.
  split; [apply wf_pool_two_hosts|]. split; [lia|].
  exact (proj1 (HostCheckup_false_iff_all_dead
                  (two_hosts true false 2 0 (Some 0%nat) 2 2 0) [1%nat; 0%nat] 3%nat
                  (wf_pool_two_hosts _ _ _ _ _ _ _ _) ltac:(simpl; lia))).
Defined.




(** C9.  On an established pipe handle, when [PipeWrite] fails: with
    [ERROR_NO_DATA] as the last error [SmbSend] closes the handle,
    clears it, sets [Connected = FALSE] and returns [FALSE]; with any
    other last error it closes nothing and leaves the handle and the
    [Connected] flag (the whole [Instance]) as they were (the call then
    returns [TRUE]). *)
Theorem SmbSend_write_failure o Send st pipe :
  Transport_Handle st = Some pipe -> o_PipeWrite o = false ->
  (o_PipeWrite_LastError o = ERROR_NO_DATA ->
   SmbSend o Send st
   = (false, set_Connected false (set_Handle None st),
      [EvPipeWrite pipe Send; EvSysNtClose pipe])
   /\ Transport_Handle (snd (fst (SmbSend o Send st))) = None
   /\ Session_Connected (snd (fst (SmbSend o Send st))) = false)
  /\ (o_PipeWrite_LastError o <> ERROR_NO_DATA ->
      SmbSend o Send st = (true, st, [EvPipeWrite pipe Send])
      /\ Transport_Handle (snd (fst (SmbSend o Send st))) = Some pipe
      /\ Session_Connected (snd (fst (SmbSend o Send st))) = Session_Connected st
      /\ EvSysNtClose pipe ∉ snd (SmbSend o Send st)).
Proof.
  intros Hh Hw. unfold SmbSend. rewrite Hh, Hw. cbn [negb]. split.
  - intros ->. rewrite Z.eqb_refl. by repeat split.
  - intros Hne. destruct (Z.eqb_spec (o_PipeWrite_LastError o) ERROR_NO_DATA); [done|].
    repeat split; try done.
    intros [?|?%elem_of_nil]%elem_of_cons; done.
Qed.

(** C9 on an open pipe: a write failing with [ERROR_NO_DATA], and one
    failing with another error. *)
Lemma SmbSend_write_failure_witness :
  Transport_Handle (set_Connected true (set_Handle (Some 7) pool_two)) = Some 7
  /\ SmbSend (mkSmbOracle None false false ERROR_NO_DATA None
                (mkReadFile false 0 0) (mkReadFile false 0 0) false None)
             (mkBuffer (Some [1; 2; 3]) 3)
             (set_Connected true (set_Handle (Some 7) pool_two))
     = (false, set_Connected false (set_Handle None pool_two),
        [EvPipeWrite 7 (mkBuffer (Some [1; 2; 3]) 3); EvSysNtClose 7])
  /\ SmbSend (mkSmbOracle None false false 5 None
                (mkReadFile false 0 0) (mkReadFile false 0 0) false None)
             (mkBuffer (Some [1; 2; 3]) 3)
             (set_Connected true (set_Handle (Some 7) pool_two))
     = (true, set_Connected true (set_Handle (Some 7) pool_two),
        [EvPipeWrite 7 (mkBuffer (Some [1; 2; 3]) 3)]).
Proof.
  split; [reflexivity|]. split.
  - exact (proj1 (proj1 (SmbSend_write_failure
             (mkSmbOracle None false false ERROR_NO_DATA None
                (mkReadFile false 0 0) (mkReadFile false 0 0) false None)
             (mkBuffer (Some [1; 2; 3]) 3)
             (set_Connected true (set_Handle (Some 7) pool_two)) 7 eq_refl eq_refl)
           eq_refl)).
  - exact (proj1 (proj2 (SmbSend_write_failure
             (mkSmbOracle None false false 5 None
                (mkReadFile false 0 0) (mkReadFile false 0 0) false None)
             (mkBuffer (Some [1; 2; 3]) 3)
             (set_Connected true (set_Handle (Some 7) pool_two)) 7 eq_refl eq_refl)
           ltac:(discriminate))).
Defined.

(** C10.  A call of [HttpSend] with [Resp == NULL] never returns
    [TRUE]: whatever the body does (also when the request is sent, the
    response received and the status is 200) [Successful] is [FALSE] at
    [LEAVE], so the call is [HostFailure] applied to the current host.
    The body does reach [LEAVE] when the current host is a valid record
    and a URI is configured.  On the all-successful exchange the flag is
    set exactly when [Resp] is not [NULL]. *)
Theorem HttpSend_null_Resp_fails fuel o Send st :
  (forall loc st1 tr,
     HttpSend_body o Send None st = Ok (loc, st1, tr) ->
     loc_Successful loc = false
     /\ Transport_Host st1 = Transport_Host st
     /\ Heap st1 = Heap st
     /\ HttpSend fuel o Send None st
        = (fail <- HostFailure fuel (o_RandomNumber32_host o) (Transport_Host st) st1 ;;
           Ok (false, None, set_Host (fst fail) (snd fail),
               tr ++ HttpSend_cleanup loc)))
  /\ (forall ok resp st' tr,
        HttpSend fuel o Send None st = Ok (ok, resp, st', tr) -> ok = false)
  /\ (forall a r,
        Transport_Host st = Some a -> Heap st !! a = Some r ->
        (0 < length (Transport_Uris st))%nat ->
        Z.of_nat (length (Transport_Uris st)) < DWORD_MODULUS ->
        exists loc st1 tr, HttpSend_body o Send None st = Ok (loc, st1, tr))
  /\ (forall Connect Request b st0,
        o_WinHttpSendRequest o = true -> o_WinHttpReceiveResponse o = true ->
        HttpQueryStatus o = HTTP_STATUS_OK ->
        loc_Successful
          (fst (fst (HttpSend_exchange o Send Connect Request None st0))) = false
        /\ EvWinHttpReceiveResponse Request
           ∈ snd (HttpSend_exchange o Send Connect Request None st0)
        /\ loc_Successful
             (fst (fst (HttpSend_exchange o Send Connect Request (Some b) st0))) = true).
Proof.
  assert (Hbody : forall loc st1 tr,
     HttpSend_body o Send None st = Ok (loc, st1, tr) ->
     loc_Successful loc = false
     /\ Transport_Host st1 = Transport_Host st
     /\ Heap st1 = Heap st
     /\ HttpSend fuel o Send None st
        = (fail <- HostFailure fuel (o_RandomNumber32_host o) (Transport_Host st) st1 ;;
           Ok (false, None, set_Host (fst fail) (snd fail),
               tr ++ HttpSend_cleanup loc))).
  { intros loc st1 tr Hb.
    destruct (HttpSend_body_spec _ _ _ _ _ _ _ Hb) as ((Hh & _ & Hc & _) & Hn & _).
    destruct (Hn eq_refl) as [Hs Hr].
    split; [done|]. split; [done|]. split; [done|].
    unfold HttpSend. rewrite Hb. cbn [bind fst snd]. by rewrite Hs, Hr, Hc. }
  split; [exact Hbody|]. split; [|split].
  - intros ok resp st' tr Hsend.
    destruct (HttpSend_body o Send None st) as [[[loc st1] tr1]| | |] eqn:Hb;
      try (unfold HttpSend in Hsend; rewrite Hb in Hsend; discriminate).
    destruct (Hbody loc st1 tr1 eq_refl) as (_ & _ & _ & Heq).
    rewrite Heq in Hsend.
    destruct (HostFailure _ _ _ _); try discriminate. by injection Hsend as <- _ _ _.
  - intros a r. apply HttpSend_body_returns.
  - intros Connect Request b st0 Hsent Hrecv Hstatus.
    unfold HttpSend_exchange. rewrite Hsent, Hrecv, Hstatus. cbn [negb Z.eqb].
    change (HTTP_STATUS_OK =? HTTP_STATUS_OK) with true. cbn [negb fst snd loc_Successful].
    split; [done|]. split; [|done].
    apply elem_of_cons. right. apply elem_of_cons. by left.
Qed.

(** ** Further properties: the host pool *)

Lemma chain_addresses_valid heap p l a :
  chain heap p l -> a ∈ l -> (a < length heap)%nat.
Proof.
  intros Hc Ha. destruct (chain_lookup _ _ _ _ Hc Ha) as [r Hr].
  by eapply lookup_lt_Some.
Qed.

Lemma HostAdd_keeps host port st a r :
  Heap st !! a = Some r -> Heap (snd (HostAdd host port st)) !! a = Some r.
Proof. intros Hr. simpl. by apply lookup_app_l_Some. Qed.

Lemma add_hosts_wf hosts : forall st L,
  wf_pool st L -> Z.of_nat (length L + length hosts) < DWORD_MODULUS ->
  wf_pool (add_hosts hosts st)
          (reverse (seq (length (Heap st)) (length hosts)) ++ L)
  /\ length (Heap (add_hosts hosts st)) = (length (Heap st) + length hosts)%nat
  /\ (forall a r, Heap st !! a = Some r -> Heap (add_hosts hosts st) !! a = Some r)
  /\ (forall i h, hosts !! i = Some h ->
        exists nx, Heap (add_hosts hosts st) !! (length (Heap st) + i)%nat
                   = Some (mkHost (fst h) (snd h) false 0 nx))
  /\ Transport_Host (add_hosts hosts st) = Transport_Host st
  /\ Transport_NumHosts (add_hosts hosts st) = Transport_NumHosts st.
Proof.
  induction hosts as [|[h p] hosts IH]; intros st L Hwf Hmax.
  - simpl. rewrite Nat.add_0_r.
    split; [done|]. split; [done|]. split; [done|]. split; [|done].
    intros i hh Hi. by rewrite lookup_nil in Hi.
  - simpl in Hmax. destruct (HostAdd_wf h p st L Hwf ltac:(lia)) as [_ Hwf1].
    destruct (IH (snd (HostAdd h p st)) (length (Heap st) :: L) Hwf1
                 ltac:(simpl; lia)) as (IH1 & IH2 & IH3 & IH4 & IH5 & IH6).
    assert (Hlen : length (Heap (snd (HostAdd h p st))) = S (length (Heap st))).
    { simpl. rewrite length_app. simpl. lia. }
    rewrite Hlen in *.
    change (add_hosts ((h, p) :: hosts) st)
      with (add_hosts hosts (snd (HostAdd h p st))).
    split; [|split; [|split; [|split; [|split]]]].
    + simpl. rewrite reverse_cons, <- app_assoc. exact IH1.
    + rewrite IH2. simpl. lia.
    + intros a r Hr. apply IH3. by apply HostAdd_keeps.
    + intros [|i] hh Hi; simpl in Hi.
      * injection Hi as <-. rewrite Nat.add_0_r. eexists. apply IH3. simpl.
        rewrite lookup_app_r by done. by rewrite Nat.sub_diag.
      * destruct (IH4 i hh Hi) as [nx Hnx]. exists nx.
        by replace (length (Heap st) + S i)%nat with (S (length (Heap st)) + i)%nat
          by lia.
    + by rewrite IH5.
    + by rewrite IH6.
Qed.

(** X1.  Starting from a well-formed pool, [HostAdd] called for each
    host of a list leaves a well-formed pool in which the new hosts
    come first, last added first, followed by the old pool;
    [HostCount()] is then the old count plus the number of hosts added.
    The records already there, the current host and [NumHosts] are
    untouched, and each new record starts live with a zero counter. *)
Theorem HostAdd_then_HostCount hosts st L fuel :
  wf_pool st L -> Z.of_nat (length L + length hosts) < DWORD_MODULUS ->
  (length L + length hosts < fuel)%nat ->
  HostCount fuel (add_hosts hosts st) = Ok (Z.of_nat (length L + length hosts))
  /\ wf_pool (add_hosts hosts st)
             (reverse (seq (length (Heap st)) (length hosts)) ++ L)
  /\ (forall a r, Heap st !! a = Some r -> Heap (add_hosts hosts st) !! a = Some r)
  /\ (forall i h, hosts !! i = Some h ->
        exists nx, Heap (add_hosts hosts st) !! (length (Heap st) + i)%nat
                   = Some (mkHost (fst h) (snd h) false 0 nx))
  /\ Transport_Host (add_hosts hosts st) = Transport_Host st
  /\ Transport_NumHosts (add_hosts hosts st) = Transport_NumHosts st.
Proof.
  intros Hwf Hmax Hfuel.
  destruct (add_hosts_wf hosts st L Hwf Hmax) as (H1 & _ & H3 & H4 & H5 & H6).
  split; [|done].
  rewrite (HostCount_wf _ _ fuel H1).
  - f_equal. rewrite length_app, length_reverse, length_seq. lia.
  - rewrite length_app, length_reverse, length_seq. lia.
Qed.

(** X1 on three hosts added to the empty pool. *)
Lemma HostAdd_then_HostCount_witness :
  wf_pool (example_instance [] None None 0 0 0) []
  /\ HostCount 4 (add_hosts [("a"%string, 80); ("b"%string, 443); ("c"%string, 8080)]
                            (example_instance [] None None 0 0 0))
     = Ok 3.
Proof.
  split; [by split|].
  exact (proj1 (HostAdd_then_HostCount
                  [("a"%string, 80); ("b"%string, 443); ("c"%string, 8080)]
                  (example_instance [] None None 0 0 0) [] 4%nat
                  (conj eq_refl eq_refl) eq_refl ltac:(simpl; lia))).
Defined.

Lemma first_live_None_inv heap l a :
  first_live heap l = None -> a ∈ l -> is_live heap a = false.
Proof.
  unfold first_live. intros Hf Ha. apply list_elem_of_In in Ha.
  by apply (find_none _ _ Hf).
Qed.

Lemma not_live_dead heap a r :
  heap !! a = Some r -> is_live heap a = false -> is_dead heap a = true.
Proof.
  unfold is_live, is_dead. intros ->. by destruct (Dead r).
Qed.

Lemma live_not_dead heap a : is_live heap a = true -> is_dead heap a = false.
Proof.
  unfold is_live, is_dead. destruct (heap !! a) as [r|]; [|done].
  by destruct (Dead r).
Qed.

(** What a round-robin rotation with a current host returns: a live
    member of the pool, or [NULL] when every host is dead. *)
Lemma rotate_round_robin_live st L :
  wf_pool st L ->
  live_or_NULL L (Heap (snd (rotate_round_robin st L))) (fst (rotate_round_robin st L))
  /\ (fst (rotate_round_robin st L) = None ->
      (L = [] \/ Transport_HostMaxRetries st <> 0)
      /\ forall a, a ∈ L -> is_dead (Heap st) a = true).
Proof.
  intros Hwf. pose proof Hwf as [Hc _]. unfold rotate_round_robin.
  destruct (HostRotation_proxy_fields st) as (Hh & _).
  destruct (first_live (Heap st) L) as [a|] eqn:Hfl.
  - cbn [fst snd]. split; [|done]. rewrite Hh.
    destruct (first_live_Some _ _ _ Hfl) as (pre & post & -> & Hl & _).
    split; [|done]. apply elem_of_app. right. by left.
  - assert (Hdead : forall a, a ∈ L -> is_dead (Heap st) a = true).
    { intros a Ha. destruct (chain_lookup _ _ _ _ Hc Ha) as [r Hr].
      eapply not_live_dead; [done|]. by eapply first_live_None_inv. }
    destruct (Z.eqb_spec (Transport_HostMaxRetries st) 0) as [Hz|Hz];
      cbn [fst snd].
    + destruct L as [|b L]; simpl in Hc.
      * rewrite Hc. simpl. by split; [|intros _; split; [left|]].
      * destruct Hc as [Hhd (r & Hr & _)]. rewrite Hhd. split; [|done].
        split; [by left|]. unfold is_live. cbn [Heap set_Heap].
        rewrite reset_pool_lookup.
        destruct (decide (b ∈ b :: L)) as [_|Hn]; [|by destruct Hn; left].
        by rewrite Hr.
    + split; [done|]. intros _. split; [by right | done].
Qed.

Lemma rotate_round_robin_wf st L :
  wf_pool st L -> wf_pool (snd (rotate_round_robin st L)) L.
Proof.
  intros Hwf. unfold rotate_round_robin.
  destruct (HostRotation_proxy_fields st) as (Hh & _).
  destruct (first_live (Heap st) L); [by apply wf_pool_proxy|].
  destruct (_ =? 0); [|by apply wf_pool_proxy]. cbn [snd].
  pose proof (wf_pool_reset _ L (wf_pool_proxy _ _ Hwf)) as Hwf'.
  by rewrite Hh in Hwf'.
Qed.

Lemma HostRotation_random_wf st L fuel rnd c :
  wf_pool st L -> L <> [] -> Transport_Host st = Some c ->
  (length L + 2 < fuel)%nat ->
  exists a r,
    L !! Z.to_nat (DWORD rnd mod Z.of_nat (length L)) = Some a
    /\ Heap st !! a = Some r
    /\ HostRotation fuel TRANSPORT_HTTP_ROTATION_RANDOM rnd st
       = Ok (if Dead r then rotate_round_robin st L
             else (Some a, HostRotation_proxy st)).
Proof.
  intros Hwf Hne Hcur Hfuel. destruct fuel as [|fuel]; [lia|].
  destruct (HostRandom_wf st L fuel rnd) as (a & Ha & Hpick); [done|done|lia|].
  destruct (chain_lookup (Heap st) (Transport_Hosts st) L a) as [r Hr];
    [apply Hwf | by eapply list_elem_of_lookup_2 |].
  exists a, r. split; [done|]. split; [done|].
  destruct (HostRotation_proxy_fields st) as (Hh & _).
  destruct (Dead r) eqn:Hdead.
  - rewrite (HostRotation_random_fallback _ _ _ a r) by done.
    apply (HostRotation_round_robin_wf st L fuel rnd c); [done|done|lia].
  - rewrite HostRotation_random_eq, HostRandom_proxy, Hpick.
    cbn [bind deref]. rewrite Hh, Hr. cbn [bind]. rewrite Hdead.
    rewrite (HostRotation_exhaust_wf _ L) by (by apply wf_pool_proxy || lia).
    by rewrite andb_false_r.
Qed.

(** X2.  On a non-empty well-formed pool [HostRandom] never returns
    [NULL]: it returns the record at position [RandomNumber32() % count]
    from the head, a member of the pool; and every member is the pick
    of some random number. *)
Theorem HostRandom_picks_member st L fuel :
  wf_pool st L -> L <> [] -> (length L < fuel)%nat ->
  (forall rnd, exists a r,
     HostRandom fuel rnd st = Ok (Some a)
     /\ L !! Z.to_nat (DWORD rnd mod Z.of_nat (length L)) = Some a
     /\ a ∈ L /\ Heap st !! a = Some r)
  /\ (forall a, a ∈ L -> exists rnd, HostRandom fuel rnd st = Ok (Some a)).
Proof.
  intros Hwf Hne Hfuel. pose proof Hwf as [Hc Hlen]. split.
  - intros rnd. destruct (HostRandom_wf st L fuel rnd) as (a & Ha & Hpick); try done.
    pose proof (list_elem_of_lookup_2 _ _ _ Ha) as Hin.
    destruct (chain_lookup _ _ _ _ Hc Hin) as [r Hr]. by exists a, r.
  - intros a [i Hi]%list_elem_of_lookup_1.
    pose proof (lookup_lt_Some _ _ _ Hi) as Hlt.
    exists (Z.of_nat i).
    destruct (HostRandom_wf st L fuel (Z.of_nat i)) as (b & Hb & Hpick); try done.
    rewrite Hpick. do 2 f_equal.
    rewrite DWORD_small in Hb by lia.
    rewrite Z.mod_small, Nat2Z.id in Hb by lia. congruence.
Qed.

(** X2 on two hosts: an even number picks the head. *)
Lemma HostRandom_picks_member_witness :
  wf_pool (two_hosts false false 0 0 None 2 2 0) [1%nat; 0%nat]
  /\ exists a r,
       HostRandom 3 6 (two_hosts false false 0 0 None 2 2 0) = Ok (Some a)
       /\ [1%nat; 0%nat] !! Z.to_nat (DWORD 6 mod Z.of_nat 2) = Some a
       /\ a ∈ [1%nat; 0%nat]
       /\ Heap (two_hosts false false 0 0 None 2 2 0) !! a = Some r.
Proof.
  split; [apply wf_pool_two_hosts|].
  exact (proj1 (HostRandom_picks_member (two_hosts false false 0 0 None 2 2 0)
                  [1%nat; 0%nat] 3%nat (wf_pool_two_hosts _ _ _ _ _ _ _ _)
                  ltac:(discriminate) ltac:(simpl; lia)) 6).
Defined.

Lemma HostRotation_live_cases st L fuel Strategy rnd :
  wf_pool st L -> Transport_Host st <> None ->
  L <> [] \/ Strategy <> TRANSPORT_HTTP_ROTATION_RANDOM ->
  (length L + 2 < fuel)%nat ->
  exists h st',
    HostRotation fuel Strategy rnd st = Ok (h, st')
    /\ live_or_NULL L (Heap st') h
    /\ wf_pool st' L
    /\ (h = None ->
        (L = [] \/ Transport_HostMaxRetries st <> 0)
        /\ (Strategy = TRANSPORT_HTTP_ROTATION_ROUND_ROBIN
            \/ Strategy = TRANSPORT_HTTP_ROTATION_RANDOM ->
            forall a, a ∈ L -> is_dead (Heap st) a = true)).
Proof.
  intros Hwf Hcur Hcase Hfuel.
  destruct (Transport_Host st) as [c|] eqn:Hc; [|done].
  destruct (rotate_round_robin_live st L Hwf) as [Hrl Hrn].
  pose proof (rotate_round_robin_wf st L Hwf) as Hrw.
  pose proof (wf_pool_reset _ L (wf_pool_proxy _ _ Hwf)) as Hwr.
  destruct (HostRotation_proxy_fields st) as (Hh & Hhs & _ & Hm & _).
  destruct (decide (Strategy = TRANSPORT_HTTP_ROTATION_ROUND_ROBIN)) as [->|Hs1].
  { rewrite (HostRotation_round_robin_wf st L fuel rnd c) by (done || lia).
    destruct (rotate_round_robin st L) as [h st'] eqn:E. exists h, st'.
    split; [done|]. split; [done|]. split; [done|].
    intros Hn. destruct (Hrn Hn). auto. }
  destruct (decide (Strategy = TRANSPORT_HTTP_ROTATION_RANDOM)) as [->|Hs2].
  { destruct Hcase as [Hne|]; [|done].
    destruct (HostRotation_random_wf st L fuel rnd c) as (a & r & Ha & Hr & Hrot);
      try done.
    rewrite Hrot. destruct (Dead r) eqn:Hd.
    - destruct (rotate_round_robin st L) as [h st'] eqn:E. exists h, st'.
      split; [done|]. split; [done|]. split; [done|].
      intros Hn. destruct (Hrn Hn). auto.
    - exists (Some a), (HostRotation_proxy st). split; [done|].
      split; [|split; [by apply wf_pool_proxy | done]].
      rewrite Hh. split; [by eapply list_elem_of_lookup_2|].
      unfold is_live. by rewrite Hr, Hd. }
  destruct fuel as [|fuel]; [lia|].
  rewrite HostRotation_other_eq by done.
  rewrite (HostRotation_exhaust_wf _ L) by (by apply wf_pool_proxy || lia).
  rewrite andb_true_r, Hm, Hh, Hhs.
  destruct (Z.eqb_spec (Transport_HostMaxRetries st) 0) as [Hz|Hz].
  - rewrite Hh in Hwr.
    eexists _, _. split; [done|]. cbn [Heap set_Heap]. destruct Hwf as [Hchain _].
    destruct L as [|b L]; simpl in Hchain.
    + rewrite Hchain. split; [done|]. split; [done|]. intros _. split; [by left|].
      intros [?|?]; done.
    + destruct Hchain as [Hhd (r & Hr & _)]. rewrite Hhd.
      split; [|split; [done|done]].
      split; [by left|]. unfold is_live. rewrite reset_pool_lookup.
      destruct (decide (b ∈ b :: L)) as [_|Hn]; [|by destruct Hn; left].
      by rewrite Hr.
  - exists None, (HostRotation_proxy st). split; [done|]. split; [done|].
    split; [by apply wf_pool_proxy|].
    intros _. split; [by right|]. intros [?|?]; done.
Qed.

(** X3.  On a well-formed pool with a current host set, whatever the
    strategy, [HostRotation] returns either a member of the pool that is
    live in the resulting state, or [NULL]; and under the round-robin
    and random strategies it returns [NULL] only when every host is
    dead (and retries are bounded, or the pool is empty). *)
Theorem HostRotation_returns_live st L fuel Strategy rnd :
  wf_pool st L -> Transport_Host st <> None ->
  L <> [] \/ Strategy <> TRANSPORT_HTTP_ROTATION_RANDOM ->
  (length L + 2 < fuel)%nat ->
  exists h st',
    HostRotation fuel Strategy rnd st = Ok (h, st')
    /\ live_or_NULL L (Heap st') h
    /\ (h = None ->
        (L = [] \/ Transport_HostMaxRetries st <> 0)
        /\ (Strategy = TRANSPORT_HTTP_ROTATION_ROUND_ROBIN
            \/ Strategy = TRANSPORT_HTTP_ROTATION_RANDOM ->
            forall a, a ∈ L -> is_dead (Heap st) a = true)).
Proof.
  intros Hwf Hcur Hcase Hfuel.
  destruct (HostRotation_live_cases st L fuel Strategy rnd Hwf Hcur Hcase Hfuel)
    as (h & st' & Hrot & Hlive & _ & Hnull).
  by exists h, st'.
Qed.

(** X3 on a dead head followed by a live host, random strategy. *)
Lemma HostRotation_returns_live_witness :
  wf_pool (two_hosts true false 2 0 (Some 1%nat) 2 2 1) [1%nat; 0%nat]
  /\ exists h st',
       HostRotation 5 TRANSPORT_HTTP_ROTATION_RANDOM 4
         (two_hosts true false 2 0 (Some 1%nat) 2 2 1) = Ok (h, st')
       /\ live_or_NULL [1%nat; 0%nat] (Heap st') h.
Proof.
  split; [apply wf_pool_two_hosts|].
  destruct (HostRotation_returns_live
              (two_hosts true false 2 0 (Some 1%nat) 2 2 1) [1%nat; 0%nat] 5%nat
              TRANSPORT_HTTP_ROTATION_RANDOM 4
              (wf_pool_two_hosts _ _ _ _ _ _ _ _) ltac:(discriminate)
              ltac:(left; discriminate) ltac:(simpl; lia))
    as (h & st' & Hrot & Hlive & _).
  by exists h, st'.
Defined.

Lemma pool_frame_refl st : pool_frame st st.
Proof. by destruct st. Qed.

Lemma pool_frame_trans st1 st2 st3 :
  pool_frame st1 st2 -> pool_frame st2 st3 -> pool_frame st1 st3.
Proof.
  unfold pool_frame. destruct st1, st2, st3. simpl.
  intros [= -> -> -> -> -> -> -> -> -> -> -> -> -> -> -> -> ->]
         [= -> -> -> -> -> -> -> -> -> -> -> -> -> -> -> -> ->]. done.
Qed.

Lemma pool_frame_set_Heap st h : pool_frame st (set_Heap h st).
Proof. by destruct st. Qed.

Lemma pool_frame_proxy st : pool_frame st (HostRotation_proxy st).
Proof. unfold HostRotation_proxy. destruct (1 <? _); by destruct st. Qed.

Lemma HostRotation_exhaust_frame fuel Host st h st' :
  HostRotation_exhaust fuel Host st = Ok (h, st') ->
  pool_frame st st'
  /\ (Transport_HostMaxRetries st <> 0 -> h = Host /\ st' = st).
Proof.
  unfold HostRotation_exhaust. intros H.
  destruct (Z.eqb_spec (Transport_HostMaxRetries st) 0) as [Hz|Hz];
    destruct Host as [b|]; simpl in H;
    try (injection H as <- <-; split; [apply pool_frame_refl | done]).
  destruct (HostRotation_reset _ _ _); try discriminate.
  injection H as <- <-. split; [apply pool_frame_set_Heap | done].
Qed.

Lemma HostRotation_round_robin_frame fuel rnd st h st' :
  HostRotation fuel TRANSPORT_HTTP_ROTATION_ROUND_ROBIN rnd st = Ok (h, st') ->
  pool_frame st st'
  /\ (Transport_HostMaxRetries st <> 0 -> st' = HostRotation_proxy st).
Proof.
  destruct fuel as [|fuel]; [discriminate|].
  rewrite HostRotation_round_robin_eq.
  destruct (HostRotation_proxy_fields st) as (_ & _ & _ & Hm & _).
  pose proof (pool_frame_proxy st) as Hp.
  destruct (Transport_Host (HostRotation_proxy st)).
  - destruct (HostRotation_scan _ _ _ _); try discriminate. cbn [bind].
    intros [Hf Hb]%HostRotation_exhaust_frame. rewrite Hm in Hb.
    split; [by eapply pool_frame_trans|]. intros Hz. by destruct (Hb Hz).
  - by intros [= <- <-].
Qed.

Lemma HostRotation_frame fuel Strategy rnd st h st' :
  HostRotation fuel Strategy rnd st = Ok (h, st') ->
  pool_frame st st'
  /\ (Transport_HostMaxRetries st <> 0 -> st' = HostRotation_proxy st).
Proof.
  destruct (decide (Strategy = TRANSPORT_HTTP_ROTATION_ROUND_ROBIN)) as [->|Hs1].
  { apply HostRotation_round_robin_frame. }
  destruct fuel as [|fuel]; [discriminate|].
  destruct (HostRotation_proxy_fields st) as (_ & _ & _ & Hm & _).
  pose proof (pool_frame_proxy st) as Hp.
  destruct (decide (Strategy = TRANSPORT_HTTP_ROTATION_RANDOM)) as [->|Hs2].
  - rewrite HostRotation_random_eq.
    destruct (HostRandom _ _ _); try discriminate. cbn [bind].
    destruct (deref _ _) as [r| | |]; try discriminate. cbn [bind].
    destruct (Dead r).
    + rewrite HostRotation_after_proxy.
      destruct (HostRotation fuel _ rnd st) as [[h1 st1]| | |] eqn:Hin;
        try discriminate. cbn [bind fst snd].
      pose proof (HostRotation_round_robin_records _ _ _ _ _ Hin) as (_ & _ & Hm1).
      apply HostRotation_round_robin_frame in Hin as [Hf1 Hb1].
      intros [Hf Hb]%HostRotation_exhaust_frame. rewrite Hm1 in Hb.
      split; [by eapply pool_frame_trans|].
      intros Hz. destruct (Hb Hz) as [_ ->]. by apply Hb1.
    + intros [Hf Hb]%HostRotation_exhaust_frame. rewrite Hm in Hb.
      split; [by eapply pool_frame_trans|]. intros Hz. by destruct (Hb Hz).
  - rewrite HostRotation_other_eq by done.
    intros [Hf Hb]%HostRotation_exhaust_frame. rewrite Hm in Hb.
    split; [by eapply pool_frame_trans|]. intros Hz. by destruct (Hb Hz).
Qed.

(** X4.  Whatever the heap, a rotation that returns changes nothing in
    [Instance] but the [LookedForProxy] flag and the host records; a
    host record is either untouched or reset ([Failures = 0],
    [Dead = FALSE]); and under bounded retries no record is touched at
    all. *)
Theorem HostRotation_changes_only_pool fuel Strategy rnd st h st' :
  HostRotation fuel Strategy rnd st = Ok (h, st') ->
  pool_frame st st'
  /\ (forall b, Heap st' !! b = Heap st !! b
                \/ Heap st' !! b = reset_host <$> Heap st !! b)
  /\ (Transport_HostMaxRetries st <> 0 -> st' = HostRotation_proxy st).
Proof.
  intros Hrot. destruct (HostRotation_frame _ _ _ _ _ _ Hrot) as [Hf Hb].
  destruct (HostRotation_records _ _ _ _ _ _ Hrot) as (Hk & _).
  by repeat split.
Qed.

(** X4 on a rotation past a dead head, bounded retries. *)
Lemma HostRotation_changes_only_pool_witness :
  HostRotation 5 TRANSPORT_HTTP_ROTATION_ROUND_ROBIN 0
    (set_LookedForProxy true (two_hosts true false 2 0 (Some 1%nat) 2 2 0))
  = Ok (Some 0%nat, two_hosts true false 2 0 (Some 1%nat) 2 2 0)
  /\ pool_frame (set_LookedForProxy true (two_hosts true false 2 0 (Some 1%nat) 2 2 0))
                (two_hosts true false 2 0 (Some 1%nat) 2 2 0).
Proof.
  split; [reflexivity|].
  exact (proj1 (HostRotation_changes_only_pool 5 TRANSPORT_HTTP_ROTATION_ROUND_ROBIN 0
                  (set_LookedForProxy true (two_hosts true false 2 0 (Some 1%nat) 2 2 0))
                  (Some 0%nat) (two_hosts true false 2 0 (Some 1%nat) 2 2 0) eq_refl)).
Defined.

Lemma HostCheckup_wf st L fuel :
  wf_pool st L -> (length L < fuel)%nat ->
  HostCheckup fuel st = Ok (negb (forallb (is_dead (Heap st)) L)).
Proof.
  intros Hwf Hfuel. unfold HostCheckup. destruct Hwf as [Hc Hlen].
  rewrite (HostCheckup_loop_chain _ _ L Hc L); try done; try lia.
  cbn [bind]. rewrite (HostCount_wf st L) by done. cbn [bind]. f_equal.
  rewrite Z.add_0_l. pose proof (count_dead_all (Heap st) L) as Hall.
  destruct (Z.eqb_spec (Z.of_nat (length L)) (Z.of_nat (count_dead (Heap st) L)))
    as [He|He]; destruct (forallb (is_dead (Heap st)) L); try done.
  - assert (count_dead (Heap st) L = length L) as ?%Hall by lia. done.
  - destruct He. f_equal. symmetry. by apply Hall.
Qed.

(** X5.  Under bounded retries, with a current host set, [HostCheckup]
    and [HostRotation] (round-robin, or random on a non-empty pool)
    agree: the rotation returns [NULL] exactly when [HostCheckup()] is
    [FALSE], and it then leaves every host record as it was. *)
Theorem HostCheckup_agrees_with_rotation st L fuel Strategy rnd :
  wf_pool st L -> Transport_Host st <> None ->
  Transport_HostMaxRetries st <> 0 ->
  Strategy = TRANSPORT_HTTP_ROTATION_ROUND_ROBIN
  \/ (Strategy = TRANSPORT_HTTP_ROTATION_RANDOM /\ L <> []) ->
  (length L + 2 < fuel)%nat ->
  exists alive h,
    HostCheckup fuel st = Ok alive
    /\ HostRotation fuel Strategy rnd st = Ok (h, HostRotation_proxy st)
    /\ (alive = false <-> h = None).
Proof.
  intros Hwf Hcur Hmax Hs Hfuel.
  destruct (HostRotation_live_cases st L fuel Strategy rnd Hwf Hcur)
    as (h & st' & Hrot & Hlive & _ & Hnull); [|done|].
  { destruct Hs as [->|[-> ?]]; [by right | by left]. }
  destruct (HostRotation_frame _ _ _ _ _ _ Hrot) as [_ Hb].
  rewrite (Hb Hmax) in *.
  exists (negb (forallb (is_dead (Heap st)) L)), h.
  split; [apply HostCheckup_wf; [done | lia]|]. split; [done|].
  destruct (HostRotation_proxy_fields st) as (Hh & _). rewrite Hh in Hlive.
  split.
  - intros Hall%negb_false_iff. destruct h as [a|]; [|done].
    destruct Hlive as [Ha Hl]. rewrite forallb_forall in Hall.
    apply list_elem_of_In, Hall in Ha. apply live_not_dead in Hl. congruence.
  - intros Hn. destruct (Hnull Hn) as [_ Hdead].
    apply negb_false_iff, forallb_forall. intros a Ha%list_elem_of_In.
    apply Hdead; [|done]. destruct Hs as [->|[-> _]]; auto.
Qed.

(** X5 on two dead hosts: no host is alive and the rotation gives
    [NULL]. *)
Lemma HostCheckup_agrees_with_rotation_witness :
  wf_pool (two_hosts true true 2 2 (Some 1%nat) 2 2 0) [1%nat; 0%nat]
  /\ exists alive h,
       HostCheckup 5 (two_hosts true true 2 2 (Some 1%nat) 2 2 0) = Ok alive
       /\ HostRotation 5 TRANSPORT_HTTP_ROTATION_ROUND_ROBIN 0
            (two_hosts true true 2 2 (Some 1%nat) 2 2 0)
          = Ok (h, HostRotation_proxy (two_hosts true true 2 2 (Some 1%nat) 2 2 0))
       /\ (alive = false <-> h = None).
Proof.
  split; [apply wf_pool_two_hosts|].
  exact (HostCheckup_agrees_with_rotation
           (two_hosts true true 2 2 (Some 1%nat) 2 2 0) [1%nat; 0%nat] 5%nat
           TRANSPORT_HTTP_ROTATION_ROUND_ROBIN 0
           (wf_pool_two_hosts _ _ _ _ _ _ _ _) ltac:(discriminate)
           ltac:(discriminate) (or_introl eq_refl) ltac:(simpl; lia)).
Defined.

Lemma set_Heap_id st : set_Heap (Heap st) st = st.
Proof. by destruct st. Qed.

Lemma set_Failures_id r : set_Failures (Failures r) r = r.
Proof. by destruct r. Qed.

Lemma bind_assoc {A B C} (m : result A) (f : A -> result B) (g : B -> result C) :
  bind (bind m f) g = bind m (fun x => bind (f x) g).
Proof. by destruct m. Qed.

Lemma HostFailure_times_S k fuel rnd Host st :
  HostFailure_times (S k) fuel rnd Host st
  = (res <- HostFailure fuel rnd Host st ;;
     HostFailure_times k fuel rnd (fst res) (snd res)).
Proof. reflexivity. Qed.

Lemma HostFailure_times_last k : forall fuel rnd Host st,
  HostFailure_times (S k) fuel rnd Host st
  = (res <- HostFailure_times k fuel rnd Host st ;;
     HostFailure fuel rnd (fst res) (snd res)).
Proof.
  induction k as [|k IH]; intros fuel rnd Host st.
  - simpl. by destruct (HostFailure fuel rnd Host st) as [[h s]| | |].
  - rewrite (HostFailure_times_S (S k)), (HostFailure_times_S k), bind_assoc.
    destruct (HostFailure fuel rnd Host st) as [[h s]| | |]; try done.
    cbn [bind fst snd]. apply IH.
Qed.

Lemma HostFailure_times_below k : forall st a r fuel rnd,
  Heap st !! a = Some r -> 0 <= Failures r ->
  Failures r + Z.of_nat k <= Transport_HostMaxRetries st ->
  Transport_HostMaxRetries st < DWORD_MODULUS ->
  HostFailure_times k fuel rnd (Some a) st
  = Ok (Some a,
        set_Heap (<[a := set_Failures (Failures r + Z.of_nat k) r]> (Heap st)) st).
Proof.
  induction k as [|k IH]; intros st a r fuel rnd Hr H0 Hk Hmax.
  - simpl. rewrite Z.add_0_r, set_Failures_id, list_insert_id by done.
    by rewrite set_Heap_id.
  - cbn [HostFailure_times].
    rewrite (HostFailure_below fuel rnd st a r) by (done || lia).
    cbn [bind fst snd]. rewrite DWORD_small by lia.
    rewrite (IH _ a (set_Failures (Failures r + 1) r));
      [|by apply (lookup_set_Heap_insert st a r) | simpl; lia | simpl; lia | done].
    do 2 f_equal. cbn [Heap set_Heap].
    change (set_Heap ?h (set_Heap ?h' st)) with (set_Heap h st).
    rewrite list_insert_insert_eq. do 2 f_equal.
    unfold set_Failures. cbn [Host Port Dead Next Failures]. f_equal. lia.
Qed.

(** X6.  A host whose counter is [f] survives exactly
    [HostMaxRetries - f] calls of [HostFailure]: after [k] calls within
    that number the same host is still returned, its counter is [f + k]
    and nothing else has changed; the call after the counter has
    reached the limit marks the host dead and hands over to
    [HostRotation]. *)
Theorem HostFailure_counts_retries st a r fuel rnd k :
  Heap st !! a = Some r -> 0 <= Failures r ->
  Failures r + Z.of_nat k <= Transport_HostMaxRetries st ->
  Transport_HostMaxRetries st < DWORD_MODULUS ->
  HostFailure_times k fuel rnd (Some a) st
  = Ok (Some a,
        set_Heap (<[a := set_Failures (Failures r + Z.of_nat k) r]> (Heap st)) st)
  /\ (Failures r + Z.of_nat k = Transport_HostMaxRetries st ->
      HostFailure_times (S k) fuel rnd (Some a) st
      = HostRotation fuel (Transport_HostRotation st) rnd
          (set_Heap (<[a := set_Dead true
                               (set_Failures (Transport_HostMaxRetries st) r)]>
                       (Heap st)) st)).
Proof.
  intros Hr H0 Hk Hmax.
  pose proof (HostFailure_times_below k st a r fuel rnd Hr H0 Hk Hmax) as Hbelow.
  split; [done|]. intros Heq.
  rewrite HostFailure_times_last, Hbelow. cbn [bind fst snd].
  rewrite (HostFailure_limit fuel rnd _ a
             (set_Failures (Failures r + Z.of_nat k) r));
    [|by apply (lookup_set_Heap_insert st a r) | by simpl].
  rewrite Heq. simpl. by rewrite list_insert_insert_eq.
Qed.

(** X6 with limit 2: two calls leave the head live with counter 2, the
    third one rotates to the second host. *)
Lemma HostFailure_counts_retries_witness :
  Heap (two_hosts false false 0 0 (Some 1%nat) 2 2 0) !! 1%nat
  = Some (mkHost "hostB" 80 false 0 (Some 0%nat))
  /\ HostFailure_times 2 5 0 (Some 1%nat) (two_hosts false false 0 0 (Some 1%nat) 2 2 0)
     = Ok (Some 1%nat, two_hosts false false 2 0 (Some 1%nat) 2 2 0)
  /\ HostFailure_times 3 5 0 (Some 1%nat) (two_hosts false false 0 0 (Some 1%nat) 2 2 0)
     = Ok (Some 0%nat,
           set_LookedForProxy false (two_hosts true false 2 0 (Some 1%nat) 2 2 0)).
Proof.
  split; [reflexivity|]. split; [|reflexivity].
  exact (proj1 (HostFailure_counts_retries
                  (two_hosts false false 0 0 (Some 1%nat) 2 2 0) 1%nat
                  (mkHost "hostB" 80 false 0 (Some 0%nat)) 5%nat 0 2%nat
                  eq_refl ltac:(simpl; lia) ltac:(simpl; lia) eq_refl)).
Defined.

Lemma same_hosts_refl heap : same_hosts heap heap.
Proof. intros b. by destruct (heap !! b). Qed.

Lemma same_hosts_trans h1 h2 h3 :
  same_hosts h1 h2 -> same_hosts h2 h3 -> same_hosts h1 h3.
Proof.
  intros H12 H23 b. specialize (H12 b). specialize (H23 b).
  destruct (h1 !! b), (h2 !! b), (h3 !! b); try done.
  destruct H12 as (?&?&?), H23 as (?&?&?). repeat split; congruence.
Qed.

Lemma same_hosts_insert (heap : list HOST_DATA) a r r' :
  heap !! a = Some r ->
  Host r' = Host r -> Port r' = Port r -> Next r' = Next r ->
  same_hosts heap (<[a := r']> heap).
Proof.
  intros Hr H1 H2 H3 b. destruct (decide (a = b)) as [<-|Hne].
  - rewrite list_lookup_insert_eq by (by eapply lookup_lt_Some). by rewrite Hr.
  - rewrite list_lookup_insert_ne by done. by destruct (heap !! b).
Qed.

Lemma kept_or_reset_same_hosts heap heap' :
  kept_or_reset heap heap' -> same_hosts heap heap'.
Proof.
  intros Hk b. destruct (Hk b) as [->| ->]; by destruct (heap !! b).
Qed.

Lemma same_hosts_chain heap heap' p l :
  same_hosts heap heap' -> chain heap p l -> chain heap' p l.
Proof.
  intros Hs. apply chain_frame. intros a. specialize (Hs a).
  destruct (heap !! a), (heap' !! a); try done.
  destruct Hs as (_ & _ & Hn). simpl. by rewrite Hn.
Qed.

Lemma HostFailure_shape fuel rnd Host st h st' :
  HostFailure fuel rnd Host st = Ok (h, st') ->
  pool_frame st st' /\ same_hosts (Heap st) (Heap st').
Proof.
  unfold HostFailure. destruct Host as [a|].
  2: { intros [= <- <-]. split; [apply pool_frame_refl | apply same_hosts_refl]. }
  unfold deref. destruct (Heap st !! a) as [r|] eqn:Hr; [|discriminate].
  cbn [bind]. destruct (_ =? _).
  - intros Hrot.
    destruct (HostRotation_frame _ _ _ _ _ _ Hrot) as [Hf _].
    destruct (HostRotation_records _ _ _ _ _ _ Hrot) as (Hk & _).
    split.
    + eapply pool_frame_trans; [apply pool_frame_set_Heap | exact Hf].
    + eapply same_hosts_trans; [|by apply kept_or_reset_same_hosts].
      by apply (same_hosts_insert _ a r).
  - intros [= <- <-]. split; [apply pool_frame_set_Heap|].
    by apply (same_hosts_insert _ a r).
Qed.

(** X7.  Whatever the heap, a call of [HostFailure] that returns
    changes nothing in [Instance] but the [LookedForProxy] flag and
    the [Dead] and [Failures] fields of host records: every record
    keeps its address, host, port and successor, so a well-formed pool
    stays the same list of hosts. *)
Theorem HostFailure_keeps_pool_shape fuel rnd Host st h st' :
  HostFailure fuel rnd Host st = Ok (h, st') ->
  pool_frame st st'
  /\ same_hosts (Heap st) (Heap st')
  /\ Transport_Hosts st' = Transport_Hosts st
  /\ forall L, wf_pool st L -> wf_pool st' L.
Proof.
  intros Hcall. destruct (HostFailure_shape _ _ _ _ _ _ Hcall) as [Hf Hs].
  assert (Hhs : Transport_Hosts st' = Transport_Hosts st) by (by rewrite Hf).
  split; [done|]. split; [done|]. split; [done|].
  intros L [Hc Hlen]. split; [|done]. rewrite Hhs.
  by eapply same_hosts_chain.
Qed.

(** X7 on the failure that kills the head of two hosts. *)
Lemma HostFailure_keeps_pool_shape_witness :
  HostFailure 5 0 (Some 1%nat) (two_hosts false false 2 0 (Some 1%nat) 2 2 0)
  = Ok (Some 0%nat,
        set_LookedForProxy false (two_hosts true false 2 0 (Some 1%nat) 2 2 0))
  /\ same_hosts (Heap (two_hosts false false 2 0 (Some 1%nat) 2 2 0))
                (Heap (set_LookedForProxy false
                         (two_hosts true false 2 0 (Some 1%nat) 2 2 0))).
Proof.
  split; [reflexivity|].
  exact (proj1 (proj2 (HostFailure_keeps_pool_shape 5 0 (Some 1%nat)
                  (two_hosts false false 2 0 (Some 1%nat) 2 2 0) (Some 0%nat)
                  (set_LookedForProxy false (two_hosts true false 2 0 (Some 1%nat) 2 2 0))
                  eq_refl))).
Defined.

Lemma HostFailure_live_cases st L a r fuel rnd :
  wf_pool st L -> a ∈ L -> Heap st !! a = Some r -> Dead r = false ->
  Transport_Host st <> None -> (length L + 2 < fuel)%nat ->
  exists h st',
    HostFailure fuel rnd (Some a) st = Ok (h, st')
    /\ live_or_NULL L (Heap st') h
    /\ wf_pool st' L.
Proof.
  intros Hwf Ha Hr Hd Hcur Hfuel.
  destruct (decide (Failures r = Transport_HostMaxRetries st)) as [He|Hne].
  - rewrite (HostFailure_limit fuel rnd st a r) by done.
    destruct (HostRotation_live_cases
                (set_Heap (<[a := set_Dead true r]> (Heap st)) st) L fuel
                (Transport_HostRotation st) rnd)
      as (h & st' & Hrot & Hlive & Hwf' & _); try done.
    + by apply (wf_pool_insert st L a r).
    + left. intros ->. by apply elem_of_nil in Ha.
    + by exists h, st'.
  - rewrite (HostFailure_below fuel rnd st a r) by done.
    eexists _, _. split; [done|]. split.
    + split; [done|]. unfold is_live.
      rewrite (lookup_set_Heap_insert st a r) by done. simpl. by rewrite Hd.
    + by apply (wf_pool_insert st L a r).
Qed.

(** X8.  On a well-formed pool with a current host set, [HostFailure]
    called on a live member of the pool returns, and what it returns is
    [NULL] or a member of the pool that is live in the resulting
    state: the failed host itself while its counter differs from the
    limit, else what the rotation selects.  The pool stays
    well-formed. *)
Theorem HostFailure_returns_live st L a r fuel rnd :
  wf_pool st L -> a ∈ L -> Heap st !! a = Some r -> Dead r = false ->
  Transport_Host st <> None -> (length L + 2 < fuel)%nat ->
  exists h st',
    HostFailure fuel rnd (Some a) st = Ok (h, st')
    /\ live_or_NULL L (Heap st') h
    /\ wf_pool st' L
    /\ (Failures r <> Transport_HostMaxRetries st -> h = Some a).
Proof.
  intros Hwf Ha Hr Hd Hcur Hfuel.
  destruct (HostFailure_live_cases st L a r fuel rnd Hwf Ha Hr Hd Hcur Hfuel)
    as (h & st' & Hcall & Hlive & Hwf').
  exists h, st'. split; [done|]. split; [done|]. split; [done|].
  intros Hne. rewrite (HostFailure_below fuel rnd st a r) in Hcall by done.
  by injection Hcall as <- _.
Qed.

(** X8 on the failure that kills the head of two live hosts. *)
Lemma HostFailure_returns_live_witness :
  wf_pool (two_hosts false false 2 0 (Some 1%nat) 2 2 0) [1%nat; 0%nat]
  /\ exists h st',
       HostFailure 5 0 (Some 1%nat) (two_hosts false false 2 0 (Some 1%nat) 2 2 0)
       = Ok (h, st')
       /\ live_or_NULL [1%nat; 0%nat] (Heap st') h.
Proof.
  split; [apply wf_pool_two_hosts|].
  destruct (HostFailure_returns_live
              (two_hosts false false 2 0 (Some 1%nat) 2 2 0) [1%nat; 0%nat] 1%nat
              (mkHost "hostB" 80 false 2 (Some 0%nat)) 5%nat 0
              (wf_pool_two_hosts _ _ _ _ _ _ _ _)
              ltac:(by left) eq_refl eq_refl ltac:(discriminate) ltac:(simpl; lia))
    as (h & st' & Hcall & Hlive & _).
  by exists h, st'.
Defined.

(** ** Further properties: the HTTP channel *)

(** The read loop, in closed form. *)
Lemma HttpSend_read_chunks reads : forall RespBuffer,
  HttpSend_read reads RespBuffer
  = (match leading_chunks reads with
     | [] => RespBuffer
     | chunks => Some (default [] RespBuffer ++ concat chunks)
     end,
     S (length (leading_chunks reads))).
Proof.
  induction reads as [|[[|b chunk]|] reads IH]; intros RespBuffer; try done.
  cbn [HttpSend_read leading_chunks]. rewrite IH. cbn [fst snd length].
  f_equal. destruct (leading_chunks reads) as [|c cs].
  - simpl. rewrite app_nil_r. by destruct RespBuffer.
  - destruct RespBuffer as [acc|]; simpl; by rewrite <- ?app_assoc.
Qed.

(** X9.  The read loop of [HttpSend] appends: the buffer it returns is
    the bytes it was entered with followed by the chunks delivered
    before the first failed or empty read, in order, and nothing of
    what follows that read; [WinHttpReadData] is called once per chunk
    and once more. *)
Theorem HttpSend_read_appends reads : forall RespBuffer,
  HttpSend_read reads RespBuffer
  = (match leading_chunks reads with
     | [] => RespBuffer
     | chunks => Some (default [] RespBuffer ++ concat chunks)
     end,
     S (length (leading_chunks reads))).
Proof. apply HttpSend_read_chunks. Qed.

Lemma HttpSend_read_response o :
  mkBuffer (fst (HttpSend_read (o_WinHttpReadData o) None))
           (match fst (HttpSend_read (o_WinHttpReadData o) None) with
            | Some b => Z.of_nat (length b)
            | None => 0
            end)
  = response_of o.
Proof.
  unfold response_of.
  pose proof (HttpSend_read_chunks (o_WinHttpReadData o) None) as ->.
  cbn [fst]. by destruct (leading_chunks (o_WinHttpReadData o)).
Qed.

(** What the exchange block leaves behind. *)
Lemma HttpSend_exchange_result o Send Connect Request Resp st :
  let res := HttpSend_exchange o Send Connect Request Resp st in
  loc_Successful (fst (fst res)) = non_NULL Resp && exchange_ok o
  /\ loc_Resp (fst (fst res))
     = (if non_NULL Resp && exchange_ok o then Some (response_of o) else Resp)
  /\ snd (fst res)
     = (if negb (o_WinHttpSendRequest o)
           && (o_LastError o =? ERROR_INTERNET_CANNOT_CONNECT)
        then set_Connected false st else st)
  /\ loc_Connect (fst (fst res)) = Some Connect
  /\ loc_Request (fst (fst res)) = Some Request
  /\ (exists tl, snd res = EvWinHttpSendRequest Request Send :: tl
                 /\ Forall (fun e => is_exchange_event e = true) (snd res)
                 /\ existsb is_send_event tl = false).
Proof.
  unfold HttpSend_exchange, exchange_ok.
  destruct (o_WinHttpSendRequest o); cbn [negb andb].
  - destruct (o_WinHttpReceiveResponse o); cbn [andb].
    + destruct (HttpQueryStatus o =? HTTP_STATUS_OK); cbn [negb andb].
      * destruct Resp as [b|]; cbn [fst snd non_NULL andb loc_Successful loc_Resp
                                    loc_Connect loc_Request].
        -- rewrite HttpSend_read_response. repeat split; try done.
           eexists. split; [done|]. split.
           ++ repeat constructor. apply Forall_replicate. done.
           ++ induction (snd (HttpSend_read _ _)); done.
        -- repeat split; try done. eexists. split; [done|].
           split; [by repeat constructor | done].
      * rewrite andb_false_r. repeat split; try done.
        eexists. split; [done|]. split; [by repeat constructor | done].
    + rewrite andb_false_r. repeat split; try done.
      eexists. split; [done|]. split; [by repeat constructor | done].
  - rewrite andb_false_r. cbn [fst snd loc_Successful loc_Resp loc_Connect loc_Request].
    repeat split; try done.
    eexists. split; [done|]. split; [by repeat constructor | done].
Qed.

(** The session block: the handle is created when there is none. *)
Lemma HttpSend_session_shape o st :
  let stS := fst (HttpSend_session o st) in
  let trS := snd (HttpSend_session o st) in
  stS = set_hHttpSession (match hHttpSession st with
                          | Some s => Some s
                          | None => o_WinHttpOpen o
                          end) st
  /\ Forall (fun e => is_session_event e = true) trS
  /\ filter (fun e => is_open_event e = true) trS
     = match hHttpSession st with
       | Some _ => []
       | None =>
           [EvWinHttpOpen (if Proxy_Enabled st then Some (Proxy_Url st) else None)]
       end.
Proof.
  unfold HttpSend_session. destruct (hHttpSession st) as [s|] eqn:Hs.
  - cbn [fst snd]. split; [|by split]. destruct st; simpl in *; by subst.
  - simpl. destruct (o_WinHttpOpen o); [|by repeat constructor].
    destruct (Transport_Secure st); by repeat constructor.
Qed.

Lemma HttpSend_discover_shape o st :
  fst (HttpSend_discover o st)
  = set_ProxyForUrl (ProxyForUrl (fst (HttpSend_discover o st))) st
  /\ Forall (fun e => is_setup_event e = true) (snd (HttpSend_discover o st)).
Proof.
  assert (Hid : st = set_ProxyForUrl (ProxyForUrl st) st) by by destruct st.
  unfold HttpSend_discover.
  destruct (o_GetProxyForUrl_detect o); [by repeat constructor|].
  destruct (o_GetIEProxyConfig o) as [cfg|]; [|by repeat constructor].
  destruct (nonempty (ie_lpszProxy cfg)); [by repeat constructor|].
  destruct (nonempty (ie_lpszAutoConfigUrl cfg)); [|by repeat constructor].
  destruct (o_GetProxyForUrl_config o); by repeat constructor.
Qed.

(** The proxy block touches the proxy cache and the lookup flag only. *)
Lemma HttpSend_proxy_shape o Request st :
  let stP := fst (HttpSend_proxy o Request st) in
  stP = set_LookedForProxy (LookedForProxy stP) (set_ProxyForUrl (ProxyForUrl stP) st)
  /\ Forall (fun e => is_setup_event e = true) (snd (HttpSend_proxy o Request st)).
Proof.
  assert (Hid : st = set_LookedForProxy (LookedForProxy st)
                       (set_ProxyForUrl (ProxyForUrl st) st)) by by destruct st.
  unfold HttpSend_proxy. destruct (Proxy_Enabled st).
  - cbn [fst snd]. split; [done|].
    destruct (non_NULL (Proxy_Username st)), (non_NULL (Proxy_Password st)),
             (non_NULL (ProxyForUrl st)); by repeat constructor.
  - destruct (LookedForProxy st) eqn:Hl; cbn [negb fst snd].
    + split; [by destruct st; simpl in *; subst|].
      destruct (non_NULL (ProxyForUrl st)); by repeat constructor.
    + destruct (HttpSend_discover_shape o st) as [Hst Htr]. split.
      * revert Hst. generalize (fst (HttpSend_discover o st)). intros d Hd.
        rewrite Hd. by destruct st.
      * apply Forall_app. split; [done|].
        destruct (non_NULL _); by repeat constructor.
Qed.

Lemma filter_class_nil (P Q : EVENT -> bool) (l : list EVENT) :
  (forall e, Q e = true -> P e = false) ->
  Forall (fun e => Q e = true) l ->
  filter (fun e => P e = true) l = [].
Proof.
  intros HPQ. induction 1 as [|e l He _ IH]; [done|].
  rewrite filter_cons, IH. destruct (decide _) as [Hp|]; [|done].
  rewrite (HPQ e He) in Hp. done.
Qed.

Lemma existsb_class_false (P Q : EVENT -> bool) (l : list EVENT) :
  (forall e, Q e = true -> P e = false) ->
  Forall (fun e => Q e = true) l ->
  existsb P l = false.
Proof.
  intros HPQ. induction 1 as [|e l He _ IH]; [done|].
  simpl. by rewrite (HPQ e He), IH.
Qed.

Lemma Forall_secure_options secure Request :
  Forall (fun e => is_setup_event e = true) (secure_options secure Request).
Proof. destruct secure; by repeat constructor. Qed.

Lemma Forall_headers Request headers :
  Forall (fun e => is_setup_event e = true)
         (map (EvWinHttpAddRequestHeaders Request) headers).
Proof. induction headers; by constructor. Qed.

(** The four ways through [HttpSend] up to [LEAVE], with the calls made
    on each. *)
Lemma HttpSend_body_shape o Send Resp st loc st' tr :
  HttpSend_body o Send Resp st = Ok (loc, st', tr) ->
  let stS := fst (HttpSend_session o st) in
  let trS := snd (HttpSend_session o st) in
  (hHttpSession stS = None /\ loc = mkLocals None None false Resp /\ st' = stS
   /\ tr = EvTokenImpersonate false :: trS)
  \/ exists session HostData,
       hHttpSession stS = Some session
       /\ deref (Heap stS) (Transport_Host stS) = Ok HostData
       /\ let connect := EvWinHttpConnect session (Host HostData) (Port HostData) in
          (o_WinHttpConnect o = None /\ loc = mkLocals None None false Resp
           /\ st' = stS /\ tr = EvTokenImpersonate false :: trS ++ [connect])
          \/ exists Connect HttpEndpoint,
               o_WinHttpConnect o = Some Connect
               /\ HttpEndpoint ∈ Transport_Uris stS
               /\ let open := EvWinHttpOpenRequest Connect HttpEndpoint
                                (Transport_Secure stS) in
                  (o_WinHttpOpenRequest o = None
                   /\ loc = mkLocals (Some Connect) None false Resp
                   /\ st' = stS
                   /\ tr = EvTokenImpersonate false :: trS ++ [connect; open])
                  \/ exists Request,
                       o_WinHttpOpenRequest o = Some Request
                       /\ let resP := HttpSend_proxy o Request stS in
                          let resE := HttpSend_exchange o Send Connect Request
                                        Resp (fst resP) in
                          loc = fst (fst resE) /\ st' = snd (fst resE)
                          /\ tr = EvTokenImpersonate false :: trS
                                  ++ [connect; open]
                                  ++ (secure_options (Transport_Secure stS) Request
                                      ++ map (EvWinHttpAddRequestHeaders Request)
                                             (Transport_Headers stS)
                                      ++ snd resP)
                                  ++ snd resE.
Proof.
  unfold HttpSend_body. destruct (Transport_Host st) as [cur|] eqn:Hcur; [|done].
  set (stS := fst (HttpSend_session o st)) in *.
  set (trS := snd (HttpSend_session o st)) in *.
  cbn zeta.
  destruct (hHttpSession stS) as [session|] eqn:Hs.
  2: { intros H; injection H as Hloc Hst Htr; subst loc st' tr. by left. }
  destruct (deref _ _) as [HostData| | |] eqn:Hd; try discriminate. cbn [bind].
  intros H. right. exists session, HostData. split; [done|]. split; [done|].
  destruct (o_WinHttpConnect o) as [Connect|].
  2: { injection H as Hloc Hst Htr; subst loc st' tr. by left. }
  destruct (DWORD_rem _ _) as [Index| | |]; try discriminate. cbn [bind] in H.
  destruct (Transport_Uris stS !! Z.to_nat Index) as [HttpEndpoint|] eqn:Hu;
    [|discriminate].
  right. exists Connect, HttpEndpoint. split; [done|].
  split; [by eapply list_elem_of_lookup_2|].
  destruct (o_WinHttpOpenRequest o) as [Request|].
  2: { injection H as Hloc Hst Htr; subst loc st' tr. left.
       repeat split; try done. simpl. by rewrite <- !app_assoc. }
  injection H as Hloc Hst Htr; subst loc st' tr. right. exists Request.
  split; [done|]. cbn zeta. split; [done|]. split; [done|].
  unfold secure_options. simpl. by rewrite <- !app_assoc.
Qed.

(** The outcome of the body: the flag, the response, the handles left
    to close and the fields of [Instance] it may have changed. *)
Lemma HttpSend_body_outcome o Send Resp st loc st' tr :
  HttpSend_body o Send Resp st = Ok (loc, st', tr) ->
  let session := match hHttpSession st with
                 | Some s => Some s
                 | None => o_WinHttpOpen o
                 end in
  let reached := non_NULL session && non_NULL (o_WinHttpConnect o)
                 && non_NULL (o_WinHttpOpenRequest o) in
  hHttpSession st' = session
  /\ loc_Successful loc = reached && non_NULL Resp && exchange_ok o
  /\ loc_Resp loc = (if loc_Successful loc then Some (response_of o) else Resp)
  /\ loc_Connect loc = (if non_NULL session then o_WinHttpConnect o else None)
  /\ loc_Request loc = (if reached then o_WinHttpOpenRequest o else None)
  /\ existsb is_send_event tr = reached
  /\ Session_Connected st'
     = (if reached && negb (o_WinHttpSendRequest o)
           && (o_LastError o =? ERROR_INTERNET_CANNOT_CONNECT)
        then false else Session_Connected st).
Proof.
  intros Hb. cbn zeta.
  destruct (HttpSend_session_shape o st) as (HstS & HtrS & _).
  cbn zeta in HstS, HtrS.
  assert (HsS : hHttpSession (fst (HttpSend_session o st))
                = match hHttpSession st with
                  | Some s => Some s
                  | None => o_WinHttpOpen o
                  end) by by rewrite HstS.
  assert (HcS : Session_Connected (fst (HttpSend_session o st))
                = Session_Connected st) by by rewrite HstS.
  assert (HnS : existsb is_send_event (snd (HttpSend_session o st)) = false).
  { apply (existsb_class_false _ is_session_event); [by intros []|done]. }
  apply HttpSend_body_shape in Hb. cbn zeta in Hb. rewrite HsS in Hb.
  destruct Hb as [(Hs & -> & -> & ->)|(session & HostData & Hs & _ & Hb)].
  { rewrite Hs, HsS, Hs, HcS. simpl. by rewrite HnS. }
  rewrite Hs. cbn [non_NULL andb].
  destruct Hb as [(Hc & -> & -> & ->)|(Connect & HttpEndpoint & Hc & _ & Hb)].
  { rewrite Hc, HsS, Hs, HcS. simpl. by rewrite existsb_app, HnS. }
  rewrite Hc. cbn [non_NULL andb].
  destruct Hb as [(Hr & -> & -> & ->)|(Request & Hr & -> & -> & ->)].
  { rewrite Hr, HsS, Hs, HcS. simpl. by rewrite existsb_app, HnS. }
  rewrite Hr. cbn [non_NULL andb orb].
  destruct (HttpSend_proxy_shape o Request (fst (HttpSend_session o st)))
    as (HstP & HtrP). cbn zeta in HstP.
  set (stP := fst (HttpSend_proxy o Request (fst (HttpSend_session o st)))) in *.
  destruct (HttpSend_exchange_result o Send Connect Request Resp stP)
    as (Hok & Hresp & Hst & Hcon & Hreq & tl & Htr & _ & Htl).
  cbn zeta in *. rewrite Hok, Hresp, Hst, Hcon, Hreq, Htr.
  split.
  { assert (HsP : hHttpSession stP = Some session).
    { rewrite HstP. cbn [hHttpSession set_LookedForProxy set_ProxyForUrl].
      by rewrite HsS. }
    by destruct (negb _ && _). }
  split; [done|]. split; [done|]. split; [done|]. split; [done|]. split.
  - apply existsb_exists. exists (EvWinHttpSendRequest Request Send).
    split; [|done]. apply in_cons. do 3 (apply in_or_app; right). by left.
  - assert (HcP : Session_Connected stP = Session_Connected st)
      by by rewrite HstP.
    by destruct (o_WinHttpSendRequest o),
                (o_LastError o =? ERROR_INTERNET_CANNOT_CONNECT).
Qed.

Lemma handle_events_app tr1 tr2 :
  handle_events (tr1 ++ tr2) = handle_events tr1 ++ handle_events tr2.
Proof. apply filter_app. Qed.

Lemma closed_handles_app tr1 tr2 :
  closed_handles (tr1 ++ tr2) = closed_handles tr1 ++ closed_handles tr2.
Proof. apply omap_app. Qed.

Lemma closed_handles_class_nil (Q : EVENT -> bool) (l : list EVENT) :
  (forall h, Q (EvWinHttpCloseHandle h) = false) ->
  Forall (fun e => Q e = true) l ->
  closed_handles l = [].
Proof.
  intros HQ. induction 1 as [|e l He _ IH]; [done|].
  unfold closed_handles in *. cbn [omap list_omap]. rewrite IH.
  destruct e; try done. by rewrite HQ in He.
Qed.

(** The calls of the body, grouped: the session block, the calls that
    obtain the connection and the request, and the calls on the
    request. *)
Lemma HttpSend_body_calls o Send Resp st loc st' tr :
  HttpSend_body o Send Resp st = Ok (loc, st', tr) ->
  exists opened inner,
    tr = EvTokenImpersonate false :: snd (HttpSend_session o st) ++ opened ++ inner
    /\ Forall (fun e => is_request_event e = true) inner
    /\ handles_opened o st (hHttpSession st') opened.
Proof.
  intros Hb. destruct (HttpSend_body_outcome _ _ _ _ _ _ _ Hb) as (Hs' & _).
  cbn zeta in Hs'.
  destruct (HttpSend_session_shape o st) as (HstS & _). cbn zeta in HstS.
  assert (HsS : hHttpSession (fst (HttpSend_session o st)) = hHttpSession st')
    by by rewrite Hs', HstS.
  assert (Hheap : Heap (fst (HttpSend_session o st)) = Heap st) by by rewrite HstS.
  assert (Hcur : Transport_Host (fst (HttpSend_session o st)) = Transport_Host st)
    by by rewrite HstS.
  assert (Huri : Transport_Uris (fst (HttpSend_session o st)) = Transport_Uris st)
    by by rewrite HstS.
  assert (Hsec : Transport_Secure (fst (HttpSend_session o st)) = Transport_Secure st)
    by by rewrite HstS.
  apply HttpSend_body_shape in Hb. cbn zeta in Hb.
  rewrite HsS, Hheap, Hcur, Huri, Hsec in Hb.
  destruct Hb as [(Hs & _ & _ & ->)|(session & HostData & Hs & Hd & Hb)].
  { exists [], []. rewrite Hs. by rewrite !app_nil_r. }
  rewrite Hs. unfold handles_opened.
  assert (Hrec : exists a, Transport_Host st = Some a /\ Heap st !! a = Some HostData).
  { unfold deref in Hd. destruct (Transport_Host st) as [a|]; [|done].
    exists a. destruct (Heap st !! a); [|done]. by injection Hd as ->. }
  destruct Hrec as (a & Ha & Hr).
  destruct Hb as [(Hc & _ & _ & ->)|(Connect & HttpEndpoint & Hc & Hin & Hb)].
  { eexists _, []. rewrite app_nil_r. split; [done|]. split; [done|].
    exists a, HostData. by rewrite Hc. }
  destruct Hb as [(_ & _ & _ & ->)|(Request & _ & _ & _ & ->)].
  { eexists _, []. rewrite app_nil_r. split; [done|]. split; [done|].
    exists a, HostData. rewrite Hc. repeat split; try done. by exists HttpEndpoint. }
  eexists _, _. split; [done|]. split.
  - destruct (HttpSend_proxy_shape o Request (fst (HttpSend_session o st)))
      as (_ & HtrP).
    destruct (HttpSend_exchange_result o Send Connect Request Resp
                (fst (HttpSend_proxy o Request (fst (HttpSend_session o st)))))
      as (_ & _ & _ & _ & _ & _ & _ & HtrE & _).
    apply Forall_app. split.
    + eapply (Forall_impl (fun e => is_setup_event e = true));
        [|intros e He; unfold is_request_event; by rewrite He].
      rewrite !Forall_app. split; [apply Forall_secure_options|].
      split; [apply Forall_headers | exact HtrP].
    + eapply Forall_impl; [exact HtrE|].
      intros e He. unfold is_request_event. by rewrite He, orb_true_r.
  - exists a, HostData. rewrite Hc. repeat split; try done. by exists HttpEndpoint.
Qed.

Lemma HostFailure_keeps_session fuel rnd Host st h st' :
  HostFailure fuel rnd Host st = Ok (h, st') ->
  hHttpSession st' = hHttpSession st
  /\ Session_Connected st' = Session_Connected st.
Proof.
  intros Hf. destruct (HostFailure_shape _ _ _ _ _ _ Hf) as [-> _]. done.
Qed.

(** What a call of [HttpSend] that returns hands back. *)
Lemma HttpSend_result fuel o Send Resp st ok resp st' tr :
  HttpSend fuel o Send Resp st = Ok (ok, resp, st', tr) ->
  ok = non_NULL (match hHttpSession st with
                 | Some s => Some s
                 | None => o_WinHttpOpen o
                 end)
       && non_NULL (o_WinHttpConnect o) && non_NULL (o_WinHttpOpenRequest o)
       && non_NULL Resp && exchange_ok o
  /\ (ok = true ->
      resp = Some (response_of o) /\ same_pool st st'
      /\ Session_Connected st' = Session_Connected st)
  /\ (ok = false -> resp = Resp).
Proof.
  intros H. apply HttpSend_inv in H.
  destruct H as (loc & st1 & tr1 & Hb & -> & -> & -> & Hst).
  destruct (HttpSend_body_outcome _ _ _ _ _ _ _ Hb)
    as (_ & Hok & Hresp & _ & _ & _ & Hcon).
  cbn zeta in *. destruct (HttpSend_body_spec _ _ _ _ _ _ _ Hb) as (Hsp & _).
  split; [done|]. rewrite Hresp. split.
  - intros Ht. rewrite Ht in *. subst st'. split; [done|]. split; [done|].
    rewrite Hcon. symmetry in Hok. rewrite !andb_true_iff in Hok.
    destruct Hok as [_ Hex]. unfold exchange_ok in Hex.
    rewrite !andb_true_iff in Hex. destruct Hex as [[-> _] _].
    by rewrite andb_false_r.
  - by intros ->.
Qed.

(** X10.  A call of [HttpSend] that returns gives [TRUE] exactly when a
    session handle exists or was created, the connection and the
    request were obtained, the caller passed a response buffer, the
    request was sent, the response received and the status was 200.
    It then hands back the chunks read, leaves the host pool, the
    current host and [Connected] as they were; on [FALSE] the caller's
    response buffer is untouched. *)
Theorem HttpSend_success_iff fuel o Send Resp st ok resp st' tr :
  HttpSend fuel o Send Resp st = Ok (ok, resp, st', tr) ->
  ok = non_NULL (match hHttpSession st with
                 | Some s => Some s
                 | None => o_WinHttpOpen o
                 end)
       && non_NULL (o_WinHttpConnect o) && non_NULL (o_WinHttpOpenRequest o)
       && non_NULL Resp && exchange_ok o
  /\ (ok = true ->
      resp = Some (response_of o) /\ same_pool st st'
      /\ Session_Connected st' = Session_Connected st)
  /\ (ok = false -> resp = Resp).
Proof. apply HttpSend_result. Qed.

Lemma HttpSend_success_iff_witness :
  exists ok resp st' tr,
    HttpSend 5
      (mkHttpOracle (Some 10) (Some 11) 5 (Some 12) None None None true 0 true
                    (Some 200) [Some [1; 2]; Some [3]; Some []; Some [4]] 0)
      (mkBuffer (Some [9; 9]) 2) (Some (mkBuffer None 0))
      (set_Host (Some 1%nat) pool_two)
    = Ok (ok, resp, st', tr)
    /\ ok = true /\ resp = Some (mkBuffer (Some [1; 2; 3]) 3).
Proof.
  eexists _, _, _, _. split; [vm_compute; reflexivity|].
  match goal with
  | |- ?ok = _ /\ ?resp = _ =>
      destruct (HttpSend_success_iff 5
        (mkHttpOracle (Some 10) (Some 11) 5 (Some 12) None None None true 0 true
                      (Some 200) [Some [1; 2]; Some [3]; Some []; Some [4]] 0)
        (mkBuffer (Some [9; 9]) 2) (Some (mkBuffer None 0))
        (set_Host (Some 1%nat) pool_two) ok resp _ _ ltac:(vm_compute; reflexivity))
        as (Hok & Hresp & _)
  end.
  split; [exact Hok|]. exact (proj1 (Hresp Hok)).
Defined.

Lemma handles_opened_events o st session opened :
  handles_opened o st session opened ->
  filter (fun e => is_open_event e = true) opened = []
  /\ closed_handles opened = []
  /\ handle_events opened = opened.
Proof.
  unfold handles_opened. destruct session as [s|]; [|by intros ->].
  intros (a & r & _ & _ & H). destruct (o_WinHttpConnect o).
  - by destruct H as (e & _ & ->).
  - by subst opened.
Qed.

Lemma HttpSend_cleanup_closes o Send Resp st loc st' tr :
  HttpSend_body o Send Resp st = Ok (loc, st', tr) ->
  HttpSend_cleanup loc
  = map EvWinHttpCloseHandle (handles_to_close o (hHttpSession st'))
    ++ [EvTokenImpersonate true].
Proof.
  intros Hb. destruct (HttpSend_body_outcome _ _ _ _ _ _ _ Hb)
    as (-> & _ & _ & Hc & Hr & _).
  cbn zeta in *. unfold HttpSend_cleanup, handles_to_close. rewrite Hc, Hr.
  destruct (match hHttpSession st with Some s => Some s | None => _ end);
    [|done].
  by destruct (o_WinHttpConnect o), (o_WinHttpOpenRequest o).
Qed.

(** X11.  The session handle is created once: [HttpSend] calls
    [WinHttpOpen] exactly when [Instance] holds no session handle, with
    the configured proxy when one is enabled; the handle held after the
    call is the one held before or, when there was none, the answer of
    [WinHttpOpen], whatever the outcome of the call. *)
Theorem HttpSend_session_once fuel o Send Resp st ok resp st' tr :
  HttpSend fuel o Send Resp st = Ok (ok, resp, st', tr) ->
  hHttpSession st' = match hHttpSession st with
                     | Some s => Some s
                     | None => o_WinHttpOpen o
                     end
  /\ filter (fun e => is_open_event e = true) tr
     = match hHttpSession st with
       | Some _ => []
       | None =>
           [EvWinHttpOpen (if Proxy_Enabled st then Some (Proxy_Url st) else None)]
       end.
Proof.
  intros H. apply HttpSend_inv in H.
  destruct H as (loc & st1 & tr1 & Hb & -> & -> & -> & Hst).
  destruct (HttpSend_body_outcome _ _ _ _ _ _ _ Hb) as (Hs1 & _).
  cbn zeta in Hs1. split.
  - destruct (loc_Successful loc); [by subst|].
    destruct Hst as (h & st2 & Hf & ->).
    apply HostFailure_keeps_session in Hf as [Hf _]. simpl. by rewrite Hf.
  - rewrite (HttpSend_cleanup_closes _ _ _ _ _ _ _ Hb).
    destruct (HttpSend_body_calls _ _ _ _ _ _ _ Hb) as (opened & inner & -> & Hin & Hop).
    destruct (handles_opened_events _ _ _ _ Hop) as (Hoo & _).
    destruct (HttpSend_session_shape o st) as (_ & _ & HtrS). cbn zeta in HtrS.
    rewrite filter_app, filter_cons, !filter_app, HtrS, Hoo.
    rewrite (filter_class_nil is_open_event is_request_event inner);
      [|by intros []|done].
    destruct (decide _) as [?|_]; [done|].
    rewrite !app_nil_r.
    assert (Hcl : forall l, filter (fun e => is_open_event e = true)
                              (map EvWinHttpCloseHandle l) = []).
    { induction l; [done|]. simpl. by rewrite filter_cons, IHl. }
    by rewrite Hcl, app_nil_r.
Qed.

Lemma HttpSend_session_once_witness :
  exists ok resp st' tr,
    HttpSend 5
      (mkHttpOracle (Some 10) None 5 (Some 12) None None None true 0 true
                    (Some 200) [Some [1; 2]] 0)
      (mkBuffer (Some [9; 9]) 2) (Some (mkBuffer None 0))
      (set_Host (Some 1%nat) pool_two)
    = Ok (ok, resp, st', tr)
    /\ hHttpSession st' = Some 10
    /\ filter (fun e => is_open_event e = true) tr = [EvWinHttpOpen None].
Proof.
  eexists _, _, _, _. split; [vm_compute; reflexivity|].
  exact (HttpSend_session_once 5
           (mkHttpOracle (Some 10) None 5 (Some 12) None None None true 0 true
                         (Some 200) [Some [1; 2]] 0)
           (mkBuffer (Some [9; 9]) 2) (Some (mkBuffer None 0))
           (set_Host (Some 1%nat) pool_two) _ _ _ _ ltac:(vm_compute; reflexivity)).
Defined.

(** X12.  Handle discipline of one [HttpSend]: token impersonation is
    switched off by the first call and on again by the last; the
    connection is opened on the session handle to the current host's
    name and port, the request on that connection to one of the
    configured URIs; every handle [WinHttpConnect] or
    [WinHttpOpenRequest] returned is closed exactly once, at [LEAVE]
    after every other call, the connection before the request; nothing
    else is closed, the session handle in particular stays open. *)
Theorem HttpSend_handles_closed fuel o Send Resp st ok resp st' tr :
  HttpSend fuel o Send Resp st = Ok (ok, resp, st', tr) ->
  exists tr1,
    tr = EvTokenImpersonate false :: tr1
         ++ map EvWinHttpCloseHandle (handles_to_close o (hHttpSession st'))
         ++ [EvTokenImpersonate true]
    /\ closed_handles tr1 = []
    /\ handles_opened o st (hHttpSession st') (handle_events tr1).
Proof.
  intros H. apply HttpSend_inv in H.
  destruct H as (loc & st1 & tr1 & Hb & -> & -> & -> & Hst).
  assert (Hs : hHttpSession st' = hHttpSession st1).
  { destruct (loc_Successful loc); [by subst|].
    destruct Hst as (h & st2 & Hf & ->).
    apply HostFailure_keeps_session in Hf as [Hf _]. simpl. by rewrite Hf. }
  rewrite Hs. rewrite (HttpSend_cleanup_closes _ _ _ _ _ _ _ Hb).
  destruct (HttpSend_body_calls _ _ _ _ _ _ _ Hb) as (opened & inner & -> & Hin & Hop).
  destruct (handles_opened_events _ _ _ _ Hop) as (_ & Hoc & Hoh).
  destruct (HttpSend_session_shape o st) as (_ & HtrS & _). cbn zeta in HtrS.
  exists (snd (HttpSend_session o st) ++ opened ++ inner). split; [done|].
  rewrite !closed_handles_app, !handle_events_app, Hoc, Hoh.
  rewrite (closed_handles_class_nil is_session_event) by done.
  rewrite (closed_handles_class_nil is_request_event) by done.
  unfold handle_events.
  rewrite (filter_class_nil is_handle_event is_session_event); [|by intros []|done].
  rewrite (filter_class_nil is_handle_event is_request_event inner);
    [|by intros []|done].
  split; [done|]. by rewrite app_nil_r.
Qed.

Lemma HttpSend_handles_closed_witness :
  exists ok resp st' tr,
    HttpSend 5
      (mkHttpOracle (Some 10) (Some 11) 5 (Some 12) None None None false 0 true
                    (Some 200) [Some [1; 2]] 0)
      (mkBuffer (Some [9; 9]) 2) (Some (mkBuffer None 0))
      (set_Host (Some 1%nat) pool_two)
    = Ok (ok, resp, st', tr)
    /\ exists tr1,
         tr = EvTokenImpersonate false :: tr1
              ++ map EvWinHttpCloseHandle (handles_to_close
                   (mkHttpOracle (Some 10) (Some 11) 5 (Some 12) None None None
                                 false 0 true (Some 200) [Some [1; 2]] 0)
                   (hHttpSession st'))
              ++ [EvTokenImpersonate true]
         /\ closed_handles tr1 = []
         /\ handles_opened
              (mkHttpOracle (Some 10) (Some 11) 5 (Some 12) None None None
                            false 0 true (Some 200) [Some [1; 2]] 0)
              (set_Host (Some 1%nat) pool_two) (hHttpSession st')
              (handle_events tr1).
Proof.
  eexists _, _, _, _. split; [vm_compute; reflexivity|].
  exact (HttpSend_handles_closed 5
           (mkHttpOracle (Some 10) (Some 11) 5 (Some 12) None None None false 0 true
                         (Some 200) [Some [1; 2]] 0)
           (mkBuffer (Some [9; 9]) 2) (Some (mkBuffer None 0))
           (set_Host (Some 1%nat) pool_two) _ _ _ _ ltac:(vm_compute; reflexivity)).
Defined.

(** X13.  [HttpSend] never sets [Connected]; it clears the flag in one
    case only: the request was sent ([WinHttpSendRequest] was called,
    which takes a session, a connection and a request handle), the
    send failed and the last error is [ERROR_INTERNET_CANNOT_CONNECT].
    A failure anywhere else, the rotation of hosts included, leaves the
    flag as it was. *)
Theorem HttpSend_Connected fuel o Send Resp st ok resp st' tr :
  HttpSend fuel o Send Resp st = Ok (ok, resp, st', tr) ->
  existsb is_send_event tr
  = non_NULL (match hHttpSession st with
              | Some s => Some s
              | None => o_WinHttpOpen o
              end)
    && non_NULL (o_WinHttpConnect o) && non_NULL (o_WinHttpOpenRequest o)
  /\ Session_Connected st'
     = (if existsb is_send_event tr && negb (o_WinHttpSendRequest o)
           && (o_LastError o =? ERROR_INTERNET_CANNOT_CONNECT)
        then false else Session_Connected st).
Proof.
  intros H. apply HttpSend_inv in H.
  destruct H as (loc & st1 & tr1 & Hb & -> & -> & -> & Hst).
  destruct (HttpSend_body_outcome _ _ _ _ _ _ _ Hb)
    as (_ & _ & _ & _ & _ & Hsend & Hcon).
  cbn zeta in *.
  assert (Hcl : existsb is_send_event (HttpSend_cleanup loc) = false).
  { unfold HttpSend_cleanup. by destruct (loc_Connect loc), (loc_Request loc). }
  rewrite existsb_app, Hcl, orb_false_r, Hsend. split; [done|].
  rewrite <- Hcon. destruct (loc_Successful loc); [by subst|].
  destruct Hst as (h & st2 & Hf & ->).
  apply HostFailure_keeps_session in Hf as [_ Hf]. simpl. by rewrite Hf.
Qed.

Lemma HttpSend_Connected_witness :
  exists ok resp st' tr,
    HttpSend 5
      (mkHttpOracle (Some 10) (Some 11) 5 (Some 12) None None None false 12029 true
                    (Some 200) [Some [1; 2]] 0)
      (mkBuffer (Some [9; 9]) 2) (Some (mkBuffer None 0))
      (set_Connected true (set_Host (Some 1%nat) pool_two))
    = Ok (ok, resp, st', tr)
    /\ existsb is_send_event tr = true
    /\ Session_Connected st' = false.
Proof.
  eexists _, _, _, _. split; [vm_compute; reflexivity|].
  exact (HttpSend_Connected 5
           (mkHttpOracle (Some 10) (Some 11) 5 (Some 12) None None None false 12029
                         true (Some 200) [Some [1; 2]] 0)
           (mkBuffer (Some [9; 9]) 2) (Some (mkBuffer None 0))
           (set_Connected true (set_Host (Some 1%nat) pool_two))
           _ _ _ _ ltac:(vm_compute; reflexivity)).
Defined.

Lemma wf_pool_same_pool st st' L :
  same_pool st st' -> wf_pool st L -> wf_pool st' L.
Proof. intros (Hh & Hp & _) [Hc Hl]. split; [|done]. by rewrite Hh, Hp. Qed.

(** X14.  Once the body of [HttpSend] has reached [LEAVE] (which takes
    a valid host record, a URI and allocations that succeed: the code
    does not test them), on a well-formed pool whose current host is a
    live member the code at [LEAVE] returns, whatever the outcome of the
    body: the failure accounting and the rotation terminate without a
    fault.  The call re-establishes what it was entered with: the pool
    is well formed and the current host is [NULL] or a live member of
    it.  The current host stays the same unless its failure counter
    equals the retry limit. *)
Theorem HttpSend_keeps_live_host fuel o Send Resp st L a r loc st1 tr1 :
  wf_pool st L -> Transport_Host st = Some a -> a ∈ L ->
  Heap st !! a = Some r -> Dead r = false ->
  (length L + 2 < fuel)%nat ->
  HttpSend_body o Send Resp st = Ok (loc, st1, tr1) ->
  exists st',
    HttpSend fuel o Send Resp st
    = Ok (loc_Successful loc, loc_Resp loc, st', tr1 ++ HttpSend_cleanup loc)
    /\ wf_pool st' L
    /\ live_or_NULL L (Heap st') (Transport_Host st')
    /\ (Failures r <> Transport_HostMaxRetries st -> Transport_Host st' = Some a).
Proof.
  intros Hwf Hcur Ha Hr Hd Hfuel Hb.
  destruct (HttpSend_body_spec _ _ _ _ _ _ _ Hb) as (Hsp & _).
  pose proof (wf_pool_same_pool _ _ _ Hsp Hwf) as Hwf1.
  destruct Hsp as (Hh & _ & Hc & _ & Hm & _).
  unfold HttpSend. rewrite Hb. cbn [bind fst snd].
  destruct (loc_Successful loc); cbn [negb].
  - eexists. split; [done|]. split; [done|]. rewrite Hc, Hcur, Hh.
    split; [|done]. split; [done|]. unfold is_live. by rewrite Hr, Hd.
  - rewrite Hc, Hcur. rewrite <- Hh in Hr.
    destruct (HostFailure_live_cases st1 L a r fuel (o_RandomNumber32_host o))
      as (h & st2 & Hf & Hlive & Hwf2); try done.
    { by rewrite Hc, Hcur. }
    rewrite Hf. cbn [bind fst snd]. eexists. split; [done|].
    split; [exact Hwf2|]. split; [exact Hlive|].
    intros Hne. rewrite <- Hm in Hne.
    rewrite (HostFailure_below fuel _ st1 a r) in Hf by done.
    by injection Hf as <- _.
Qed.

(** X14 on a send that fails (the request is not sent) with the head
    of two live hosts at its retry limit: the head dies and the second
    host becomes current. *)
Lemma HttpSend_keeps_live_host_witness :
  exists loc st1 tr1 st',
    HttpSend_body
      (mkHttpOracle (Some 10) (Some 11) 5 (Some 12) None None None false 0 true
                    (Some 200) [Some [1; 2]] 0)
      (mkBuffer (Some [9; 9]) 2) (Some (mkBuffer None 0))
      (two_hosts false false 2 0 (Some 1%nat) 2 2 0)
    = Ok (loc, st1, tr1)
    /\ HttpSend 5
         (mkHttpOracle (Some 10) (Some 11) 5 (Some 12) None None None false 0 true
                       (Some 200) [Some [1; 2]] 0)
         (mkBuffer (Some [9; 9]) 2) (Some (mkBuffer None 0))
         (two_hosts false false 2 0 (Some 1%nat) 2 2 0)
       = Ok (loc_Successful loc, loc_Resp loc, st', tr1 ++ HttpSend_cleanup loc)
    /\ wf_pool st' [1%nat; 0%nat]
    /\ live_or_NULL [1%nat; 0%nat] (Heap st') (Transport_Host st').
Proof.
  eexists _, _, _.
  match goal with
  | |- exists st', ?body = Ok (?loc, ?st1, ?tr1) /\ _ =>
      assert (Hb : body = Ok (loc, st1, tr1)) by (vm_compute; reflexivity);
      destruct (HttpSend_keeps_live_host 5
                  (mkHttpOracle (Some 10) (Some 11) 5 (Some 12) None None None
                                false 0 true (Some 200) [Some [1; 2]] 0)
                  (mkBuffer (Some [9; 9]) 2) (Some (mkBuffer None 0))
                  (two_hosts false false 2 0 (Some 1%nat) 2 2 0) [1%nat; 0%nat]
                  1%nat (mkHost "hostB" 80 false 2 (Some 0%nat)) loc st1 tr1
                  (wf_pool_two_hosts _ _ _ _ _ _ _ _) eq_refl
                  ltac:(by left) eq_refl eq_refl ltac:(simpl; lia) Hb)
        as (st' & Hcall & Hwf & Hlive & _)
  end.
  exists st'. split; [exact Hb|]. split; [exact Hcall|]. by split.
Defined.

(** X15.  With a retry limit, when the current host has used up its
    retries and every other host of the pool is dead already, a failed
    [HttpSend] leaves no host: the current host is marked dead, the
    rotation finds nothing and revives nothing, [Transport.Host] is
    [NULL], and every later [HttpSend] ends the process. *)
Theorem HttpSend_last_host_exits fuel o Send Resp st L a r resp st' tr :
  wf_pool st L -> Transport_Host st = Some a -> a ∈ L ->
  Heap st !! a = Some r ->
  Failures r = Transport_HostMaxRetries st -> Transport_HostMaxRetries st <> 0 ->
  (forall b, b ∈ L -> b <> a -> is_dead (Heap st) b = true) ->
  (length L + 2 < fuel)%nat ->
  HttpSend fuel o Send Resp st = Ok (false, resp, st', tr) ->
  Transport_Host st' = None
  /\ (forall b, b ∈ L -> is_dead (Heap st') b = true)
  /\ forall fuel' o' Send' Resp', HttpSend fuel' o' Send' Resp' st' = ProcessExit.
Proof.
  intros Hwf Hcur Ha Hr Hlim Hmax Hdead Hfuel H.
  apply HttpSend_inv in H.
  destruct H as (loc & st1 & tr1 & Hb & _ & _ & _ & h & st2 & Hf & ->).
  destruct (HttpSend_body_spec _ _ _ _ _ _ _ Hb) as (Hsp & _).
  pose proof (wf_pool_same_pool _ _ _ Hsp Hwf) as Hwf1.
  destruct Hsp as (Hh & _ & Hc & _ & Hm & _).
  rewrite Hc, Hcur in Hf. rewrite <- Hh in Hr, Hdead. rewrite <- Hm in Hlim, Hmax.
  rewrite (HostFailure_limit fuel _ st1 a r) in Hf by done.
  set (st0 := set_Heap (<[a := set_Dead true r]> (Heap st1)) st1) in *.
  assert (Hall : forall b, b ∈ L -> is_dead (Heap st0) b = true).
  { intros b Hb'. unfold is_dead, st0. cbn [Heap set_Heap].
    destruct (decide (b = a)) as [->|Hne].
    - rewrite list_lookup_insert_eq; [done|]. by eapply lookup_lt_Some.
    - rewrite list_lookup_insert_ne by done. by apply Hdead. }
  destruct (HostRotation_frame _ _ _ _ _ _ Hf) as [_ Hst2].
  specialize (Hst2 Hmax).
  destruct (HostRotation_proxy_fields st0) as (Hheap & _).
  destruct (HostRotation_live_cases st0 L fuel (Transport_HostRotation st1)
              (o_RandomNumber32_host o))
    as (h' & st2' & Hrot & Hlive & _); try done.
  { by apply (wf_pool_insert st1 L a r). }
  { unfold st0. simpl. by rewrite Hc, Hcur. }
  { left. intros ->. by apply elem_of_nil in Ha. }
  rewrite Hrot in Hf. injection Hf as -> ->.
  assert (Hnone : h = None).
  { destruct h as [b|]; [|done]. destruct Hlive as [Hb' Hl].
    rewrite Hst2, Hheap in Hl. apply live_not_dead in Hl.
    by rewrite (Hall b Hb') in Hl. }
  subst h. split; [done|]. split.
  - intros b Hb'. cbn [Heap set_Host]. rewrite Hst2, Hheap. by apply Hall.
  - intros fuel' o' Send' Resp'. unfold HttpSend, HttpSend_body. done.
Qed.

Lemma HttpSend_last_host_exits_witness :
  exists resp st' tr,
    HttpSend 5
      (mkHttpOracle (Some 10) (Some 11) 5 (Some 12) None None None false 0 true
                    (Some 200) [Some [1; 2]] 0)
      (mkBuffer (Some [9; 9]) 2) (Some (mkBuffer None 0))
      (two_hosts false true 2 0 (Some 1%nat) 2 2 0)
    = Ok (false, resp, st', tr)
    /\ Transport_Host st' = None
    /\ HttpSend 5
         (mkHttpOracle (Some 10) (Some 11) 5 (Some 12) None None None true 0 true
                       (Some 200) [Some [1; 2]] 0)
         (mkBuffer (Some [9; 9]) 2) (Some (mkBuffer None 0)) st'
       = ProcessExit.
Proof.
  eexists _, _, _. split; [vm_compute; reflexivity|].
  destruct (HttpSend_last_host_exits 5
              (mkHttpOracle (Some 10) (Some 11) 5 (Some 12) None None None false 0
                            true (Some 200) [Some [1; 2]] 0)
              (mkBuffer (Some [9; 9]) 2) (Some (mkBuffer None 0))
              (two_hosts false true 2 0 (Some 1%nat) 2 2 0) [1%nat; 0%nat] 1%nat
              (mkHost "hostB" 80 false 2 (Some 0%nat)) _ _ _
              (wf_pool_two_hosts _ _ _ _ _ _ _ _) eq_refl
              ltac:(by left) eq_refl eq_refl ltac:(discriminate)
              ltac:(intros b Hb Hne; apply elem_of_cons in Hb as [->|Hb];
                    [done|]; apply list_elem_of_singleton in Hb as ->; reflexivity)
              ltac:(simpl; lia) ltac:(vm_compute; reflexivity))
    as (Hnone & _ & Hexit).
  split; [exact Hnone|]. apply Hexit.
Defined.

(** ** Further properties: the callers and the SMB channel *)

(** X16.  [TransportSend] on the HTTP channel, on either side of the
    unresolved merge conflict of [Transport.c]: it always hands
    [HttpSend] a response buffer, so it returns [TRUE] exactly when the
    handles were obtained and the exchange went through.  On [TRUE] the
    outputs the caller asked for receive the response and its length; a
    response the caller gave no [RecvData] for is freed on the "Stashed
    changes" side, while the "Updated upstream" side makes no call for
    it.  On [FALSE] the outputs are left as they were and nothing is
    freed, on both sides.  The two sides differ in nothing else. *)
Theorem TransportSend_HTTP_outputs side fuel o Data RecvData RecvSize st
    ok d s st' tr :
  TransportSend_HTTP side fuel o Data RecvData RecvSize st
  = Ok (ok, d, s, st', tr) ->
  exists resp tr0,
    HttpSend fuel o Data (Some (mkBuffer None 0)) st = Ok (ok, resp, st', tr0)
    /\ ok = non_NULL (match hHttpSession st with
                      | Some h => Some h
                      | None => o_WinHttpOpen o
                      end)
            && non_NULL (o_WinHttpConnect o) && non_NULL (o_WinHttpOpenRequest o)
            && exchange_ok o
    /\ d = (if ok then store RecvData (Buffer (response_of o)) else RecvData)
    /\ s = (if ok then store RecvSize (Length (response_of o)) else RecvSize)
    /\ tr = tr0 ++ (match side with
                    | StashedChanges =>
                        if ok && negb (non_NULL RecvData) then [EvLocalFree] else []
                    | UpdatedUpstream => []
                    end)
    /\ forall side',
         exists tr',
           TransportSend_HTTP side' fuel o Data RecvData RecvSize st
           = Ok (ok, d, s, st', tr')
           /\ filter (fun e => is_LocalFree e = false) tr'
              = filter (fun e => is_LocalFree e = false) tr.
Proof.
  unfold TransportSend_HTTP.
  destruct (HttpSend fuel o Data (Some (mkBuffer None 0)) st)
    as [[[[ok0 resp] st0] tr0]| | |] eqn:Hs; try discriminate.
  cbn [bind fst snd].
  destruct (HttpSend_result _ _ _ _ _ _ _ _ _ Hs) as (Hok & Ht & _).
  cbn [non_NULL] in Hok. rewrite andb_true_r in Hok.
  assert (Hfree : forall sd,
            filter (fun e => is_LocalFree e = false)
                   (tr0 ++ TransportSend_unwanted sd RecvData)
            = filter (fun e => is_LocalFree e = false) tr0).
  { intros sd. rewrite filter_app.
    destruct sd, RecvData; by rewrite ?app_nil_r. }
  destruct ok0.
  - intros [= <- <- <- <- <-]. destruct (Ht eq_refl) as (-> & _).
    exists (Some (response_of o)), tr0. repeat split; try done.
    + by destruct side, RecvData.
    + intros side'. eexists. split; [done|]. by rewrite !Hfree.
  - intros [= <- <- <- <- <-]. exists resp, tr0. repeat split; try done.
    + destruct side; by rewrite app_nil_r.
    + intros side'. by eexists.
Qed.

(** X16 on a successful exchange whose caller passes no [RecvData]: the
    "Stashed changes" side ends with the [LocalFree], the "Updated
    upstream" side does not. *)
Lemma TransportSend_HTTP_outputs_witness :
  exists ok d s st' tr tr',
    TransportSend_HTTP StashedChanges 5
      (mkHttpOracle (Some 10) (Some 11) 5 (Some 12) None None None true 0 true
                    (Some 200) [Some [1; 2]; Some [3]] 0)
      (mkBuffer (Some [9; 9]) 2) None (Some 7) (set_Host (Some 1%nat) pool_two)
    = Ok (ok, d, s, st', tr)
    /\ ok = true /\ d = None /\ s = Some 3
    /\ TransportSend_HTTP UpdatedUpstream 5
         (mkHttpOracle (Some 10) (Some 11) 5 (Some 12) None None None true 0 true
                       (Some 200) [Some [1; 2]; Some [3]] 0)
         (mkBuffer (Some [9; 9]) 2) None (Some 7) (set_Host (Some 1%nat) pool_two)
       = Ok (ok, d, s, st', tr')
    /\ tr = tr' ++ [EvLocalFree].
Proof.
  eexists _, _, _, _, _, _. split; [vm_compute; reflexivity|].
  match goal with
  | |- ?ok = _ /\ ?d = _ /\ ?s = _ /\ _ = Ok (_, _, _, ?st', _) /\ ?tr = _ =>
      destruct (TransportSend_HTTP_outputs StashedChanges 5
                  (mkHttpOracle (Some 10) (Some 11) 5 (Some 12) None None None
                                true 0 true (Some 200) [Some [1; 2]; Some [3]] 0)
                  (mkBuffer (Some [9; 9]) 2) None (Some 7)
                  (set_Host (Some 1%nat) pool_two) ok d s st' tr
                  ltac:(vm_compute; reflexivity))
        as (resp & tr0 & _ & Hok & Hd & Hs & _)
  end.
  split; [exact Hok|]. split; [exact Hd|]. split; [exact Hs|].
  split; [vm_compute; reflexivity|]. reflexivity.
Defined.

(** X17.  After a failed [ConnectNamedPipe] on a freshly created pipe
    [SmbSend] closes the handle but keeps it in [Instance]: the next
    [SmbSend] creates no pipe and writes to that handle, and when this
    write fails with [ERROR_NO_DATA] the handle is closed once more
    before it is cleared. *)
Theorem SmbSend_connect_failure_keeps_handle o Send st pipe :
  Transport_Handle st = None -> o_CreateNamedPipeW o = Some pipe ->
  o_ConnectNamedPipe o = false ->
  SmbSend o Send st
  = (false, set_Handle (Some pipe) st,
     [EvCreateNamedPipeW; EvConnectNamedPipe pipe; EvSysNtClose pipe])
  /\ forall o' Send',
       (exists tl,
          snd (SmbSend o' Send' (set_Handle (Some pipe) st))
          = EvPipeWrite pipe Send' :: tl)
       /\ (EvCreateNamedPipeW ∉ snd (SmbSend o' Send' (set_Handle (Some pipe) st)))
       /\ (o_PipeWrite o' = false -> o_PipeWrite_LastError o' = ERROR_NO_DATA ->
           SmbSend o' Send' (set_Handle (Some pipe) st)
           = (false, set_Connected false (set_Handle None st),
              [EvPipeWrite pipe Send'; EvSysNtClose pipe])).
Proof.
  intros Hh Hc Hn. split.
  - unfold SmbSend. rewrite Hh. cbn [Transport_Handle set_Handle].
    by rewrite Hc, Hn.
  - intros o' Send'. unfold SmbSend. cbn [Transport_Handle set_Handle].
    destruct (o_PipeWrite o'); cbn [negb fst snd].
    + split; [by eexists|]. split; [|done].
      intros H. by apply list_elem_of_singleton in H.
    + destruct (Z.eqb_spec (o_PipeWrite_LastError o') ERROR_NO_DATA) as [He|He];
        cbn [fst snd].
      * split; [by eexists|]. split.
        -- rewrite !elem_of_cons, elem_of_nil. by intros [|[|]].
        -- intros _ _. by destruct st.
      * split; [by eexists|]. split; [|done].
        intros H. by apply list_elem_of_singleton in H.
Qed.

Lemma SmbSend_connect_failure_keeps_handle_witness :
  SmbSend (mkSmbOracle (Some 7) false true 0 None (mkReadFile true 0 0)
                       (mkReadFile true 0 0) true None)
          (mkBuffer (Some [1; 2]) 2) pool_two
  = (false, set_Handle (Some 7) pool_two,
     [EvCreateNamedPipeW; EvConnectNamedPipe 7; EvSysNtClose 7]).
Proof.
  exact (proj1 (SmbSend_connect_failure_keeps_handle
                  (mkSmbOracle (Some 7) false true 0 None (mkReadFile true 0 0)
                               (mkReadFile true 0 0) true None)
                  (mkBuffer (Some [1; 2]) 2) pool_two 7 eq_refl eq_refl eq_refl)).
Defined.

(** X18.  [TransportSend] on the SMB channel is [SmbSend].  Whatever
    the outside answers, the call changes nothing in [Instance] but the
    pipe handle and the [Connected] flag, never sets the flag, creates a
    pipe exactly when no handle is stored, and a [TRUE] return means
    that a handle is stored, that [PipeWrite] was called on it and that
    the flag was not touched. *)
Theorem TransportSend_SMB_frame o Data st :
  let res := TransportSend_SMB o Data st in
  let st' := snd (fst res) in
  res = SmbSend o Data st
  /\ st' = set_Connected (Session_Connected st') (set_Handle (Transport_Handle st') st)
  /\ (Session_Connected st' = true -> Session_Connected st = true)
  /\ (EvCreateNamedPipeW ∈ snd res <-> Transport_Handle st = None)
  /\ (fst (fst res) = true ->
      exists pipe, Transport_Handle st' = Some pipe
                   /\ EvPipeWrite pipe Data ∈ snd res
                   /\ Session_Connected st' = Session_Connected st).
Proof.
  cbn zeta. unfold TransportSend_SMB.
  assert (Hid : forall s : INSTANCE,
            s = set_Connected (Session_Connected s)
                  (set_Handle (Transport_Handle s) s)) by by intros [].
  assert (Hwrap : forall x : bool * INSTANCE * list EVENT,
            (if fst (fst x) then true else false, snd (fst x), snd x) = x).
  { intros [[[] ?] ?]; done. }
  rewrite Hwrap. split; [done|].
  unfold SmbSend. destruct (Transport_Handle st) as [pipe|] eqn:Hh.
  - destruct (o_PipeWrite o); cbn [negb fst snd].
    + split; [apply Hid|]. split; [done|]. split.
      * rewrite list_elem_of_singleton. by split.
      * intros _. exists pipe. rewrite list_elem_of_singleton. by repeat split.
    + destruct (_ =? _); cbn [fst snd].
      * split; [by destruct st|]. split; [done|]. split; [|done].
        rewrite !elem_of_cons, elem_of_nil. split; [by intros [|[|]]|done].
      * split; [apply Hid|]. split; [done|]. split.
        -- rewrite list_elem_of_singleton. by split.
        -- intros _. exists pipe. rewrite list_elem_of_singleton. by repeat split.
  - cbn [Transport_Handle set_Handle].
    destruct (o_CreateNamedPipeW o) as [pipe|]; cbn [fst snd].
    + destruct (o_ConnectNamedPipe o); cbn [negb fst snd].
      * split; [by destruct st; simpl in *; subst|]. split; [done|]. split.
        -- split; [done|]. intros _. by left.
        -- intros _. exists pipe. split; [done|]. split; [|done].
           rewrite !elem_of_cons. right; right; by left.
      * split; [by destruct st; simpl in *; subst|]. split; [done|]. split; [|done].
        split; [done|]. intros _. by left.
    + split; [by destruct st; simpl in *; subst|]. split; [done|]. split; [|done].
      split; [done|]. intros _. by left.
Qed.

(** What [SmbRecv] does to [Instance] and to the caller's buffer. *)
Lemma SmbRecv_outcome o Resp st :
  snd (fst (SmbRecv o Resp st))
  = (if fst (fst (fst (SmbRecv o Resp st))) then st else set_Connected false st)
  /\ (o_PeekNamedPipe o = None ->
      SmbRecv o Resp st
      = (false, Resp, set_Connected false st, [EvPeekNamedPipe (Transport_Handle st)]))
  /\ (fst (fst (fst (SmbRecv o Resp st))) = false -> o_PeekNamedPipe o <> None ->
      snd (fst (fst (SmbRecv o Resp st))) = mkBuffer None 0)
  /\ (forall body,
        Buffer (snd (fst (fst (SmbRecv o Resp st)))) = Some body ->
        Buffer Resp = Some body
        \/ fst (fst (fst (SmbRecv o Resp st))) = true
           /\ o_PipeRead o = Some body /\ o_LocalAlloc o = true
           /\ (exists n, o_PeekNamedPipe o = Some n /\ 8 < n)
           /\ Session_AgentID st = DWORD (rf_value (o_ReadFile_DemonId o))
           /\ Length (snd (fst (fst (SmbRecv o Resp st))))
              = DWORD (rf_value (o_ReadFile_PackageSize o))).
Proof.
  unfold SmbRecv, SmbRecv_fail.
  destruct (o_PeekNamedPipe o) as [n|]; [|by repeat split; auto].
  destruct (Z.ltb_spec (4 + 4) n) as [Hn|Hn]; [|by repeat split; auto].
  destruct (read_failed (o_ReadFile_DemonId o)); [by repeat split|].
  destruct (Z.eqb_spec (Session_AgentID st) (DWORD (rf_value (o_ReadFile_DemonId o))))
    as [Hid|Hid]; cbn [negb]; [|by repeat split].
  destruct (read_failed (o_ReadFile_PackageSize o)); [by repeat split|].
  destruct (o_PipeRead o) as [body|]; [|by repeat split].
  cbn [fst snd Buffer Length]. repeat split; try done.
  intros body' Hb. right. destruct (o_LocalAlloc o); [|done].
  injection Hb as ->. repeat split; try done. exists n. split; [done|lia].
Qed.

(** X19.  [SmbRecv] changes nothing in [Instance] on [TRUE] and only
    clears [Connected] on [FALSE]; the pipe handle is never touched.
    When the peek itself fails the caller's buffer is left as it is;
    on every other failure it is emptied.  The buffer allocated for
    the body is freed exactly when the allocation succeeded and the
    body could not be read. *)
Theorem SmbRecv_state o Resp st :
  snd (fst (SmbRecv o Resp st))
  = (if fst (fst (fst (SmbRecv o Resp st))) then st else set_Connected false st)
  /\ Transport_Handle (snd (fst (SmbRecv o Resp st))) = Transport_Handle st
  /\ (o_PeekNamedPipe o = None ->
      SmbRecv o Resp st
      = (false, Resp, set_Connected false st, [EvPeekNamedPipe (Transport_Handle st)]))
  /\ (fst (fst (fst (SmbRecv o Resp st))) = false -> o_PeekNamedPipe o <> None ->
      snd (fst (fst (SmbRecv o Resp st))) = mkBuffer None 0)
  /\ (EvLocalFree ∈ snd (SmbRecv o Resp st)
      <-> fst (fst (fst (SmbRecv o Resp st))) = false
          /\ o_LocalAlloc o = true
          /\ exists n, EvLocalAlloc n ∈ snd (SmbRecv o Resp st)).
Proof.
  destruct (SmbRecv_outcome o Resp st) as (Hst & Hpeek & Hbuf & _).
  split; [done|]. split; [rewrite Hst; by destruct (fst (fst (fst _)))|].
  split; [done|]. split; [done|].
  unfold SmbRecv, SmbRecv_fail.
  assert (Hno : forall (P : Prop) (l : list EVENT),
            (forall e, e ∈ l -> e <> EvLocalFree /\ forall n, e <> EvLocalAlloc n) ->
            EvLocalFree ∈ l <-> P /\ o_LocalAlloc o = true
                                /\ exists n, EvLocalAlloc n ∈ l).
  { intros P l Hl. split.
    - intros H. by destruct (Hl _ H) as [? _].
    - intros (_ & _ & n & H). by destruct (Hl _ H) as [_ Hn']; destruct (Hn' n). }
  destruct (o_PeekNamedPipe o) as [n|]; cbn [fst snd].
  2: { apply Hno. intros e He. apply list_elem_of_singleton in He as ->. done. }
  destruct (4 + 4 <? n); cbn [fst snd].
  2: { apply Hno. intros e He. apply list_elem_of_singleton in He as ->. done. }
  destruct (read_failed (o_ReadFile_DemonId o)); cbn [fst snd].
  { apply Hno. intros e He. rewrite !elem_of_cons, elem_of_nil in He.
    by destruct He as [->|[->|[]]]. }
  destruct (negb _); cbn [fst snd].
  { apply Hno. intros e He. rewrite !elem_of_cons, elem_of_nil in He.
    by destruct He as [->|[->|[]]]. }
  destruct (read_failed (o_ReadFile_PackageSize o)); cbn [fst snd].
  { apply Hno. intros e He. simpl in He. rewrite !elem_of_cons, elem_of_nil in He.
    by destruct He as [->|[->|[->|[]]]]. }
  destruct (o_PipeRead o) as [body|]; cbn [fst snd].
  - simpl. rewrite !elem_of_cons, elem_of_nil. split.
    + by intros [|[|[|[|[|[]]]]]].
    + by intros [? _].
  - destruct (o_LocalAlloc o); simpl; rewrite !elem_of_cons, elem_of_nil.
    + split.
      * intros _. repeat split; try done.
        exists (DWORD (rf_value (o_ReadFile_PackageSize o))).
        rewrite !elem_of_cons. do 3 right. by left.
      * intros _. do 5 right. by left.
    + split.
      * by intros [|[|[|[|[|[]]]]]].
      * by intros (_ & ? & _).
Qed.

(** X20.  [SMBGetJob] clears the outputs before it reads: on [FALSE],
    and on [TRUE] with nothing (or too little) in the pipe, the outputs
    the caller passed hold [NULL] and [0], whatever they held before.
    A job comes out only of a framed read: more than 8 bytes waiting, a
    [DemonId] equal to the agent's, and a body read in full; its length
    is the [PackageSize] read from the pipe.  An output the caller did
    not pass is never written. *)
Theorem SMBGetJob_outputs o RecvData RecvSize st :
  let res := SMBGetJob o RecvData RecvSize st in
  let ok := fst (fst (fst (fst res))) in
  let d := snd (fst (fst (fst res))) in
  let s := snd (fst (fst res)) in
  ok = fst (fst (fst (SmbRecv o (mkBuffer None 0) st)))
  /\ snd (fst res) = (if ok then st else set_Connected false st)
  /\ non_NULL d = non_NULL RecvData /\ non_NULL s = non_NULL RecvSize
  /\ (ok = false -> d = store RecvData None /\ s = store RecvSize 0)
  /\ (forall n, o_PeekNamedPipe o = Some n -> n <= 8 ->
        ok = true /\ d = store RecvData None /\ s = store RecvSize 0)
  /\ (forall body, d = Some (Some body) ->
        ok = true /\ o_PipeRead o = Some body
        /\ (exists n, o_PeekNamedPipe o = Some n /\ 8 < n)
        /\ Session_AgentID st = DWORD (rf_value (o_ReadFile_DemonId o))
        /\ s = store RecvSize (DWORD (rf_value (o_ReadFile_PackageSize o)))).
Proof.
  cbn zeta. unfold SMBGetJob.
  destruct (SmbRecv_outcome o (mkBuffer None 0) st) as (Hst & _ & _ & Hbody).
  assert (Hsmall : forall n, o_PeekNamedPipe o = Some n -> n <= 8 ->
            SmbRecv o (mkBuffer None 0) st
            = (true, mkBuffer None 0, st, [EvPeekNamedPipe (Transport_Handle st)])).
  { intros n Hn Hle. unfold SmbRecv. rewrite Hn.
    by destruct (Z.ltb_spec (4 + 4) n); [lia|]. }
  destruct (SmbRecv o (mkBuffer None 0) st) as [[[ok Resp] st'] tr] eqn:Hr.
  cbn [fst snd] in *. destruct ok; cbn [fst snd].
  - split; [done|]. split; [done|].
    split; [by destruct RecvData|]. split; [by destruct RecvSize|].
    split; [done|]. split.
    + intros n Hn Hle. specialize (Hsmall n Hn Hle).
      injection Hsmall as -> _ _. split; [done|].
      by destruct RecvData, RecvSize.
    + intros body Hd. destruct RecvData as [x|]; [|done]. cbn [store] in Hd.
      injection Hd as Hd. destruct (Hbody body Hd) as [|(_ & Hp & _ & Hn & Hid & Hl)];
        [done|].
      repeat split; try done. destruct RecvSize; [|done]. cbn [store]. by rewrite Hl.
  - split; [done|]. split; [done|].
    split; [by destruct RecvData|]. split; [by destruct RecvSize|].
    split; [done|]. split.
    + intros n Hn Hle. by specialize (Hsmall n Hn Hle).
    + intros body Hd. by destruct RecvData.
Qed.

(** X21.  [SmbSecurityAttrFree] releases each member that is set once,
    the two SIDs through [FreeSid], the ACL and the descriptor through
    [MmHeapFree], and clears all four: a second call on the same
    structure releases nothing. *)
Theorem SmbSecurityAttrFree_releases_once a :
  SmbSecurityAttrFree (fst (SmbSecurityAttrFree a))
  = (fst (SmbSecurityAttrFree a), [])
  /\ snd (SmbSecurityAttrFree a)
     = map RelFreeSid (option_list (Sid a) ++ option_list (SidLow a))
       ++ map RelMmHeapFree (option_list (SAcl a) ++ option_list (SecDec a)).
Proof.
  split; [done|]. unfold SmbSecurityAttrFree. cbn [snd].
  by destruct (Sid a), (SidLow a), (SAcl a), (SecDec a).
Qed.
